(** * DineFlow backend: order lifecycle, rider dispatch and notification fanout

    A shallow embedding of the Order model with its static methods, the
    rider service, the notification service and the two order routes
    POST /api/orders and PUT /api/orders/:id/status.

    Conventions of the embedding.
    - Tables are lists of rows, in insertion order.  A query is a function
      of the table; a write returns the new table.
    - Money columns are DECIMAL(10,2); a value is the integer number of
      cents.  The JavaScript side computes on doubles, which represent
      every such amount and every intermediate sum used here to well below
      half a cent, so the stored result is the exact decimal one.
    - [new Date()] is an input [now], in the unit of the DATETIME columns
      that store it: whole seconds.
    - A rejected promise / thrown Error is the [Throw] case of [Result]. *)

From Stdlib Require Import ZArith List String Ascii Bool Lia.
From Stdlib Require Import DecimalString DecimalZ DecimalPos DecimalFacts.
From Stdlib Require Import Sorting.Permutation Sorting.Sorted.
Import ListNotations.

Local Open Scope string_scope.
Local Open Scope list_scope.
Local Open Scope Z_scope.

(** ** JavaScript values and exceptions *)

Record JsError : Type := mkJsError {
  error_name : string;
  error_message : string;
}.

(** [new Error(message)] *)
Definition Error (m : string) : JsError := mkJsError "Error" m.

Definition TypeError (m : string) : JsError := mkJsError "TypeError" m.

Inductive Result (A : Type) : Type :=
| Ok (a : A)
| Throw (error : JsError).

Arguments Ok {A} a.
Arguments Throw {A} error.

Definition bind {A B} (r : Result A) (k : A -> Result B) : Result B :=
  match r with
  | Ok a => k a
  | Throw e => Throw e
  end.

Notation "'let*' x ':=' r 'in' k" := (bind r (fun x => k))
  (at level 10, x pattern, r at level 100, k at level 200).

(** Truthiness of an integer attribute that may be [null]: [null] and [0]
    are falsy. *)
Definition truthy_id (x : option Z) : bool :=
  match x with
  | Some n => negb (n =? 0)
  | None => false
  end.

(** Truthiness of a DECIMAL attribute as Sequelize returns it from MySQL:
    [null] is falsy; a value is the decimal string (e.g. "0.00"), and a
    non-empty string is truthy. *)
Definition truthy_decimal (x : option Z) : bool :=
  match x with
  | Some _ => true
  | None => false
  end.

(** [parseFloat(x) || 0] on such an attribute, in cents. *)
Definition parseFloat_or_0 (x : option Z) : Z :=
  match x with
  | Some c => c
  | None => 0
  end.

(** ** Data model *)

Inductive OrderStatus : Type :=
| pending | confirmed | preparing | ready
| out_for_delivery | delivered | cancelled.

Definition status_eqb (a b : OrderStatus) : bool :=
  match a, b with
  | pending, pending | confirmed, confirmed | preparing, preparing
  | ready, ready | out_for_delivery, out_for_delivery
  | delivered, delivered | cancelled, cancelled => true
  | _, _ => false
  end.

Definition status_name (s : OrderStatus) : string :=
  match s with
  | pending => "pending"
  | confirmed => "confirmed"
  | preparing => "preparing"
  | ready => "ready"
  | out_for_delivery => "out_for_delivery"
  | delivered => "delivered"
  | cancelled => "cancelled"
  end.

Definition validStatuses : list OrderStatus :=
  [pending; confirmed; preparing; ready; out_for_delivery; delivered; cancelled].

(** The status carried by a request body is a string; it denotes a status
    when it is one of the seven names. *)
Definition status_of_string (s : string) : option OrderStatus :=
  find (fun st => String.eqb (status_name st) s) validStatuses.

Inductive Role : Type := customer | restaurant_owner | rider.

Definition role_eqb (a b : Role) : bool :=
  match a, b with
  | customer, customer | restaurant_owner, restaurant_owner | rider, rider => true
  | _, _ => false
  end.

Record User : Type := mkUser {
  user_id : Z;
  user_name : string;
  user_role : Role;
  user_is_active : bool;
  user_created_at : Z;
}.

Record Restaurant : Type := mkRestaurant {
  restaurant_pk : Z;
  restaurant_name : string;
  owner_id : Z;
  is_active : bool;
  is_accepting_orders : bool;
}.

Record Order : Type := mkOrder {
  id : Z;
  customer_id : Z;
  restaurant_id : Z;
  address_id : Z;
  rider_id : option Z;
  order_number : string;
  status : OrderStatus;
  subtotal : Z;
  delivery_fee : option Z;
  total_amount : Z;
  estimated_delivery_time : option Z;
  delivered_at : option Z;
  cancelled_at : option Z;
  cancellation_reason : option string;
  rider_earning : option Z;
  created_at : Z;
}.

(** The object handed to [order.update(...)]: each key is absent ([None])
    or present with a value; a nullable column present with [null] is
    [Some None]. *)
Record UpdateData : Type := mkUpdateData {
  ud_status : option OrderStatus;
  ud_rider_id : option (option Z);
  ud_estimated_delivery_time : option Z;
  ud_delivered_at : option Z;
  ud_cancelled_at : option Z;
  ud_cancellation_reason : option (option string);
  ud_rider_earning : option (option Z);
}.

Definition or_keep {A} (new : option A) (old : A) : A :=
  match new with
  | Some v => v
  | None => old
  end.

(** [order.update(updateData)]: the keys present overwrite the attributes. *)
Definition update (o : Order) (u : UpdateData) : Order :=
  mkOrder (id o) (customer_id o) (restaurant_id o) (address_id o)
    (or_keep (ud_rider_id u) (rider_id o))
    (order_number o)
    (or_keep (ud_status u) (status o))
    (subtotal o) (delivery_fee o) (total_amount o)
    (match ud_estimated_delivery_time u with
     | Some t => Some t
     | None => estimated_delivery_time o
     end)
    (match ud_delivered_at u with
     | Some t => Some t
     | None => delivered_at o
     end)
    (match ud_cancelled_at u with
     | Some t => Some t
     | None => cancelled_at o
     end)
    (or_keep (ud_cancellation_reason u) (cancellation_reason o))
    (or_keep (ud_rider_earning u) (rider_earning o))
    (created_at o).

(** ** The order table *)

Definition Orders := list Order.

Definition findByPk (os : Orders) (pk : Z) : option Order :=
  find (fun o => id o =? pk) os.

(** Write back the row with the primary key of [o']. *)
Fixpoint save (os : Orders) (o' : Order) : Orders :=
  match os with
  | [] => []
  | o :: rest =>
      if id o =? id o' then o' :: rest else o :: save rest o'
  end.

(** ** Order.updateStatus

    The status is one of the seven values by its type, so the check
    against [validStatuses] of the source cannot fail here. *)

(** The keys a caller may put in [additionalData]. *)
Record AdditionalData : Type := mkAdditionalData {
  ad_status : option OrderStatus;
  ad_estimated_delivery_time : option Z;
  ad_cancellation_reason : option (option string);
}.

Definition no_additionalData : AdditionalData :=
  mkAdditionalData None None None.

(** [(deliveryFee * 0.80).toFixed(2)] in cents.  The exact product is a
    whole number of tenths of a cent, [8 * fee], whose last digit is even,
    so no rounding tie occurs and [toFixed] yields the nearest cent. *)
Definition RIDER_EARNING_TENTHS : Z := 8.

Definition toFixed2_of_tenths (tenths : Z) : Z := (tenths + 5) / 10.

Definition earning_of_fee (deliveryFee : Z) : Z :=
  toFixed2_of_tenths (deliveryFee * RIDER_EARNING_TENTHS).

Definition updateStatus_data (order : Order) (st : OrderStatus)
    (additionalData : AdditionalData) (now : Z) : UpdateData :=
  let updateData :=
    mkUpdateData
      (Some (or_keep (ad_status additionalData) st))
      None
      (ad_estimated_delivery_time additionalData)
      None None
      (ad_cancellation_reason additionalData)
      None in
  match st with
  | delivered =>
      mkUpdateData (ud_status updateData) (ud_rider_id updateData)
        (ud_estimated_delivery_time updateData)
        (Some now)
        (ud_cancelled_at updateData)
        (ud_cancellation_reason updateData)
        (if truthy_id (rider_id order) && truthy_decimal (delivery_fee order)
         then Some (Some (earning_of_fee (parseFloat_or_0 (delivery_fee order))))
         else ud_rider_earning updateData)
  | cancelled =>
      mkUpdateData (ud_status updateData) (ud_rider_id updateData)
        (ud_estimated_delivery_time updateData)
        (ud_delivered_at updateData)
        (Some now)
        (ud_cancellation_reason updateData)
        (Some None)
  | _ => updateData
  end.

Definition updateStatus (os : Orders) (pk : Z) (st : OrderStatus)
    (additionalData : AdditionalData) (now : Z) : Result (Orders * Order) :=
  match findByPk os pk with
  | None => Throw (Error "Order not found")
  | Some order =>
      let order' := update order (updateStatus_data order st additionalData now) in
      Ok (save os order', order')
  end.

(** ** Order.cancelOrder *)

Definition nonCancellableStatuses : list OrderStatus := [delivered; cancelled].

Definition includes (l : list OrderStatus) (s : OrderStatus) : bool :=
  existsb (status_eqb s) l.

Definition cancelOrder (os : Orders) (pk : Z) (reason : option string) (now : Z)
  : Result (Orders * Order) :=
  match findByPk os pk with
  | None => Throw (Error "Order not found")
  | Some order =>
      if includes nonCancellableStatuses (status order)
      then Throw (Error ("Cannot cancel order with status: "
                           ++ status_name (status order))%string)
      else updateStatus os pk cancelled
             (mkAdditionalData None None (Some reason)) now
  end.

(** ** Order.assignRider *)

Definition assignRider (os : Orders) (pk : Z) (riderId : Z)
  : Result (Orders * Order) :=
  match findByPk os pk with
  | None => Throw (Error "Order not found")
  | Some order =>
      if negb (status_eqb (status order) ready)
      then Throw (Error "Order must be ready before assigning a rider")
      else
        let order' :=
          update order
            (mkUpdateData None (Some (Some riderId)) None None None None None) in
        Ok (save os order', order')
  end.

(** ** Ordering of query results and of [Array.prototype.sort]

    [ORDER BY] and the stable [sort] of the runtime are both modelled by a
    stable insertion sort: elements that compare equal keep their input
    order. *)

Section StableSort.
Context {A : Type} (le : A -> A -> bool).

Fixpoint insert_sorted (x : A) (l : list A) : list A :=
  match l with
  | [] => [x]
  | y :: l' => if le x y then x :: l else y :: insert_sorted x l'
  end.

Definition stable_sort (l : list A) : list A :=
  fold_right insert_sorted [] l.
End StableSort.

Definition order_by_asc {A} (key : A -> Z) : list A -> list A :=
  stable_sort (fun a b => key a <=? key b).

Definition order_by_desc {A} (key : A -> Z) : list A -> list A :=
  stable_sort (fun a b => key b <=? key a).

(** ** Order.findAvailableForRider *)

Definition is_unassigned_ready (o : Order) : bool :=
  status_eqb (status o) ready &&
  match rider_id o with None => true | Some _ => false end.

Definition findAvailableForRider (os : Orders) (limit : nat) : list Order :=
  firstn limit (order_by_asc created_at (filter is_unassigned_ready os)).

(** ** User queries *)

Definition Users := list User.

Definition User_findByPk (us : Users) (pk : Z) : option User :=
  find (fun u => user_id u =? pk) us.

Definition findByRole (us : Users) (r : Role) (limit : nat) : list User :=
  firstn limit
    (order_by_desc user_created_at
       (filter (fun u => role_eqb (user_role u) r && user_is_active u) us)).

(** ** Rider service *)

Definition active_statuses : list OrderStatus := [ready; out_for_delivery].

Definition in_ids (x : Z) (ids : list Z) : bool := existsb (Z.eqb x) ids.

Definition rider_id_eq_dec (a b : option Z) : {a = b} + {a <> b}.
Proof. decide equality; apply Z.eq_dec. Defined.

(** Rows of the grouped busy-rider query: one [rider_id] per group. *)
Definition busyRiders (os : Orders) (riderIds : list Z) : list (option Z) :=
  nodup rider_id_eq_dec
    (map rider_id
       (filter (fun o =>
                  match rider_id o with
                  | Some r => in_ids r riderIds
                  | None => false
                  end && includes active_statuses (status o)) os)).

(** [.map(order => order.rider_id).filter(Boolean)] *)
Fixpoint filter_Boolean (l : list (option Z)) : list Z :=
  match l with
  | [] => []
  | Some n :: l' => if n =? 0 then filter_Boolean l' else n :: filter_Boolean l'
  | None :: l' => filter_Boolean l'
  end.

Definition findAvailableRiders (us : Users) (os : Orders) (limit : nat)
  : list User :=
  let allRiders := findByRole us rider 100 in
  match allRiders with
  | [] => []
  | _ =>
      let riderIds := map user_id allRiders in
      let busyRiderIds := filter_Boolean (busyRiders os riderIds) in
      let availableRiders :=
        filter (fun r => negb (in_ids (user_id r) busyRiderIds)) allRiders in
      firstn limit availableRiders
  end.

(** [Order.count] of the rider's orders in ready / out_for_delivery. *)
Definition activeDeliveries (os : Orders) (riderId : Z) : Z :=
  Z.of_nat
    (List.length
       (filter (fun o =>
                  match rider_id o with
                  | Some r => r =? riderId
                  | None => false
                  end && includes active_statuses (status o)) os)).

Record RiderCount : Type := mkRiderCount {
  rc_rider : User;
  rc_count : Z;
}.

Definition riderDeliveryCounts (os : Orders) (availableRiders : list User)
  : list RiderCount :=
  map (fun r => mkRiderCount r (activeDeliveries os (user_id r))) availableRiders.

(** [.sort((a, b) => a.count - b.count)] *)
Definition sort_by_count : list RiderCount -> list RiderCount :=
  stable_sort (fun a b => rc_count a - rc_count b <=? 0).

Record AssignResult : Type := mkAssignResult {
  success : bool;
  ar_rider : option User;
  ar_message : string;
  alreadyAssigned : option bool;
}.

Definition name_or (default : string) (u : option User) : string :=
  match u with
  | Some u' => if String.eqb (user_name u') "" then default else user_name u'
  | None => default
  end.

Definition autoAssignRider (us : Users) (os : Orders) (orderId : Z)
  : Result (Orders * AssignResult) :=
  match findByPk os orderId with
  | None => Throw (Error "Order not found")
  | Some order =>
      if negb (status_eqb (status order) ready) then
        Ok (os, mkAssignResult false None
                  ("Order must be in 'ready' status. Current status: "
                     ++ status_name (status order))%string
                  None)
      else if truthy_id (rider_id order) then
        let existingRider :=
          match rider_id order with
          | Some r => User_findByPk us r
          | None => None
          end in
        Ok (os, mkAssignResult true existingRider
                  ("Rider already assigned: " ++ name_or "Unknown" existingRider)%string
                  (Some true))
      else
        let availableRiders := findAvailableRiders us os 10 in
        match availableRiders with
        | [] =>
            Ok (os, mkAssignResult false None
                      "No available riders at the moment. Please try again later."
                      None)
        | _ :: _ =>
            match sort_by_count (riderDeliveryCounts os availableRiders) with
            | [] => Throw (TypeError "Cannot read properties of undefined (reading 'rider')")
            | first :: _ =>
                let selectedRider := rc_rider first in
                let* (os', _) := assignRider os orderId (user_id selectedRider) in
                Ok (os', mkAssignResult true (Some selectedRider)
                           ("Rider " ++ user_name selectedRider
                              ++ " has been automatically assigned to the order")%string
                           (Some false))
            end
        end
  end.

(** ** assignPendingReadyOrders

    [store_fault pk] is the error of a rejected store access while the
    order [pk] is being assigned (an infrastructure failure), if any; the
    only write of [autoAssignRider] is its last store access, so a
    rejection leaves the table as it was. *)

Record AssignmentEntry : Type := mkAssignmentEntry {
  ae_order_id : Z;
  ae_order_number : string;
  ae_success : bool;
  ae_rider : option User;
  ae_message : string;
  ae_alreadyAssigned : option bool;
}.

Section Backlog.
Variable store_fault : Z -> option JsError.

Definition try_autoAssignRider (us : Users) (os : Orders) (orderId : Z)
  : Result (Orders * AssignResult) :=
  match store_fault orderId with
  | Some e => Throw e
  | None => autoAssignRider us os orderId
  end.

(** The body of the [for ... of] loop with its [try] / [catch]. *)
Definition assign_one (us : Users) (os : Orders) (order : Order)
  : Orders * AssignmentEntry :=
  match try_autoAssignRider us os (id order) with
  | Ok (os', result) =>
      (os', mkAssignmentEntry (id order) (order_number order)
              (success result) (ar_rider result) (ar_message result)
              (alreadyAssigned result))
  | Throw error =>
      (os, mkAssignmentEntry (id order) (order_number order)
             false None (error_message error) None)
  end.

Fixpoint assign_each (us : Users) (os : Orders) (pendingOrders : list Order)
  : Orders * list AssignmentEntry :=
  match pendingOrders with
  | [] => (os, [])
  | order :: rest =>
      let '(os1, entry) := assign_one us os order in
      let '(os2, entries) := assign_each us os1 rest in
      (os2, entry :: entries)
  end.

Definition assignPendingReadyOrders (us : Users) (os : Orders)
    (maxAssignments : nat) : Orders * list AssignmentEntry :=
  assign_each us os (findAvailableForRider os maxAssignments).
End Backlog.

(** ** Strings and numbers of the JavaScript side

    Strings are byte strings: a character outside ASCII is its UTF-8
    bytes.  A number that holds an integer is [Finite z], with [z] a value
    that a double represents; the operations round to the nearest double,
    ties to even, as the code's arithmetic does.  [-0] is not told from
    [0]: nothing here distinguishes them. *)

Inductive JsNumber : Type :=
| NaN
| Finite (z : Z)
| Infinity (negative : bool).

Definition code (c : ascii) : Z := Z.of_N (N_of_ascii c).

(** WhiteSpace and LineTerminator of ECMAScript by their UTF-8 bytes:
    U+0009 to U+000D and U+0020 in one byte; U+00A0 in two; U+1680,
    U+2000 to U+200A, U+2028, U+2029, U+202F, U+205F, U+3000 and U+FEFF in
    three. *)
Definition white_space_1 (c : ascii) : bool :=
  ((code c =? 32) || ((9 <=? code c) && (code c <=? 13)))%bool.

Definition white_space_lead (c : ascii) : bool :=
  ((code c =? 194) || (code c =? 225) || (code c =? 226) || (code c =? 227)
   || (code c =? 239))%bool.

Definition white_space_2 (c1 c2 : ascii) : bool :=
  ((code c1 =? 194) && (code c2 =? 160))%bool.

Definition white_space_3 (c1 c2 c3 : ascii) : bool :=
  (((code c1 =? 225) && (code c2 =? 154) && (code c3 =? 128))
   || ((code c1 =? 226) && (code c2 =? 128)
       && (((128 <=? code c3) && (code c3 <=? 138))
           || (code c3 =? 168) || (code c3 =? 169) || (code c3 =? 175)))
   || ((code c1 =? 226) && (code c2 =? 129) && (code c3 =? 159))
   || ((code c1 =? 227) && (code c2 =? 128) && (code c3 =? 128))
   || ((code c1 =? 239) && (code c2 =? 187) && (code c3 =? 191)))%bool.

(** [s.trimStart()] *)
Fixpoint trimStart (s : string) : string :=
  match s with
  | EmptyString => EmptyString
  | String c1 r1 =>
      if white_space_1 c1 then trimStart r1
      else if white_space_lead c1 then
        match r1 with
        | String c2 r2 =>
            if white_space_2 c1 c2 then trimStart r2
            else
              match r2 with
              | String c3 r3 =>
                  if white_space_3 c1 c2 c3 then trimStart r3 else s
              | EmptyString => s
              end
        | EmptyString => s
        end
      else s
  end.

(** [s.trimEnd()]: the longest prefix whose rest is white space only. *)
Fixpoint trimEnd (s : string) : string :=
  match s with
  | EmptyString => EmptyString
  | String c s' =>
      if String.eqb (trimStart s) "" then EmptyString
      else String c (trimEnd s')
  end.

(** [s.trim()] *)
Definition trim (s : string) : string := trimEnd (trimStart s).

Fixpoint split_on (sep : ascii) (s : string) : list string :=
  match s with
  | EmptyString => [EmptyString]
  | String c s' =>
      if Ascii.eqb c sep then EmptyString :: split_on sep s'
      else
        match split_on sep s' with
        | [] => [String c EmptyString]
        | part :: parts => String c part :: parts
        end
  end.

(** The double nearest to the integer [n >= 0], ties to even; [None] when
    that is [Infinity] (from 2^1024 - 2^970 on). *)
Definition double_of_nonneg (n : Z) : option Z :=
  if n <? 9007199254740992 then Some n
  else
    let e := Z.log2 n - 52 in
    let q := Z.shiftr n e in
    let r := n - Z.shiftl q e in
    let half := Z.shiftl 1 (e - 1) in
    let q' :=
      if r <? half then q
      else if half <? r then q + 1
      else if Z.even q then q else q + 1 in
    if Z.shiftl q' e <? 2 ^ 1024 then Some (Z.shiftl q' e) else None.

Definition to_double (z : Z) : JsNumber :=
  match double_of_nonneg (Z.abs z) with
  | Some v => Finite (Z.sgn z * v)
  | None => Infinity (z <? 0)
  end.

(** [a + b] *)
Definition Number_add (a b : JsNumber) : JsNumber :=
  match a, b with
  | NaN, _ | _, NaN => NaN
  | Finite x, Finite y => to_double (x + y)
  | Infinity s, Finite _ | Finite _, Infinity s => Infinity s
  | Infinity s, Infinity s' => if Bool.eqb s s' then Infinity s else NaN
  end.

Fixpoint leading_digits (s : string) : Decimal.uint :=
  match s with
  | EmptyString => Decimal.Nil
  | String c s' =>
      match c with
      | "0" => Decimal.D0 (leading_digits s')
      | "1" => Decimal.D1 (leading_digits s')
      | "2" => Decimal.D2 (leading_digits s')
      | "3" => Decimal.D3 (leading_digits s')
      | "4" => Decimal.D4 (leading_digits s')
      | "5" => Decimal.D5 (leading_digits s')
      | "6" => Decimal.D6 (leading_digits s')
      | "7" => Decimal.D7 (leading_digits s')
      | "8" => Decimal.D8 (leading_digits s')
      | "9" => Decimal.D9 (leading_digits s')
      | _ => Decimal.Nil
      end%char
  end.

Fixpoint leading_hex_digits (s : string) : Hexadecimal.uint :=
  match s with
  | EmptyString => Hexadecimal.Nil
  | String c s' =>
      match c with
      | "0" => Hexadecimal.D0 (leading_hex_digits s')
      | "1" => Hexadecimal.D1 (leading_hex_digits s')
      | "2" => Hexadecimal.D2 (leading_hex_digits s')
      | "3" => Hexadecimal.D3 (leading_hex_digits s')
      | "4" => Hexadecimal.D4 (leading_hex_digits s')
      | "5" => Hexadecimal.D5 (leading_hex_digits s')
      | "6" => Hexadecimal.D6 (leading_hex_digits s')
      | "7" => Hexadecimal.D7 (leading_hex_digits s')
      | "8" => Hexadecimal.D8 (leading_hex_digits s')
      | "9" => Hexadecimal.D9 (leading_hex_digits s')
      | "a" | "A" => Hexadecimal.Da (leading_hex_digits s')
      | "b" | "B" => Hexadecimal.Db (leading_hex_digits s')
      | "c" | "C" => Hexadecimal.Dc (leading_hex_digits s')
      | "d" | "D" => Hexadecimal.Dd (leading_hex_digits s')
      | "e" | "E" => Hexadecimal.De (leading_hex_digits s')
      | "f" | "F" => Hexadecimal.Df (leading_hex_digits s')
      | _ => Hexadecimal.Nil
      end%char
  end.

Definition is_hex_marker (c : ascii) : bool :=
  (Ascii.eqb c "x" || Ascii.eqb c "X")%bool.

(** [parseInt(s)] without a radix: the integer written by the leading
    digits, as a double. *)
Definition parseInt (s : string) : JsNumber :=
  let trimmed := trimStart s in
  let '(sign, unsigned) :=
    match trimmed with
    | String "-" r => (-1, r)
    | String "+" r => (1, r)
    | _ => (1, trimmed)
    end in
  match unsigned with
  | String "0" (String x r) =>
      if is_hex_marker x then
        match leading_hex_digits r with
        | Hexadecimal.Nil => NaN
        | h => to_double (sign * Z.of_hex_uint h)
        end
      else
        match leading_digits unsigned with
        | Decimal.Nil => NaN
        | d => to_double (sign * Z.of_uint d)
        end
  | _ =>
      match leading_digits unsigned with
      | Decimal.Nil => NaN
      | d => to_double (sign * Z.of_uint d)
      end
  end.

Fixpoint repeat_char (c : ascii) (k : nat) : string :=
  match k with
  | O => EmptyString
  | S k' => String c (repeat_char c k')
  end.

Definition uint_string (z : Z) : string :=
  NilZero.string_of_uint (N.to_uint (Z.to_N z)).

(** Number::toString on a double [v >= 2^53] looks for the fewest digits
    [s] ([k] of them, 10^(k-1) <= s < 10^k) and the exponent [n] such
    that s x 10^(n-k) rounds to [v]; of several [s] the closest to [v],
    of two equally close the even one.  [shortest_at v nd k] is the
    answer for [k] digits, [nd] being the number of digits of [v]: the
    candidates are the two multiples of 10^(nd-k) around [v]. *)
Definition shortest_at (v nd k : Z) : option (Z * Z) :=
  let p := 10 ^ (nd - k) in
  let lo := v / p in
  let hi := lo + 1 in
  let below := (lo, nd) in
  let above := if hi =? 10 ^ k then (10 ^ (k - 1), nd + 1) else (hi, nd) in
  let rounds_to x :=
    match double_of_nonneg x with
    | Some d => d =? v
    | None => false
    end in
  match rounds_to (lo * p), rounds_to (hi * p) with
  | true, true =>
      if v - lo * p <? hi * p - v then Some below
      else if hi * p - v <? v - lo * p then Some above
      else if Z.even lo then Some below else Some above
  | true, false => Some below
  | false, true => Some above
  | false, false => None
  end.

Fixpoint shortest_from (v nd k : Z) (tries : nat) : Z * Z * Z :=
  match tries with
  | O => (v, nd, nd)
  | S tries' =>
      match shortest_at v nd k with
      | Some (s, n) => (s, n, k)
      | None => shortest_from v nd (k + 1) tries'
      end
  end.

Definition shortest (v : Z) : Z * Z * Z :=
  let nd := Z.of_nat (String.length (uint_string v)) in
  shortest_from v nd 1 (Z.to_nat nd).

(** [x.toString()].  Below 2^53 every integer is a double and its
    shortest digits are its decimal expansion; from 10^21 on the result
    is in exponent notation. *)
Definition Number_toString (x : JsNumber) : string :=
  match x with
  | NaN => "NaN"
  | Infinity negative => if negative then "-Infinity" else "Infinity"
  | Finite z =>
      if Z.abs z <? 9007199254740992 then NilZero.string_of_int (Z.to_int z)
      else
        let '(s, n, k) := shortest (Z.abs z) in
        let sign := if z <? 0 then "-" else "" in
        if n <=? 21 then
          (sign ++ uint_string s ++ repeat_char "0" (Z.to_nat (n - k)))%string
        else
          match uint_string s with
          | String d EmptyString =>
              (sign ++ String d "e+" ++ uint_string (n - 1))%string
          | String d more =>
              (sign ++ String d ("." ++ more) ++ "e+" ++ uint_string (n - 1))%string
          | EmptyString => sign
          end
  end.

Definition padStart (targetLength : nat) (c : ascii) (s : string) : string :=
  (repeat_char c (targetLength - String.length s) ++ s)%string.

(** ** Order.generateOrderNumber

    The date part [dateStr] of the clock,
    [today.toISOString().split("T")[0].replace(/-/g, "")], is an input: 8
    digits. *)

Definition order_number_prefix (dateStr : string) : string :=
  ("ORD-" ++ dateStr ++ "-")%string.

Definition lower (c : ascii) : ascii :=
  if ((65 <=? code c) && (code c <=? 90))%bool
  then ascii_of_N (N_of_ascii c + 32)
  else c.

(** [s LIKE 'p%'] for a [p] without wildcard, under the case-insensitive
    collation of the table: [p], compared without regard to the case of
    letters, heads [s].  Order numbers are ASCII; what the collation
    does beyond it (accents, widths) is not part of this. *)
Fixpoint like_prefix (p s : string) : bool :=
  match p with
  | EmptyString => true
  | String a p' =>
      match s with
      | String b s' => (Ascii.eqb (lower a) (lower b) && like_prefix p' s')%bool
      | EmptyString => false
      end
  end.

(** [order_number LIKE 'ORD-<dateStr>-%']: [dateStr] holds digits, so the
    pattern has no wildcard but the final one. *)
Definition of_day (dateStr : string) (o : Order) : bool :=
  like_prefix (order_number_prefix dateStr) (order_number o).

(** [findOne] with [ORDER BY created_at DESC]: of the rows created at the
    same time, a DATETIME of whole seconds, the one inserted first is
    returned. *)
Definition lastOrder (os : Orders) (dateStr : string) : option Order :=
  hd_error (order_by_desc created_at (filter (of_day dateStr) os)).

(** [parseInt(order.order_number.split("-")[2])]; [parseInt(undefined)] is
    [NaN]. *)
Definition lastSequence (o : Order) : JsNumber :=
  match nth_error (split_on "-" (order_number o)) 2 with
  | Some part => parseInt part
  | None => NaN
  end.

Definition generateOrderNumber (os : Orders) (dateStr : string) : string :=
  let sequence :=
    match lastOrder os dateStr with
    | Some o => Number_add (lastSequence o) (Finite 1)
    | None => Finite 1
    end in
  let sequenceStr := padStart 3 "0" (Number_toString sequence) in
  (order_number_prefix dateStr ++ sequenceStr)%string.

(** ** Notification service: notifyOrderStatusChange *)

Record SnapshotRestaurant : Type := mkSnapshotRestaurant {
  sr_name : string;
  sr_owner_id : Z;
}.

(** The order object the routes hand to the service. *)
Record OrderSnapshot : Type := mkOrderSnapshot {
  snap_id : Z;
  snap_order_number : string;
  snap_customer_id : Z;
  snap_restaurant_id : Z;
  snap_rider_id : option Z;
  snap_customer : option string;
  snap_restaurant : option SnapshotRestaurant;
}.

(** An entry of the [notifications] array (the [data] payload is not
    modelled). *)
Record Notif : Type := mkNotif {
  userId : Z;
  userRole : Role;
  type : string;
  title : string;
  message : string;
}.

(** [x?.name || default] *)
Definition str_or (default : string) (x : option string) : string :=
  match x with
  | Some s => if String.eqb s "" then default else s
  | None => default
  end.

Definition restaurant_name_of (order : OrderSnapshot) : option string :=
  option_map sr_name (snap_restaurant order).

(** [order.restaurant.owner_id]: a TypeError when [restaurant] is null. *)
Definition restaurant_owner_of (order : OrderSnapshot) : Result Z :=
  match snap_restaurant order with
  | Some r => Ok (sr_owner_id r)
  | None => Throw (TypeError "Cannot read properties of null (reading 'owner_id')")
  end.

(** The [switch (status)] that fills the [notifications] array. *)
Definition notifications_for (order : OrderSnapshot) (st : OrderStatus)
  : Result (list Notif) :=
  let num := snap_order_number order in
  match st with
  | pending =>
      let* owner := restaurant_owner_of order in
      Ok [mkNotif owner restaurant_owner "new_order" "New Order Received"
            ("You have received a new order #" ++ num ++ " from "
               ++ str_or "Customer" (snap_customer order))%string]
  | confirmed =>
      Ok [mkNotif (snap_customer_id order) customer "order_confirmed"
            "Order Confirmed"
            ("Your order #" ++ num ++ " has been confirmed by "
               ++ str_or "the restaurant" (restaurant_name_of order))%string]
  | preparing =>
      Ok [mkNotif (snap_customer_id order) customer "order_preparing"
            "Order Being Prepared"
            (str_or "The restaurant" (restaurant_name_of order)
               ++ " is now preparing your order #" ++ num)%string]
  | ready =>
      Ok (mkNotif (snap_customer_id order) customer "order_ready" "Order Ready"
            ("Your order #" ++ num ++ " is ready for pickup")%string
          :: match snap_rider_id order with
             | Some r =>
                 if truthy_id (Some r) then
                   [mkNotif r rider "order_ready_for_pickup"
                      "Order Ready for Pickup"
                      ("Order #" ++ num ++ " is ready for pickup at "
                         ++ str_or "restaurant" (restaurant_name_of order))%string]
                 else []
             | None => []
             end)
  | out_for_delivery =>
      Ok [mkNotif (snap_customer_id order) customer "order_out_for_delivery"
            "Order Out for Delivery"
            ("Your order #" ++ num ++ " is on the way!")%string]
  | delivered =>
      let first :=
        mkNotif (snap_customer_id order) customer "order_delivered"
          "Order Delivered"
          ("Your order #" ++ num ++ " has been delivered. Enjoy your meal!")%string in
      let* owner := restaurant_owner_of order in
      Ok [first;
          mkNotif owner restaurant_owner "order_delivered" "Order Delivered"
            ("Order #" ++ num ++ " has been delivered to the customer")%string]
  | cancelled =>
      let first :=
        mkNotif (snap_customer_id order) customer "order_cancelled"
          "Order Cancelled"
          ("Your order #" ++ num ++ " has been cancelled")%string in
      let* owner := restaurant_owner_of order in
      Ok (first
          :: mkNotif owner restaurant_owner "order_cancelled_restaurant"
               "Order Cancelled"
               ("Order #" ++ num ++ " has been cancelled")%string
          :: match snap_rider_id order with
             | Some r =>
                 if truthy_id (Some r) then
                   [mkNotif r rider "order_cancelled_rider" "Order Cancelled"
                      ("Order #" ++ num ++ " has been cancelled")%string]
                 else []
             | None => []
             end)
  end.

(** One entry of [results]: the stored document, or the message of the
    error caught while storing it. *)
Inductive NotifResult : Type :=
| Created (n : Notif)
| Failed (error : string).

(** The [enum] of the path [type] of the Notification schema. *)
Definition notification_types : list string :=
  ["order_placed"; "order_confirmed"; "order_preparing"; "order_ready";
   "order_out_for_delivery"; "order_delivered"; "order_cancelled";
   "rider_assigned"; "new_order"; "order_cancelled_restaurant";
   "payment_received"; "rider_assigned_restaurant"; "order_assigned";
   "order_ready_for_pickup"; "order_cancelled_rider"].

(** [new Notification(data)]: the schema declares [title] and [message]
    with [trim: true], so the document holds them trimmed. *)
Definition Notification_new (n : Notif) : Notif :=
  mkNotif (userId n) (userRole n) (type n) (trim (title n)) (trim (message n)).

(** The validation that [save()] runs: [type], [title] and [message] are
    required, an empty string counting as missing, and [type] is one of
    the enum; one error for each failing path, in the order of the
    schema. *)
Definition validation_errors (doc : Notif) : list string :=
  ((if String.eqb (type doc) "" then ["type: Path `type` is required."]
    else if existsb (String.eqb (type doc)) notification_types then []
    else ["type: `" ++ type doc
            ++ "` is not a valid enum value for path `type`."]%string)
   ++ (if String.eqb (title doc) ""
       then ["title: Path `title` is required."] else [])
   ++ (if String.eqb (message doc) ""
       then ["message: Path `message` is required."] else []))%list.

Definition ValidationError (m : string) : JsError :=
  mkJsError "ValidationError" m.

Section Fanout.
(** [persist_fault doc]: the document store rejects the insertion of
    [doc]. *)
Variable persist_fault : Notif -> option JsError.

(** [Notification.createNotification]: [new this(data)], then [save()]. *)
Definition Notification_createNotification (n : Notif) : Result Notif :=
  let doc := Notification_new n in
  match validation_errors doc with
  | [] =>
      match persist_fault doc with
      | Some e => Throw e
      | None => Ok doc
      end
  | errors =>
      Throw (ValidationError
               ("Notification validation failed: "
                  ++ String.concat ", " errors)%string)
  end.

(** The service's [createNotification] returns the stored document and
    throws again what it catches. *)
Definition createNotification (n : Notif) : Result Notif :=
  Notification_createNotification n.

Definition notifyOrderStatusChange (order : OrderSnapshot) (st : OrderStatus)
  : Result (list NotifResult) :=
  let* notifications := notifications_for order st in
  Ok (map (fun notif =>
             match createNotification notif with
             | Ok n => Created n
             | Throw error => Failed (error_message error)
             end) notifications).
End Fanout.

(** The recipients of a fanout. *)
Definition recipients (ns : list Notif) : list (Z * Role) :=
  map (fun n => (userId n, userRole n)) ns.

(** ** Route PUT /api/orders/:id/status

    The notifications and socket events of the route do not touch the
    order table and are left out; the route is a function from the tables
    and the request to the response and the new order table. *)

Record Response : Type := mkResponse {
  http_status : Z;
  resp_success : bool;
  resp_message : string;
}.

Record StatusBody : Type := mkStatusBody {
  body_status : option string;
  body_estimated_delivery_time : option Z;
}.

Definition Restaurants := list Restaurant.

Definition Restaurant_findByPk (rs : Restaurants) (pk : Z) : option Restaurant :=
  find (fun r => restaurant_pk r =? pk) rs.

Definition join_names (l : list OrderStatus) : string :=
  String.concat ", " (map status_name l).

Definition owner_allowedStatuses : list OrderStatus :=
  [confirmed; preparing; ready].

Definition owner_validTransitions (current : OrderStatus)
  : option (list OrderStatus) :=
  match current with
  | pending => Some [confirmed]
  | confirmed => Some [preparing]
  | preparing => Some [ready]
  | _ => None
  end.

Definition rider_allowedStatuses : list OrderStatus :=
  [out_for_delivery; delivered].

Definition rider_validTransitions (current : OrderStatus)
  : option (list OrderStatus) :=
  match current with
  | ready => Some [out_for_delivery]
  | out_for_delivery => Some [delivered]
  | _ => None
  end.

(** [validTransitions[order.status] &&
     !validTransitions[order.status].includes(status)] *)
Definition transition_refused
    (validTransitions : OrderStatus -> option (list OrderStatus))
    (current target : OrderStatus) : option Response :=
  match validTransitions current with
  | Some targets =>
      if negb (includes targets target) then
        Some (mkResponse 400 false
                ("Cannot change status from " ++ status_name current
                   ++ " to " ++ status_name target
                   ++ ". Valid transitions: " ++ join_names targets)%string)
      else None
  | None => None
  end.

(** The role-specific access and transition checks; [Some r] is the early
    response. *)
Definition owner_checks (rs : Restaurants) (userId : Z) (order : Order)
    (target : OrderStatus) : option Response :=
  match Restaurant_findByPk rs (restaurant_id order) with
  | None =>
      Some (mkResponse 403 false
              "You can only update orders for your own restaurants")
  | Some restaurant =>
      if negb (owner_id restaurant =? userId) then
        Some (mkResponse 403 false
                "You can only update orders for your own restaurants")
      else if negb (includes owner_allowedStatuses target) then
        Some (mkResponse 403 false
                ("Restaurant owners can only update status to: "
                   ++ join_names owner_allowedStatuses)%string)
      else transition_refused owner_validTransitions (status order) target
  end.

Definition rider_checks (userId : Z) (order : Order) (target : OrderStatus)
  : option Response :=
  match rider_id order with
  | Some r =>
      if negb (r =? userId) then
        Some (mkResponse 403 false "You can only update orders assigned to you")
      else if negb (includes rider_allowedStatuses target) then
        Some (mkResponse 403 false
                ("Riders can only update status to: "
                   ++ join_names rider_allowedStatuses)%string)
      else transition_refused rider_validTransitions (status order) target
  | None =>
      Some (mkResponse 403 false "You can only update orders assigned to you")
  end.

Definition role_checks (rs : Restaurants) (userId : Z) (userRole : Role)
    (order : Order) (target : OrderStatus) : option Response :=
  match userRole with
  | restaurant_owner => owner_checks rs userId order target
  | rider => rider_checks userId order target
  | customer => None
  end.

(** [haystack.includes(needle)] on strings *)
Definition str_includes (haystack needle : string) : bool :=
  match String.index 0 needle haystack with
  | Some _ => true
  | None => false
  end.

(** The [catch] of the route. *)
Definition status_error_response (error : JsError) : Response :=
  let m := error_message error in
  if (str_includes m "Invalid order status" || str_includes m "Cannot change")%bool
  then mkResponse 400 false m
  else mkResponse 500 false "Internal server error".

Section StatusRoute.
Variable store_fault : Z -> option JsError.

(** The dispatch that follows a successful update: [autoAssignRider] when
    the order became ready without a rider; one backlog assignment when a
    rider delivered.  Errors of either are logged and dropped. *)
Definition after_update (us : Users) (os : Orders) (userRole : Role)
    (pk : Z) (target : OrderStatus) (updatedOrder : Order)
  : Orders * option User :=
  let '(os1, assignedRider) :=
    if (status_eqb target ready && negb (truthy_id (rider_id updatedOrder)))%bool
    then
      match try_autoAssignRider store_fault us os pk with
      | Ok (os', result) =>
          if success result then (os', ar_rider result) else (os', None)
      | Throw _ => (os, None)
      end
    else (os, None) in
  let os2 :=
    if (status_eqb target delivered && role_eqb userRole rider)%bool
    then fst (assignPendingReadyOrders store_fault us os1 1)
    else os1 in
  (os2, assignedRider).

Definition put_status (us : Users) (rs : Restaurants) (os : Orders)
    (userId : Z) (userRole : Role) (pk : Z) (body : StatusBody) (now : Z)
  : Response * Orders :=
  match userRole with
  | customer =>
      (mkResponse 403 false
         "Access denied. Required role: restaurant_owner or rider", os)
  | _ =>
  match body_status body with
  | None => (mkResponse 400 false "Status is required", os)
  | Some name =>
  if String.eqb name "" then (mkResponse 400 false "Status is required", os)
  else
  match status_of_string name with
  | None =>
      (mkResponse 400 false
         ("Invalid status. Must be one of: " ++ join_names validStatuses)%string,
       os)
  | Some target =>
  match findByPk os pk with
  | None => (mkResponse 404 false "Order not found", os)
  | Some order =>
  match role_checks rs userId userRole order target with
  | Some early => (early, os)
  | None =>
      let updateData :=
        mkAdditionalData (Some target)
          (match body_estimated_delivery_time body with
           | Some t => if t =? 0 then None else Some t
           | None => None
           end)
          None in
      let oldStatus := status order in
      match updateStatus os pk target updateData now with
      | Throw error => (status_error_response error, os)
      | Ok (os1, updatedOrder) =>
          let '(os2, assignedRider) :=
            after_update us os1 userRole pk target updatedOrder in
          (mkResponse 200 true
             ("Order status updated from " ++ status_name oldStatus
                ++ " to " ++ status_name target
                ++ match assignedRider with
                   | Some r =>
                       ". Rider " ++ user_name r ++ " automatically assigned."
                   | None => ""
                   end)%string,
           os2)
      end
  end end end end end.
End StatusRoute.

(** ** Route POST /api/orders (create order from cart) *)

Record Cart : Type := mkCart {
  cart_pk : Z;
  cart_user_id : Z;
  cart_restaurant_id : Z;
  cart_created_at : Z;
}.

Record CartItem : Type := mkCartItem {
  cart_item_pk : Z;
  cart_id : Z;
  menu_item_id : Z;
  quantity : Z;
  price : Z;
  cart_item_created_at : Z;
}.

Record Address : Type := mkAddress {
  address_pk : Z;
  address_user_id : Z;
}.

Record MenuItem : Type := mkMenuItem {
  menu_item_pk : Z;
  menu_item_name : string;
}.

Record OrderItem : Type := mkOrderItem {
  oi_order_id : Z;
  oi_menu_item_id : Z;
  oi_quantity : Z;
  oi_price : Z;
  oi_item_name : string;
}.

Record Database : Type := mkDatabase {
  carts : list Cart;
  cartItems : list CartItem;
  addresses : list Address;
  restaurants : Restaurants;
  menuItems : list MenuItem;
  orders : Orders;
  orderItems : list OrderItem;
}.

Definition Cart_findByUser (db : Database) (user : Z) : option Cart :=
  hd_error
    (order_by_desc cart_created_at
       (filter (fun c => cart_user_id c =? user) (carts db))).

Definition CartItem_findByCart (db : Database) (cart : Z) : list CartItem :=
  order_by_asc cart_item_created_at
    (filter (fun i => cart_id i =? cart) (cartItems db)).

Definition Address_findById (db : Database) (pk : Z) : option Address :=
  find (fun a => address_pk a =? pk) (addresses db).

Definition MenuItem_findByPk (db : Database) (pk : Z) : option MenuItem :=
  find (fun m => menu_item_pk m =? pk) (menuItems db).

(** [SUM(quantity * price)] over the cart's rows; [NULL] (no row) gives 0
    through [|| 0]. *)
Definition sum_lines (items : list CartItem) : Z :=
  fold_right (fun i acc => quantity i * price i + acc) 0 items.

Definition calculateSubtotal (db : Database) (cart : Z) : Z :=
  sum_lines (filter (fun i => cart_id i =? cart) (cartItems db)).

Definition deliveryFee : Z := 5000.

(** The state in which the unmanaged transaction of the route is left.
    [TxCommitRejected]: COMMIT was rejected; Sequelize marks the
    transaction as finished with state 'commit' and discards its
    connection, and with it the writes made through it. *)
Inductive TxState : Type :=
| TxOpen
| TxCommitted
| TxRolledBack
| TxCommitRejected.

(** The writes made through the transaction, each of which the store may
    reject. *)
Inductive WriteStep : Type :=
| CreateOrder
| CreateOrderItem (menu_item : Z)
| DestroyCartItems
| DestroyCart
| Commit.

Definition next_id (os : Orders) : Z :=
  1 + fold_right (fun o m => Z.max (id o) m) 0 os.

Definition SequelizeValidationError (m : string) : JsError :=
  mkJsError "SequelizeValidationError" m.

Definition SequelizeUniqueConstraintError (m : string) : JsError :=
  mkJsError "SequelizeUniqueConstraintError" m.

Record OrderResponse : Type := mkOrderResponse {
  or_http_status : Z;
  or_success : bool;
  or_message : string;
  or_order : option Order;
  or_items : list OrderItem;
}.

Definition refusal (code : Z) (m : string) : OrderResponse :=
  mkOrderResponse code false m None [].

Section PlaceOrder.
Variable write_fault : WriteStep -> option JsError.

Definition guarded {A} (step : WriteStep) (r : Result A) : Result A :=
  match write_fault step with
  | Some e => Throw e
  | None => r
  end.

(** [Order.create(orderData, { transaction })] with the validators and
    the unique index of the model. *)
Definition Order_create (tx : Database) (customer restaurant address : Z)
    (num : string) (sub fee total now : Z) : Result (Database * Order) :=
  guarded CreateOrder
    (if (sub <? 0) then
       Throw (SequelizeValidationError "Subtotal must be greater than or equal to 0")
     else if (fee <? 0) then
       Throw (SequelizeValidationError "Delivery fee must be greater than or equal to 0")
     else if (total <? 0) then
       Throw (SequelizeValidationError "Total amount must be greater than or equal to 0")
     else if String.eqb num "" then
       Throw (SequelizeValidationError "Order number is required")
     else if existsb (fun o => String.eqb (order_number o) num) (orders tx) then
       Throw (SequelizeUniqueConstraintError "Validation error")
     else
       let order :=
         mkOrder (next_id (orders tx)) customer restaurant address None num
           pending sub (Some fee) total None None None None None now in
       Ok (mkDatabase (carts tx) (cartItems tx) (addresses tx)
             (restaurants tx) (menuItems tx) (orders tx ++ [order])
             (orderItems tx),
           order)).

Definition OrderItem_create (tx : Database) (item : OrderItem)
  : Result (Database * OrderItem) :=
  guarded (CreateOrderItem (oi_menu_item_id item))
    (if (oi_quantity item <? 1) then
       Throw (SequelizeValidationError "Quantity must be at least 1")
     else if (oi_price item <? 0) then
       Throw (SequelizeValidationError "Price must be greater than or equal to 0")
     else
       Ok (mkDatabase (carts tx) (cartItems tx) (addresses tx)
             (restaurants tx) (menuItems tx) (orders tx)
             (orderItems tx ++ [item]),
           item)).

(** [OrderItem.createFromCart]; the menu item is read outside the
    transaction, from the committed tables [db]. *)
Fixpoint createFromCart (db tx : Database) (orderId : Z)
    (items : list CartItem) : Result (Database * list OrderItem) :=
  match items with
  | [] => Ok (tx, [])
  | cartItem :: rest =>
      match MenuItem_findByPk db (menu_item_id cartItem) with
      | None =>
          Throw (Error ("Menu item "
                          ++ Number_toString (Finite (menu_item_id cartItem))
                          ++ " not found")%string)
      | Some menuItem =>
          let* (tx1, orderItem) :=
            OrderItem_create tx
              (mkOrderItem orderId (menu_item_id cartItem) (quantity cartItem)
                 (price cartItem) (menu_item_name menuItem)) in
          let* (tx2, orderItems) := createFromCart db tx1 orderId rest in
          Ok (tx2, orderItem :: orderItems)
      end
  end.

Definition destroy_cart_items (tx : Database) (cart : Z) : Result Database :=
  guarded DestroyCartItems
    (Ok (mkDatabase (carts tx)
           (filter (fun i => negb (cart_id i =? cart)) (cartItems tx))
           (addresses tx) (restaurants tx) (menuItems tx) (orders tx)
           (orderItems tx))).

Definition destroy_cart (tx : Database) (cart : Z) : Result Database :=
  guarded DestroyCart
    (Ok (mkDatabase (filter (fun c => negb (cart_pk c =? cart)) (carts tx))
           (cartItems tx) (addresses tx) (restaurants tx) (menuItems tx)
           (orders tx) (orderItems tx))).

(** The part of the [try] block that writes through the transaction, up
    to [transaction.commit()]. *)
Definition create_in_transaction (db : Database) (user address : Z)
    (cart : Cart) (items : list CartItem) (dateStr : string) (now : Z)
  : Result (Database * Order * list OrderItem) :=
  let subtotal := calculateSubtotal db (cart_pk cart) in
  let totalAmount := subtotal + deliveryFee in
  let num := generateOrderNumber (orders db) dateStr in
  let totalAmount' :=
    if totalAmount =? 0 then subtotal + deliveryFee else totalAmount in
  let* (tx1, order) :=
    Order_create db user (cart_restaurant_id cart) address num subtotal
      deliveryFee totalAmount' now in
  let* (tx2, items') := createFromCart db tx1 (id order) items in
  let* tx3 := destroy_cart_items tx2 (cart_pk cart) in
  let* tx4 := destroy_cart tx3 (cart_pk cart) in
  Ok (tx4, order, items').

(** The [catch] of the route, after [transaction.rollback()]. *)
Definition create_error_response (error : JsError) : OrderResponse :=
  if String.eqb (error_name error) "SequelizeValidationError"
  then refusal 400 "Validation error"
  else refusal 500 "Internal server error".

(** The route: the response, the tables visible afterwards and the state
    in which the transaction is left.  [address] is [None] when the body
    has no [address_id].  When [transaction.commit()] is rejected, the
    [catch] calls [transaction.rollback()] on a transaction that is
    finished: that call throws in its turn, and the handler ends with
    this error without having sent a response. *)
Definition post_order (db : Database) (user : Z) (address : option Z)
    (dateStr : string) (now : Z)
  : Result OrderResponse * Database * TxState :=
  match address with
  | None => (Ok (refusal 400 "Address ID is required"), db, TxOpen)
  | Some address_id =>
  if address_id =? 0 then
    (Ok (refusal 400 "Address ID is required"), db, TxOpen)
  else
    match Cart_findByUser db user with
    | None =>
        (Ok (refusal 400 "Cart is empty. Add items to cart before placing order."),
         db, TxOpen)
    | Some cart =>
    match CartItem_findByCart db (cart_pk cart) with
    | [] =>
        (Ok (refusal 400 "Cart is empty. Add items to cart before placing order."),
         db, TxOpen)
    | cartItems =>
    match Address_findById db address_id with
    | None => (Ok (refusal 404 "Address not found"), db, TxOpen)
    | Some addr =>
    if negb (address_user_id addr =? user) then
      (Ok (refusal 403 "You can only use your own addresses"), db, TxOpen)
    else
    match Restaurant_findByPk (restaurants db) (cart_restaurant_id cart) with
    | None =>
        (Ok (refusal 400 "This restaurant is currently not accepting orders"),
         db, TxOpen)
    | Some restaurant =>
    if (negb (is_active restaurant) || negb (is_accepting_orders restaurant))%bool
    then
      (Ok (refusal 400 "This restaurant is currently not accepting orders"),
       db, TxOpen)
    else
      match create_in_transaction db user address_id cart
              cartItems dateStr now with
      | Ok (tx, order, items) =>
          match write_fault Commit with
          | None =>
              (Ok (mkOrderResponse 201 true "Order placed successfully"
                     (Some order) items),
               tx, TxCommitted)
          | Some _ =>
              (Throw (Error "Transaction cannot be rolled back because it has been finished with state: commit"),
               db, TxCommitRejected)
          end
      | Throw error => (Ok (create_error_response error), db, TxRolledBack)
      end
    end end end end
  end.
End PlaceOrder.

(** * Specification-side notions *)

(** ** The transition table of the specification

    The role-gated table of the specification: the owner moves an order
    pending -> confirmed -> preparing -> ready, the assigned rider moves it
    ready -> out_for_delivery -> delivered, and the customer may cancel any
    order that is not delivered or cancelled. *)

Definition legal_transition (actor : Role) (current target : OrderStatus)
  : bool :=
  match actor, current, target with
  | restaurant_owner, pending, confirmed
  | restaurant_owner, confirmed, preparing
  | restaurant_owner, preparing, ready => true
  | rider, ready, out_for_delivery
  | rider, out_for_delivery, delivered => true
  | customer, (delivered | cancelled), cancelled => false
  | customer, _, cancelled => true
  | _, _, _ => false
  end.

(** ** Recipients, least load, drain *)

(** The rider's entry of a fanout: present when [rider_id] is truthy. *)
Definition rider_recipient (order : OrderSnapshot) : list (Z * Role) :=
  match snap_rider_id order with
  | Some r => if r =? 0 then [] else [(r, rider)]
  | None => []
  end.

(** A candidate is the first least-loaded one: every candidate before it
    has strictly more active deliveries, every candidate after it has at
    least as many. *)
Definition first_least_loaded (os : Orders) (candidates : list User)
    (selected : User) : Prop :=
  exists before after,
    candidates = before ++ selected :: after /\
    Forall (fun u => activeDeliveries os (user_id selected)
                       < activeDeliveries os (user_id u)) before /\
    Forall (fun u => activeDeliveries os (user_id selected)
                       <= activeDeliveries os (user_id u)) after.

(** The backlog drain as the specification words it: the pulled orders
    are taken one at a time, each yields exactly one entry, whether its
    assignment returned ([Drained_returned]) or failed ([Drained_threw]),
    and the table left by one is the table seen by the next. *)
Inductive Drained (store_fault : Z -> option JsError) (us : Users)
  : Orders -> list Order -> Orders -> list AssignmentEntry -> Prop :=
| Drained_nil os : Drained store_fault us os [] os []
| Drained_returned os order rest os1 result os2 entries :
    store_fault (id order) = None ->
    autoAssignRider us os (id order) = Ok (os1, result) ->
    Drained store_fault us os1 rest os2 entries ->
    Drained store_fault us os (order :: rest) os2
      (mkAssignmentEntry (id order) (order_number order) (success result)
         (ar_rider result) (ar_message result) (alreadyAssigned result)
       :: entries)
| Drained_threw os order rest error os2 entries :
    store_fault (id order) = Some error \/
    (store_fault (id order) = None /\
     autoAssignRider us os (id order) = Throw error) ->
    Drained store_fault us os rest os2 entries ->
    Drained store_fault us os (order :: rest) os2
      (mkAssignmentEntry (id order) (order_number order) false None
         (error_message error) None
       :: entries).

(** ** Day-sequenced order tables *)

(** The order number of sequence [n] on the day [dateStr]: the decimal
    digits of [n], padded with zeros on the left to three digits. *)
Definition order_number_of (dateStr : string) (n : Z) : string :=
  (order_number_prefix dateStr ++ padStart 3 "0" (Number_toString (Finite n)))%string.

Fixpoint no_dash (s : string) : bool :=
  match s with
  | EmptyString => true
  | String c s' => negb (Ascii.eqb c "-") && no_dash s'
  end.

(** The date part of the clock is made of digits. *)
Definition is_digit (c : ascii) : bool :=
  ((48 <=? code c) && (code c <=? 57))%bool.

Fixpoint all_digits (s : string) : bool :=
  match s with
  | EmptyString => true
  | String c s' => (is_digit c && all_digits s')%bool
  end.

(** A string with an ASCII character that is not white space: trimming
    leaves it non-empty. *)
Definition solid (c : ascii) : bool :=
  (negb (white_space_1 c) && (code c <? 128))%bool.

Fixpoint has_solid (s : string) : bool :=
  match s with
  | EmptyString => false
  | String c s' => (solid c || has_solid s')%bool
  end.

(** * Sample data used by the examples *)

Definition no_fault {A : Type} : A -> option JsError := fun _ => None.

Definition sample_order (pk : Z) (st : OrderStatus) (r : option Z) (t : Z)
  : Order :=
  mkOrder pk 7 3 4 r "ORD-20260108-001" st 2500 (Some 5000) 7500
    None None None None None t.

Definition numbered_order (pk : Z) (num : string) (t : Z) : Order :=
  mkOrder pk 7 3 4 None num pending 2500 (Some 5000) 7500
    None None None None None t.

Definition sample_restaurants : Restaurants :=
  [mkRestaurant 3 "Spice Route" 9 true true].

Definition sample_riders : Users :=
  [mkUser 21 "Asha" rider true 10;
   mkUser 22 "Bilal" rider true 20;
   mkUser 23 "Chen" rider true 30].

Definition sample_snapshot (r : option Z) : OrderSnapshot :=
  mkOrderSnapshot 1 "ORD-20260108-001" 7 3 r (Some "Dev")
    (Some (mkSnapshotRestaurant "Spice Route" 9)).

(** Riders with 2, 0 and 1 active deliveries, and an unassigned ready
    order 4. *)
Definition loaded_orders : Orders :=
  [sample_order 1 out_for_delivery (Some 21) 50;
   sample_order 2 ready (Some 21) 60;
   sample_order 3 out_for_delivery (Some 23) 70;
   sample_order 4 ready None 80].

(** Two unassigned ready orders, the second one older. *)
Definition backlog_orders : Orders :=
  [sample_order 1 ready None 90; sample_order 2 ready None 80;
   sample_order 3 out_for_delivery (Some 21) 70].

(** Customer 7 with a cart of item A x2 at 10.00 and item B x1 at 5.00;
    customer 8 has no cart. *)
Definition sample_db : Database :=
  mkDatabase [mkCart 1 7 3 100]
    [mkCartItem 1 1 11 2 1000 101; mkCartItem 2 1 12 1 500 102]
    [mkAddress 4 7; mkAddress 5 8]
    sample_restaurants
    [mkMenuItem 11 "A"; mkMenuItem 12 "B"]
    [] [].

(** Customers 7, 8 and 9, each with an address and a cart of one line. *)
Definition rush_db : Database :=
  mkDatabase [mkCart 1 7 3 100; mkCart 2 8 3 110; mkCart 3 9 3 120]
    [mkCartItem 1 1 11 1 1000 101; mkCartItem 2 2 11 2 1000 111;
     mkCartItem 3 3 12 1 500 121]
    [mkAddress 4 7; mkAddress 5 8; mkAddress 6 9]
    sample_restaurants
    [mkMenuItem 11 "A"; mkMenuItem 12 "B"]
    [] [].

(** * Further model methods and routes *)

(** ** Order.findByCustomer, Order.findByRestaurant, Order.findByRider

    The options object: [status] absent (or falsy) is [None]; [limit] and
    [offset] default to 50 and 0. *)

Record FindOptions : Type := mkFindOptions {
  fo_status : option OrderStatus;
  fo_limit : option nat;
  fo_offset : option nat;
}.

Definition page {A} (options : FindOptions) (rows : list A) : list A :=
  firstn (or_keep (fo_limit options) 50%nat)
    (skipn (or_keep (fo_offset options) 0%nat) rows).

Definition status_matches (options : FindOptions) (o : Order) : bool :=
  match fo_status options with
  | Some st => status_eqb (status o) st
  | None => true
  end.

Definition findByCustomer (os : Orders) (customerId : Z)
    (options : FindOptions) : list Order :=
  page options
    (order_by_desc created_at
       (filter (fun o => (customer_id o =? customerId) && status_matches options o)
          os)).

Definition findByRestaurant (os : Orders) (restaurantId : Z)
    (options : FindOptions) : list Order :=
  page options
    (order_by_desc created_at
       (filter (fun o => (restaurant_id o =? restaurantId)
                         && status_matches options o) os)).

(** The [CASE] of the rider listing: active orders 0, delivered 1, the
    rest 2. *)
Definition rider_rank (o : Order) : Z :=
  if includes active_statuses (status o) then 0
  else if status_eqb (status o) delivered then 1
  else 2.

(** [ORDER BY <case> ASC, created_at DESC, id DESC] *)
Definition rider_listing_le (a b : Order) : bool :=
  (rider_rank a <? rider_rank b)
  || ((rider_rank a =? rider_rank b)
      && ((created_at b <? created_at a)
          || ((created_at a =? created_at b) && (id b <=? id a)))).

Definition findByRider (os : Orders) (riderId : Z) (options : FindOptions)
  : list Order :=
  page options
    (stable_sort rider_listing_le
       (filter (fun o => match rider_id o with
                         | Some r => r =? riderId
                         | None => false
                         end && status_matches options o) os)).

(** ** Route PUT /api/orders/:id/cancel *)

Definition put_cancel (os : Orders) (userId : Z) (userRole : Role) (pk : Z)
    (reason : option string) (now : Z) : Response * Orders :=
  match userRole with
  | customer =>
      match findByPk os pk with
      | None => (mkResponse 404 false "Order not found", os)
      | Some order =>
          if negb (customer_id order =? userId) then
            (mkResponse 403 false "You can only cancel your own orders", os)
          else
            match cancelOrder os pk reason now with
            | Ok (os', _) =>
                (mkResponse 200 true "Order cancelled successfully", os')
            | Throw error =>
                if str_includes (error_message error) "Cannot cancel" then
                  (mkResponse 400 false (error_message error), os)
                else (mkResponse 500 false "Internal server error", os)
            end
      end
  | _ => (mkResponse 403 false "Access denied. Required role: customer", os)
  end.

(** ** Route PUT /api/rider/orders/:id/status *)

Section RiderRoute.
Variable store_fault : Z -> option JsError.

Definition rider_put_status (us : Users) (os : Orders) (riderId : Z)
    (userRole : Role) (pk : Z) (body : StatusBody) (now : Z)
  : Response * Orders :=
  match userRole with
  | rider =>
  match body_status body with
  | None => (mkResponse 400 false "Status is required", os)
  | Some name =>
  if String.eqb name "" then (mkResponse 400 false "Status is required", os)
  else
  match status_of_string name with
  | None =>
      (mkResponse 400 false
         ("Invalid status. Riders can only update to: "
            ++ join_names rider_allowedStatuses)%string, os)
  | Some target =>
  if negb (includes rider_allowedStatuses target) then
    (mkResponse 400 false
       ("Invalid status. Riders can only update to: "
          ++ join_names rider_allowedStatuses)%string, os)
  else
  match findByPk os pk with
  | None => (mkResponse 404 false "Order not found", os)
  | Some order =>
  if negb (match rider_id order with
           | Some r => r =? riderId
           | None => false
           end)
  then (mkResponse 403 false "You can only update orders assigned to you", os)
  else
  match transition_refused rider_validTransitions (status order) target with
  | Some early => (early, os)
  | None =>
      let updateData :=
        mkAdditionalData (Some target)
          (match body_estimated_delivery_time body with
           | Some t => if t =? 0 then None else Some t
           | None => None
           end)
          None in
      let oldStatus := status order in
      match updateStatus os pk target updateData now with
      | Throw error => (status_error_response error, os)
      | Ok (os1, _) =>
          let os2 :=
            if status_eqb target delivered
            then fst (assignPendingReadyOrders store_fault us os1 1)
            else os1 in
          (mkResponse 200 true
             ("Order status updated from " ++ status_name oldStatus
                ++ " to " ++ status_name target)%string,
           os2)
      end
  end end end end
  | _ => (mkResponse 403 false "Access denied. Required role: rider", os)
  end.
End RiderRoute.

(** ** Routes GET /api/orders/:id/track and GET /api/orders/:id *)

(** The per-status timeline of the tracking response.  [updated_at] is a
    column the [Order] record of this development does not carry; it is an
    input here. *)
Record Timeline : Type := mkTimeline {
  tl_pending : option Z;
  tl_confirmed : option Z;
  tl_preparing : option Z;
  tl_ready : option Z;
  tl_out_for_delivery : option Z;
  tl_delivered : option Z;
}.

Definition status_timeline (order : Order) (updated_at : Z) : Timeline :=
  let when_in (l : list OrderStatus) :=
    if includes l (status order) then Some updated_at else None in
  mkTimeline
    (Some (created_at order))
    (if negb (status_eqb (status order) pending) then Some updated_at else None)
    (when_in [preparing; ready; out_for_delivery; delivered])
    (when_in [ready; out_for_delivery; delivered])
    (when_in [out_for_delivery; delivered])
    (if status_eqb (status order) delivered then delivered_at order else None).

(** The access checks of the tracking route; [Ok None] lets the request
    through, [Throw] is the TypeError of [restaurant.owner_id] on a missing
    restaurant. *)
Definition track_access (rs : Restaurants) (userId : Z) (userRole : Role)
    (order : Order) : Result (option Response) :=
  if (role_eqb userRole customer && negb (customer_id order =? userId))%bool then
    Ok (Some (mkResponse 403 false "You can only track your own orders"))
  else if role_eqb userRole restaurant_owner then
    match Restaurant_findByPk rs (restaurant_id order) with
    | None => Throw (TypeError "Cannot read properties of null (reading 'owner_id')")
    | Some restaurant =>
        if negb (owner_id restaurant =? userId) then
          Ok (Some (mkResponse 403 false
                      "You can only track orders for your restaurants"))
        else Ok None
    end
  else Ok None.

Definition get_track (rs : Restaurants) (os : Orders) (userId : Z)
    (userRole : Role) (pk : Z) (updated_at : Z)
  : Response * option Timeline :=
  match findByPk os pk with
  | None => (mkResponse 404 false "Order not found", None)
  | Some order =>
      match track_access rs userId userRole order with
      | Throw _ => (mkResponse 500 false "Internal server error", None)
      | Ok (Some early) => (early, None)
      | Ok None =>
          match Restaurant_findByPk rs (restaurant_id order) with
          | None => (mkResponse 500 false "Internal server error", None)
          | Some _ =>
              (mkResponse 200 true "Order tracking retrieved successfully",
               Some (status_timeline order updated_at))
          end
      end
  end.

(** The access checks at the head of GET /api/orders/:id. *)
Definition view_access (rs : Restaurants) (userId : Z) (userRole : Role)
    (order : Order) : Result (option Response) :=
  if (role_eqb userRole customer && negb (customer_id order =? userId))%bool then
    Ok (Some (mkResponse 403 false "You can only view your own orders"))
  else
    let* owner_check :=
      if role_eqb userRole restaurant_owner then
        match Restaurant_findByPk rs (restaurant_id order) with
        | None =>
            Throw (TypeError "Cannot read properties of null (reading 'owner_id')")
        | Some restaurant =>
            if negb (owner_id restaurant =? userId) then
              Ok (Some (mkResponse 403 false
                          "You can only view orders for your restaurants"))
            else Ok None
        end
      else Ok None in
    match owner_check with
    | Some early => Ok (Some early)
    | None =>
        if (role_eqb userRole rider
            && negb (match rider_id order with
                     | Some r => r =? userId
                     | None => false
                     end))%bool
        then Ok (Some (mkResponse 403 false
                         "You can only view orders assigned to you"))
        else Ok None
    end.

(** ** Cart and CartItem statics *)

Definition with_carts (db : Database) (cs : list Cart) : Database :=
  mkDatabase cs (cartItems db) (addresses db) (restaurants db) (menuItems db)
    (orders db) (orderItems db).

Definition with_cartItems (db : Database) (items : list CartItem) : Database :=
  mkDatabase (carts db) items (addresses db) (restaurants db) (menuItems db)
    (orders db) (orderItems db).

Definition Cart_findByPk (db : Database) (pk : Z) : option Cart :=
  find (fun c => cart_pk c =? pk) (carts db).

Definition CartItem_findByPk (db : Database) (pk : Z) : option CartItem :=
  find (fun i => cart_item_pk i =? pk) (cartItems db).

Definition findByCartAndMenuItem (db : Database) (cartId menuItemId : Z)
  : option CartItem :=
  find (fun i => (cart_id i =? cartId) && (menu_item_id i =? menuItemId))
    (cartItems db).

(** The validators of the CartItem model, run by [create] and [save]. *)
Definition validate_cart_item (i : CartItem) : Result CartItem :=
  if quantity i <? 1 then
    Throw (SequelizeValidationError "Quantity must be at least 1")
  else if price i <? 0 then
    Throw (SequelizeValidationError "Price must be greater than or equal to 0")
  else Ok i.

(** [item.save()]: the row with the primary key of [i'] is written back. *)
Fixpoint save_cart_item (items : list CartItem) (i' : CartItem)
  : list CartItem :=
  match items with
  | [] => []
  | i :: rest =>
      if cart_item_pk i =? cart_item_pk i' then i' :: rest
      else i :: save_cart_item rest i'
  end.

Definition next_cart_item_id (items : list CartItem) : Z :=
  1 + fold_right (fun i m => Z.max (cart_item_pk i) m) 0 items.

Definition next_cart_id (cs : list Cart) : Z :=
  1 + fold_right (fun c m => Z.max (cart_pk c) m) 0 cs.

Definition set_quantity (i : CartItem) (q : Z) : CartItem :=
  mkCartItem (cart_item_pk i) (cart_id i) (menu_item_id i) q (price i)
    (cart_item_created_at i).

Definition addOrUpdateItem (db : Database) (cartId menuItemId qty prc now : Z)
  : Result (Database * CartItem) :=
  match findByCartAndMenuItem db cartId menuItemId with
  | Some existingItem =>
      let* saved :=
        validate_cart_item
          (set_quantity existingItem (quantity existingItem + qty)) in
      Ok (with_cartItems db (save_cart_item (cartItems db) saved), saved)
  | None =>
      let* created :=
        validate_cart_item
          (mkCartItem (next_cart_item_id (cartItems db)) cartId menuItemId
             qty prc now) in
      Ok (with_cartItems db (cartItems db ++ [created]), created)
  end.

Definition updateQuantity (db : Database) (pk qty : Z)
  : Result (Database * CartItem) :=
  match CartItem_findByPk db pk with
  | None => Throw (Error "Cart item not found")
  | Some cartItem =>
      if qty <=? 0 then Throw (Error "Quantity must be greater than 0")
      else
        let* saved := validate_cart_item (set_quantity cartItem qty) in
        Ok (with_cartItems db (save_cart_item (cartItems db) saved), saved)
  end.

Definition removeItem (db : Database) (pk : Z) : Result Database :=
  match CartItem_findByPk db pk with
  | None => Throw (Error "Cart item not found")
  | Some _ =>
      Ok (with_cartItems db
            (filter (fun i => negb (cart_item_pk i =? pk)) (cartItems db)))
  end.

Definition clearCart (db : Database) (cartId : Z) : Database :=
  with_cartItems db
    (filter (fun i => negb (cart_id i =? cartId)) (cartItems db)).

Definition deleteCart (db : Database) (cartId : Z) : Database :=
  let db1 := clearCart db cartId in
  with_carts db1 (filter (fun c => negb (cart_pk c =? cartId)) (carts db1)).

Definition findOrCreateForUser (db : Database) (user restaurant now : Z)
  : Result (Database * Cart) :=
  match Cart_findByUser db user with
  | Some existingCart =>
      if negb (cart_restaurant_id existingCart =? restaurant) then
        Throw (Error ("You already have items from another restaurant in "
                        ++ "your cart. Please clear your cart first.")%string)
      else Ok (db, existingCart)
  | None =>
      let created := mkCart (next_cart_id (carts db)) user restaurant now in
      Ok (with_carts db (carts db ++ [created]), created)
  end.

(** ** Routes PUT and DELETE /api/cart/items/:id

    The quantity of the request body is an integer here; [None] is a body
    without it. *)

Definition put_cart_item (db : Database) (userId pk : Z) (qty : option Z)
  : Response * Database :=
  match qty with
  | None => (mkResponse 400 false "Quantity must be a positive integer", db)
  | Some q =>
  if q <=? 0 then
    (mkResponse 400 false "Quantity must be a positive integer", db)
  else
    match CartItem_findByPk db pk with
    | None => (mkResponse 404 false "Cart item not found", db)
    | Some cartItem =>
        match Cart_findByPk db (cart_id cartItem) with
        | None =>
            (mkResponse 403 false "You can only update items in your own cart",
             db)
        | Some cart =>
            if negb (cart_user_id cart =? userId) then
              (mkResponse 403 false
                 "You can only update items in your own cart", db)
            else
              match updateQuantity db pk q with
              | Ok (db', _) =>
                  (mkResponse 200 true "Cart item updated successfully", db')
              | Throw error =>
                  if (String.eqb (error_message error) "Cart item not found"
                      || str_includes (error_message error) "Quantity")%bool
                  then (mkResponse 400 false (error_message error), db)
                  else (mkResponse 500 false "Internal server error", db)
              end
        end
    end
  end.

Definition delete_cart_item (db : Database) (userId pk : Z)
  : Response * Database :=
  match CartItem_findByPk db pk with
  | None => (mkResponse 404 false "Cart item not found", db)
  | Some cartItem =>
      match Cart_findByPk db (cart_id cartItem) with
      | None =>
          (mkResponse 403 false
             "You can only remove items from your own cart", db)
      | Some cart =>
          if negb (cart_user_id cart =? userId) then
            (mkResponse 403 false
               "You can only remove items from your own cart", db)
          else
            match removeItem db pk with
            | Throw _ => (mkResponse 500 false "Internal server error", db)
            | Ok db1 =>
                match CartItem_findByCart db1 (cart_pk cart) with
                | [] =>
                    (mkResponse 200 true
                       "Item removed from cart. Cart is now empty.",
                     deleteCart db1 (cart_pk cart))
                | _ :: _ =>
                    (mkResponse 200 true "Item removed from cart successfully",
                     db1)
                end
            end
      end
  end.

(** ** Rider statistics: the counts and the total of getRiderStats

    The rates and the per-day and per-month sums of the source, which
    depend on the local calendar and on the formatting of a quotient of
    doubles, are not part of this record. *)

Record RiderStats : Type := mkRiderStats {
  total_orders : Z;
  delivered_orders : Z;
  active_orders : Z;
  total_earnings : Z;
}.

Definition count_where (f : Order -> bool) (os : Orders) : Z :=
  Z.of_nat (List.length (filter f os)).

Definition of_rider (riderId : Z) (o : Order) : bool :=
  match rider_id o with
  | Some r => r =? riderId
  | None => false
  end.

Definition deliveredOrdersWithEarnings (os : Orders) (riderId : Z) : Orders :=
  filter (fun o => of_rider riderId o && status_eqb (status o) delivered) os.

(** [reduce((sum, order) => sum + (parseFloat(order.rider_earning) || 0), 0)] *)
Definition totalEarnings (os : Orders) : Z :=
  fold_left (fun sum o => sum + parseFloat_or_0 (rider_earning o)) os 0.

Definition getRiderStats (us : Users) (os : Orders) (riderId : Z)
  : Result RiderStats :=
  match User_findByPk us riderId with
  | None => Throw (Error "Rider not found")
  | Some r =>
      if negb (role_eqb (user_role r) rider) then Throw (Error "Rider not found")
      else
        Ok (mkRiderStats
              (count_where (of_rider riderId) os)
              (count_where (fun o => of_rider riderId o
                                     && status_eqb (status o) delivered) os)
              (count_where (fun o => of_rider riderId o
                                     && includes active_statuses (status o)) os)
              (totalEarnings (deliveredOrdersWithEarnings os riderId)))
  end.

(** * Properties *)

(** ** Basic facts about the tables *)

Lemma status_eqb_spec a b : reflect (a = b) (status_eqb a b).
Proof. destruct a, b; constructor; congruence. Qed.

Lemma status_eqb_refl a : status_eqb a a = true.
Proof. now destruct a. Qed.

Lemma findByPk_Some os pk o :
  findByPk os pk = Some o -> In o os /\ id o = pk.
Proof.
  unfold findByPk. intros H. apply find_some in H.
  destruct H as [Hin Hid]. split; [assumption | lia].
Qed.

Lemma update_id o u : id (update o u) = id o.
Proof. reflexivity. Qed.

Lemma findByPk_save os pk o o' :
  findByPk os pk = Some o -> id o' = pk ->
  findByPk (save os o') pk = Some o'.
Proof.
  unfold findByPk. induction os as [|x xs IH]; simpl; intros Hf Hid.
  - discriminate.
  - destruct (id x =? pk) eqn:Ex.
    + assert ((id x =? id o') = true) as -> by lia.
      simpl. now assert ((id o' =? pk) = true) as -> by lia.
    + assert ((id x =? id o') = false) as -> by lia.
      simpl. rewrite Ex. now apply IH.
Qed.

Lemma findByPk_save_other os pk o' :
  id o' <> pk -> findByPk (save os o') pk = findByPk os pk.
Proof.
  unfold findByPk. induction os as [|x xs IH]; simpl; intros Hid; [reflexivity|].
  destruct (id x =? id o') eqn:Ex; simpl.
  - assert ((id o' =? pk) = false) as -> by lia.
    now assert ((id x =? pk) = false) as -> by lia.
  - destruct (id x =? pk); [reflexivity | now apply IH].
Qed.

(** ** Side effects of [Order.updateStatus] *)

Lemma earning_of_fee_nearest fee :
  Z.abs (10 * earning_of_fee fee - 8 * fee) < 5.
Proof.
  unfold earning_of_fee, toFixed2_of_tenths, RIDER_EARNING_TENTHS.
  pose proof (Z.div_mod (fee * 8 + 5) 10 ltac:(lia)) as Hdm.
  pose proof (Z.mod_pos_bound (fee * 8 + 5) 10 ltac:(lia)) as Hb.
  assert (Hodd : (fee * 8 + 5) mod 10 <> 0).
  { intros H0. rewrite H0 in Hdm.
    assert (He : fee * 8 + 5 = 2 * (5 * ((fee * 8 + 5) / 10))) by lia.
    lia. }
  lia.
Qed.

(** C2.  A transition to delivered stamps [delivered_at] with the current
    time and sets [rider_earning] to 80% of the delivery fee, rounded to the
    nearest cent, exactly when a rider is assigned and the fee is set;
    otherwise [rider_earning] is left as it was (unset stays unset).  A
    transition to cancelled stamps [cancelled_at] and clears
    [rider_earning]. *)
Theorem updateStatus_side_effects os pk o additionalData now :
  findByPk os pk = Some o ->
  rider_id o <> Some 0 ->
  (exists os' o',
      updateStatus os pk delivered additionalData now = Ok (os', o') /\
      findByPk os' pk = Some o' /\
      status o' = or_keep (ad_status additionalData) delivered /\
      delivered_at o' = Some now /\
      (forall fee, rider_id o <> None -> delivery_fee o = Some fee ->
         rider_earning o' = Some (earning_of_fee fee) /\
         Z.abs (10 * earning_of_fee fee - 8 * fee) < 5) /\
      (rider_id o = None \/ delivery_fee o = None ->
         rider_earning o' = rider_earning o) /\
      (rider_earning o = None ->
         (rider_earning o' <> None <->
          rider_id o <> None /\ delivery_fee o <> None))) /\
  (exists os' o',
      updateStatus os pk cancelled additionalData now = Ok (os', o') /\
      findByPk os' pk = Some o' /\
      status o' = or_keep (ad_status additionalData) cancelled /\
      cancelled_at o' = Some now /\
      rider_earning o' = None).
Proof.
  intros Hfind Hpos.
  destruct (findByPk_Some _ _ _ Hfind) as [_ Hid].
  unfold updateStatus. rewrite Hfind. split.
  - eexists _, _. split; [reflexivity|].
    split; [apply (findByPk_save _ _ _ _ Hfind); now rewrite update_id|].
    split; [reflexivity|]. split; [reflexivity|].
    destruct (rider_id o) as [r|] eqn:Er, (delivery_fee o) as [f|] eqn:Ef;
      simpl; rewrite ?Er, ?Ef; simpl.
    + assert (r <> 0) by congruence.
      assert ((r =? 0) = false) as -> by lia. simpl.
      split; [|split].
      * intros fee _ [= <-]. split; [reflexivity | apply earning_of_fee_nearest].
      * intros [?|?]; discriminate.
      * intros _. split; [split; discriminate | discriminate].
    + rewrite andb_false_r. simpl.
      split; [|split].
      * intros fee _ [=].
      * reflexivity.
      * intros ->. tauto.
    + split; [|split].
      * intros fee Hn. contradiction.
      * reflexivity.
      * intros ->. tauto.
    + split; [|split].
      * intros fee Hn. contradiction.
      * reflexivity.
      * intros ->. tauto.
  - eexists _, _. split; [reflexivity|].
    split; [apply (findByPk_save _ _ _ _ Hfind); now rewrite update_id|].
    repeat split.
Qed.

(** The customer's cancellation goes through the same update. *)
Lemma cancelOrder_side_effects os pk o reason now :
  findByPk os pk = Some o ->
  includes nonCancellableStatuses (status o) = false ->
  exists os' o',
    cancelOrder os pk reason now = Ok (os', o') /\
    findByPk os' pk = Some o' /\
    status o' = cancelled /\
    cancelled_at o' = Some now /\
    cancellation_reason o' = reason /\
    rider_earning o' = None.
Proof.
  intros Hfind Hok.
  destruct (findByPk_Some _ _ _ Hfind) as [_ Hid].
  unfold cancelOrder, updateStatus. rewrite Hfind, Hok.
  eexists _, _. split; [reflexivity|].
  split; [apply (findByPk_save _ _ _ _ Hfind); now rewrite update_id|].
  repeat split.
Qed.

Lemma updateStatus_side_effects_witness :
  findByPk [sample_order 1 out_for_delivery (Some 21) 50] 1
    = Some (sample_order 1 out_for_delivery (Some 21) 50) /\
  exists os' o',
    updateStatus [sample_order 1 out_for_delivery (Some 21) 50] 1 delivered
      no_additionalData 99 = Ok (os', o') /\
    delivered_at o' = Some 99 /\
    rider_earning o' = Some 4000.
Proof.
  split; [reflexivity|].
  destruct (updateStatus_side_effects
              [sample_order 1 out_for_delivery (Some 21) 50] 1
              (sample_order 1 out_for_delivery (Some 21) 50)
              no_additionalData 99 eq_refl ltac:(discriminate))
    as [(os' & o' & Hup & _ & _ & Hat & Hearn & _) _].
  exists os', o'. split; [exact Hup|]. split; [exact Hat|].
  apply (Hearn 5000); [discriminate | reflexivity].
Defined.

(** ** Transition checks of PUT /api/orders/:id/status *)

(** Where the current status has an entry in the role's [validTransitions]
    table, a request that passes the checks is a legal transition. *)
Lemma role_checks_legal rs userId userRole order target :
  role_checks rs userId userRole order target = None ->
  match userRole with
  | restaurant_owner => owner_validTransitions (status order) <> None
  | rider => rider_validTransitions (status order) <> None
  | customer => False
  end ->
  legal_transition userRole (status order) target = true.
Proof.
  destruct userRole; simpl; [tauto | |].
  - unfold owner_checks.
    destruct (Restaurant_findByPk rs (restaurant_id order)); [|discriminate].
    destruct (negb (owner_id r =? userId)); [discriminate|].
    destruct (negb (includes owner_allowedStatuses target)); [discriminate|].
    unfold transition_refused.
    destruct (status order), target; simpl; congruence.
  - unfold rider_checks.
    destruct (rider_id order) as [r|]; [|discriminate].
    destruct (negb (r =? userId)); [discriminate|].
    destruct (negb (includes rider_allowedStatuses target)); [discriminate|].
    unfold transition_refused.
    destruct (status order), target; simpl; congruence.
Qed.

(** Where it has none, the transition check is skipped: the owner of the
    restaurant may set any of confirmed, preparing, ready. *)
Lemma owner_checks_skipped rs userId order restaurant target :
  Restaurant_findByPk rs (restaurant_id order) = Some restaurant ->
  owner_id restaurant = userId ->
  owner_validTransitions (status order) = None ->
  includes owner_allowedStatuses target = true ->
  owner_checks rs userId order target = None.
Proof.
  intros Hr Ho Hv Ha. unfold owner_checks, transition_refused.
  rewrite Hr, Hv, Ha. now assert ((owner_id restaurant =? userId) = true) as -> by lia.
Qed.

Lemma rider_checks_skipped userId order target :
  rider_id order = Some userId ->
  rider_validTransitions (status order) = None ->
  includes rider_allowedStatuses target = true ->
  rider_checks userId order target = None.
Proof.
  intros Hr Hv Ha. unfold rider_checks, transition_refused.
  rewrite Hr, Hv, Ha. now rewrite Z.eqb_refl.
Qed.

(** C1.  The transition check is applied only when the current status is a
    key of the role's table.  For an order that is already delivered, the
    owner's request for confirmed is accepted and stored, although
    delivered -> confirmed is not a transition of the table; likewise the
    assigned rider's request for out_for_delivery. *)
Theorem put_status_leaves_transition_table :
  (exists response os',
      put_status no_fault sample_riders sample_restaurants
        [sample_order 1 delivered (Some 21) 50]
        9 restaurant_owner 1 (mkStatusBody (Some "confirmed") None) 99
      = (response, os') /\
      http_status response = 200 /\
      option_map status (findByPk os' 1) = Some confirmed /\
      legal_transition restaurant_owner delivered confirmed = false) /\
  (exists response os',
      put_status no_fault sample_riders sample_restaurants
        [sample_order 1 delivered (Some 21) 50]
        21 rider 1 (mkStatusBody (Some "out_for_delivery") None) 99
      = (response, os') /\
      http_status response = 200 /\
      option_map status (findByPk os' 1) = Some out_for_delivery /\
      legal_transition rider delivered out_for_delivery = false).
Proof.
  split; eexists _, _; (split; [reflexivity|]); repeat split.
Qed.

(** ** Recipients of the notification fanout *)

Lemma fanout_counterexample :
  (exists ns,
      notifications_for (sample_snapshot (Some 21)) out_for_delivery = Ok ns /\
      recipients ns = [(7, customer)] /\
      ~ In (9, restaurant_owner) (recipients ns)) /\
  (exists ns,
      notifications_for (sample_snapshot (Some 21)) delivered = Ok ns /\
      recipients ns = [(7, customer); (9, restaurant_owner)] /\
      ~ In (21, rider) (recipients ns)).
Proof.
  split; eexists; (split; [reflexivity|]); (split; [reflexivity|]);
    simpl; intros H; repeat (destruct H as [H|H]; [discriminate H|]); exact H.
Qed.

(** Trimming leaves a string with a solid character non-empty. *)
Lemma white_space_bytes c1 c2 c3 :
  (white_space_1 c1 = true -> solid c1 = false) /\
  (white_space_lead c1 = true -> solid c1 = false) /\
  (white_space_2 c1 c2 = true -> solid c2 = false) /\
  (white_space_3 c1 c2 c3 = true -> solid c2 = false /\ solid c3 = false).
Proof.
  unfold solid, white_space_lead, white_space_2, white_space_3.
  split; [intros ->; reflexivity|].
  split.
  { intros H. apply andb_false_iff. right.
    repeat (apply orb_true_iff in H; destruct H as [H|H]); lia. }
  split.
  { intros H. apply andb_true_iff in H. destruct H as [_ H].
    apply andb_false_iff. right. lia. }
  intros H.
  assert (128 <= code c2 /\ 128 <= code c3) as [H2 H3].
  { repeat (apply orb_true_iff in H; destruct H as [H|H]);
      repeat (apply andb_true_iff in H; destruct H as [H ?]);
      repeat match goal with
             | H : (_ || _)%bool = true |- _ =>
                 apply orb_true_iff in H; destruct H as [H|H]
             | H : (_ && _)%bool = true |- _ =>
                 apply andb_true_iff in H; destruct H as [H ?]
             end; lia. }
  split; apply andb_false_iff; right; lia.
Qed.

Lemma trimStart_keeps_solid n : forall s,
  (String.length s <= n)%nat ->
  has_solid s = true -> has_solid (trimStart s) = true.
Proof.
  induction n as [|n IH]; intros s Hlen Hs.
  - destruct s; [discriminate Hs | simpl in Hlen; lia].
  - destruct s as [|c1 r1]; [discriminate Hs|].
    cbn [trimStart]. cbn [has_solid] in Hs. simpl in Hlen.
    destruct (white_space_bytes c1 c1 c1) as (H1 & Hl & _).
    destruct (white_space_1 c1) eqn:Hw1.
    { rewrite (H1 eq_refl) in Hs. apply IH; [lia | exact Hs]. }
    destruct (white_space_lead c1) eqn:Hwl;
      [|cbn [has_solid]; exact Hs].
    rewrite (Hl eq_refl) in Hs. cbn [orb] in Hs.
    destruct r1 as [|c2 r2]; [discriminate Hs|].
    cbn [has_solid] in Hs. simpl in Hlen.
    destruct (white_space_2 c1 c2) eqn:Hw2.
    { destruct (white_space_bytes c1 c2 c2) as (_ & _ & H2 & _).
      rewrite (H2 Hw2) in Hs. apply IH; [lia | exact Hs]. }
    destruct r2 as [|c3 r3];
      [cbn [has_solid]; rewrite (Hl eq_refl); exact Hs|].
    destruct (white_space_3 c1 c2 c3) eqn:Hw3;
      [|cbn [has_solid]; rewrite (Hl eq_refl); exact Hs].
    destruct (white_space_bytes c1 c2 c3) as (_ & _ & _ & H3).
    destruct (H3 Hw3) as [Hc2 Hc3].
    cbn [has_solid] in Hs. rewrite Hc2, Hc3 in Hs. simpl in Hlen.
    apply IH; [lia | exact Hs].
Qed.

Lemma trim_not_empty s :
  has_solid s = true -> String.eqb (trim s) "" = false.
Proof.
  intros Hs. unfold trim.
  pose proof (trimStart_keeps_solid _ s (le_n _) Hs) as Ht.
  destruct (trimStart s) as [|c t] eqn:Hst; [discriminate Ht|].
  cbn [trimEnd].
  pose proof (trimStart_keeps_solid _ (String c t) (le_n _) Ht) as Ht'.
  destruct (trimStart (String c t)) as [|c' t']; [discriminate Ht'|].
  reflexivity.
Qed.

Lemma has_solid_app_r a b :
  has_solid b = true -> has_solid (a ++ b) = true.
Proof.
  intros Hb. induction a as [|c a IH]; simpl; [exact Hb|].
  rewrite IH. apply orb_true_r.
Qed.

(** An entry of a known type whose title and message have a solid
    character is stored, trimmed, when the document store accepts it. *)
Lemma createNotification_stored n :
  existsb (String.eqb (type n)) notification_types = true ->
  String.eqb (type n) "" = false ->
  has_solid (title n) = true ->
  has_solid (message n) = true ->
  createNotification no_fault n = Ok (Notification_new n).
Proof.
  intros Hty Hne Hti Hme.
  unfold createNotification, Notification_createNotification,
    validation_errors, Notification_new. cbn [type title message].
  now rewrite Hne, Hty, (trim_not_empty _ Hti), (trim_not_empty _ Hme).
Qed.

Lemma notifications_stored ns :
  Forall (fun n => createNotification no_fault n = Ok (Notification_new n)) ns ->
  map (fun notif =>
         match createNotification no_fault notif with
         | Ok n => Created n
         | Throw error => Failed (error_message error)
         end) ns
  = map (fun n => Created (Notification_new n)) ns.
Proof.
  induction 1 as [|n ns Hn _ IH]; [reflexivity|].
  cbn [map]. now rewrite Hn, IH.
Qed.

(** C3 (amended).  For a snapshot that carries its restaurant, the fanout
    addresses: the restaurant owner for pending; the customer for
    confirmed, preparing and out_for_delivery; the customer and, when
    assigned, the rider for ready; the customer and the restaurant owner for
    delivered; the customer, the restaurant owner and, when assigned, the
    rider for cancelled.  Every entry is stored, its title and message
    trimmed as the schema has it, when the document store accepts it. *)
Theorem fanout_recipients order restaurant st :
  snap_restaurant order = Some restaurant ->
  exists ns,
    notifications_for order st = Ok ns /\
    recipients ns =
      match st with
      | pending => [(sr_owner_id restaurant, restaurant_owner)]
      | confirmed | preparing | out_for_delivery =>
          [(snap_customer_id order, customer)]
      | ready => (snap_customer_id order, customer) :: rider_recipient order
      | delivered =>
          [(snap_customer_id order, customer);
           (sr_owner_id restaurant, restaurant_owner)]
      | cancelled =>
          (snap_customer_id order, customer)
            :: (sr_owner_id restaurant, restaurant_owner)
            :: rider_recipient order
      end /\
    notifyOrderStatusChange no_fault order st
    = Ok (map (fun n => Created (Notification_new n)) ns) /\
    recipients (map Notification_new ns) = recipients ns.
Proof.
  intros Hr.
  assert (Hrec : forall ns, recipients (map Notification_new ns) = recipients ns).
  { intros ns. unfold recipients. rewrite map_map. reflexivity. }
  unfold notifyOrderStatusChange, notifications_for,
    restaurant_owner_of, rider_recipient. rewrite Hr.
  destruct st; cbn [bind];
    try (destruct (snap_rider_id order) as [x|]; cbn [truthy_id];
         try destruct (x =? 0); cbn [negb]);
    eexists; (split; [reflexivity|]); (split; [reflexivity|]);
    (split; [|apply Hrec]);
    f_equal; apply notifications_stored;
    repeat constructor;
    apply createNotification_stored;
    try reflexivity;
    cbn [message];
    first [reflexivity | apply has_solid_app_r; reflexivity].
Qed.

Lemma fanout_recipients_witness :
  snap_restaurant (sample_snapshot (Some 21))
    = Some (mkSnapshotRestaurant "Spice Route" 9) /\
  exists ns,
    notifications_for (sample_snapshot (Some 21)) cancelled = Ok ns /\
    recipients ns = [(7, customer); (9, restaurant_owner); (21, rider)].
Proof.
  split; [reflexivity|].
  destruct (fanout_recipients (sample_snapshot (Some 21))
              (mkSnapshotRestaurant "Spice Route" 9) cancelled eq_refl)
    as (ns & Hns & Hrec & _).
  exists ns. split; [exact Hns | exact Hrec].
Defined.

(** A restaurant name that starts with a blank: the message is stored
    without it. *)
Example fanout_trims_message :
  notifyOrderStatusChange no_fault
    (mkOrderSnapshot 1 "ORD-20260108-001" 7 3 None (Some "Dev")
       (Some (mkSnapshotRestaurant " Spice Route" 9)))
    preparing
  = Ok [Created
          (mkNotif 7 customer "order_preparing" "Order Being Prepared"
             "Spice Route is now preparing your order #ORD-20260108-001")].
Proof. vm_compute. reflexivity. Qed.

(** ** Assignment of an order that already has a rider *)

Lemma assignRider_Ok os pk o riderId :
  findByPk os pk = Some o ->
  status o = ready ->
  exists os' o',
    assignRider os pk riderId = Ok (os', o') /\
    findByPk os' pk = Some o' /\
    rider_id o' = Some riderId /\
    status o' = ready.
Proof.
  intros Hf Hs. destruct (findByPk_Some _ _ _ Hf) as [_ Hid].
  unfold assignRider. rewrite Hf, Hs. simpl.
  eexists _, _. split; [reflexivity|].
  split; [apply (findByPk_save _ _ _ _ Hf); now rewrite update_id|].
  simpl. now rewrite Hs.
Qed.

Lemma autoAssign_counterexample :
  exists result,
    autoAssignRider sample_riders [sample_order 1 out_for_delivery (Some 21) 50] 1
      = Ok ([sample_order 1 out_for_delivery (Some 21) 50], result) /\
    option_map rider_id (findByPk [sample_order 1 out_for_delivery (Some 21) 50] 1)
      = Some (Some 21) /\
    success result = false /\
    ar_rider result = None.
Proof. eexists. repeat split. Qed.

(** C4 (amended).  For an order whose [rider_id] is set, [autoAssignRider]
    never writes: when the order is ready it returns success and reports
    the existing rider; in any other status it declines.  A second call
    after a fresh assignment is such a no-op and reports the rider of the
    first call. *)
Theorem autoAssign_assigned_is_noop us os pk o r :
  findByPk os pk = Some o ->
  rider_id o = Some r ->
  r <> 0 ->
  (exists result,
      autoAssignRider us os pk = Ok (os, result) /\
      (status o = ready ->
         success result = true /\
         ar_rider result = User_findByPk us r /\
         alreadyAssigned result = Some true) /\
      (status o <> ready -> success result = false /\ ar_rider result = None)) /\
  (forall os0 result0 selected,
      autoAssignRider us os0 pk = Ok (os, result0) ->
      alreadyAssigned result0 = Some false ->
      ar_rider result0 = Some selected ->
      r = user_id selected /\
      exists result,
        autoAssignRider us os pk = Ok (os, result) /\
        success result = true /\
        ar_rider result = User_findByPk us (user_id selected)).
Proof.
  intros Hf Hr Hr0.
  assert (Hnoop : exists result,
      autoAssignRider us os pk = Ok (os, result) /\
      (status o = ready ->
         success result = true /\
         ar_rider result = User_findByPk us r /\
         alreadyAssigned result = Some true) /\
      (status o <> ready -> success result = false /\ ar_rider result = None)).
  { unfold autoAssignRider. rewrite Hf.
    destruct (status_eqb_spec (status o) ready) as [Hs|Hs]; simpl.
    - rewrite Hr. simpl. assert ((r =? 0) = false) as -> by lia. simpl.
      eexists. split; [reflexivity|]. split; [now intros _ | contradiction].
    - eexists. split; [reflexivity|]. split; [contradiction | now intros _]. }
  split; [exact Hnoop|].
  intros os0 result0 selected H0 Hfresh Hsel.
  assert (Hsame : r = user_id selected).
  { unfold autoAssignRider in H0.
    destruct (findByPk os0 pk) as [o0|] eqn:Hf0; [|discriminate].
    destruct (status_eqb_spec (status o0) ready) as [Hs0|Hs0]; simpl in H0.
    - destruct (truthy_id (rider_id o0)).
      + injection H0 as _ <-. discriminate.
      + destruct (findAvailableRiders us os0 10); [injection H0 as _ <-; discriminate|].
        destruct (sort_by_count _) as [|first rest]; [discriminate|].
        destruct (assignRider_Ok os0 pk o0 (user_id (rc_rider first)) Hf0 Hs0)
          as (os' & o' & Ha & Hf' & Hr' & _).
        rewrite Ha in H0. simpl in H0. injection H0 as <- <-.
        simpl in Hsel. injection Hsel as <-.
        rewrite Hf in Hf'. injection Hf' as <-. congruence.
    - injection H0 as _ <-. discriminate. }
  split; [exact Hsame|].
  destruct Hnoop as (result & Hres & Hready & _).
  assert (Hs : status o = ready).
  { unfold autoAssignRider in H0.
    destruct (findByPk os0 pk) as [o0|] eqn:Hf0; [|discriminate].
    destruct (status_eqb_spec (status o0) ready) as [Hs0|Hs0]; simpl in H0.
    - destruct (truthy_id (rider_id o0)).
      + injection H0 as _ <-. discriminate.
      + destruct (findAvailableRiders us os0 10); [injection H0 as _ <-; discriminate|].
        destruct (sort_by_count _) as [|first rest]; [discriminate|].
        destruct (assignRider_Ok os0 pk o0 (user_id (rc_rider first)) Hf0 Hs0)
          as (os' & o' & Ha & Hf' & _ & Hst').
        rewrite Ha in H0. simpl in H0. injection H0 as <- <-.
        rewrite Hf in Hf'. injection Hf' as <-. exact Hst'.
    - injection H0 as _ <-. discriminate. }
  exists result. split; [exact Hres|].
  destruct (Hready Hs) as (H1 & H2 & _). rewrite <- Hsame. now split.
Qed.

Lemma autoAssign_assigned_is_noop_witness :
  findByPk [sample_order 1 ready (Some 21) 50] 1
    = Some (sample_order 1 ready (Some 21) 50) /\
  exists result,
    autoAssignRider sample_riders [sample_order 1 ready (Some 21) 50] 1
      = Ok ([sample_order 1 ready (Some 21) 50], result) /\
    success result = true /\
    ar_rider result = Some (mkUser 21 "Asha" rider true 10) /\
    alreadyAssigned result = Some true.
Proof.
  split; [reflexivity|].
  destruct (autoAssign_assigned_is_noop sample_riders
              [sample_order 1 ready (Some 21) 50] 1
              (sample_order 1 ready (Some 21) 50) 21
              eq_refl eq_refl ltac:(discriminate))
    as [(result & Hres & Hready & _) _].
  exists result. split; [exact Hres|].
  destruct (Hready eq_refl) as (Hs & Hr & Ha).
  split; [exact Hs|]. split; [exact Hr | exact Ha].
Defined.

(** ** Facts about the stable sort *)

Section StableSortFacts.
Context {A : Type} (le : A -> A -> bool).

Lemma in_insert_sorted x a l :
  In x (insert_sorted le a l) <-> x = a \/ In x l.
Proof.
  induction l as [|y l IH]; simpl.
  - intuition congruence.
  - destruct (le a y); simpl; rewrite ?IH; intuition congruence.
Qed.

Lemma in_stable_sort x l : In x (stable_sort le l) <-> In x l.
Proof.
  induction l as [|a l IH]; simpl; [tauto|].
  rewrite in_insert_sorted, IH. intuition congruence.
Qed.

Lemma stable_sort_nil_inv l : stable_sort le l = [] -> l = [].
Proof.
  destruct l as [|a l]; [reflexivity|]. simpl.
  destruct (stable_sort le l) as [|y ys]; simpl; [discriminate|].
  destruct (le a y); discriminate.
Qed.

(** Elements that all compare equal keep their order. *)
Lemma stable_sort_all_le l :
  (forall x y, In x l -> In y l -> le x y = true) ->
  stable_sort le l = l.
Proof.
  induction l as [|a l IH]; intros Hle; [reflexivity|].
  simpl. rewrite IH by (intros; apply Hle; now right).
  destruct l as [|y l]; [reflexivity|]. simpl.
  rewrite Hle; [reflexivity | now left | right; now left].
Qed.
End StableSortFacts.

Lemma In_firstn {A} (x : A) n l : In x (firstn n l) -> In x l.
Proof.
  intros H. rewrite <- (firstn_skipn n l). apply in_or_app. now left.
Qed.

(** The head of the list sorted by count is the first element of least
    count. *)
Lemma sort_by_count_head l first rest :
  sort_by_count l = first :: rest ->
  exists before after,
    l = before ++ first :: after /\
    Forall (fun c => rc_count first < rc_count c) before /\
    Forall (fun c => rc_count first <= rc_count c) after.
Proof.
  unfold sort_by_count. revert first rest.
  induction l as [|a l IH]; intros first rest; simpl; [discriminate|].
  destruct (stable_sort _ l) as [|y ys] eqn:Hs.
  - apply stable_sort_nil_inv in Hs. subst l. simpl. intros [= <- <-].
    exists [], []. repeat split; constructor.
  - destruct (IH y ys eq_refl) as (before & after & Hl & Hb & Ha).
    simpl. destruct (rc_count a - rc_count y <=? 0) eqn:Hle.
    + intros [= <- <-]. exists [], l. split; [reflexivity|].
      split; [constructor|]. subst l. apply Forall_app. split.
      * eapply Forall_impl; [|exact Hb]. simpl. intros; lia.
      * constructor; [lia|]. eapply Forall_impl; [|exact Ha]. simpl. intros; lia.
    + intros [= <- <-]. exists (a :: before), after. subst l.
      split; [reflexivity|]. split; [|exact Ha].
      constructor; [lia | exact Hb].
Qed.

Example sort_by_count_2_0_1 a b c :
  sort_by_count [mkRiderCount a 2; mkRiderCount b 0; mkRiderCount c 1]
  = [mkRiderCount b 0; mkRiderCount c 1; mkRiderCount a 2].
Proof. reflexivity. Qed.

(** ** Least-loaded selection *)

(** C5.  On an unassigned ready order with a non-empty candidate pool,
    [autoAssignRider] counts each candidate's orders in ready or
    out_for_delivery and assigns the first candidate of least count. *)
Theorem autoAssign_selects_first_least_loaded us os pk o :
  findByPk os pk = Some o ->
  status o = ready ->
  rider_id o = None ->
  findAvailableRiders us os 10 <> [] ->
  exists selected os' o' result,
    autoAssignRider us os pk = Ok (os', result) /\
    success result = true /\
    ar_rider result = Some selected /\
    alreadyAssigned result = Some false /\
    findByPk os' pk = Some o' /\
    rider_id o' = Some (user_id selected) /\
    first_least_loaded os (findAvailableRiders us os 10) selected.
Proof.
  intros Hf Hs Hr Hne. unfold autoAssignRider. rewrite Hf, Hs, Hr. simpl.
  destruct (findAvailableRiders us os 10) as [|u0 avail] eqn:Hav; [contradiction|].
  destruct (sort_by_count (riderDeliveryCounts os (u0 :: avail)))
    as [|first rest] eqn:Hsort.
  - apply stable_sort_nil_inv in Hsort. discriminate.
  - destruct (sort_by_count_head _ _ _ Hsort) as (before & after & Hl & Hb & Ha).
    destruct (assignRider_Ok os pk o (user_id (rc_rider first)) Hf Hs)
      as (os' & o' & Has & Hf' & Hr' & _).
    rewrite Has. simpl.
    exists (rc_rider first), os', o'. eexists.
    split; [reflexivity|]. repeat (split; [first [reflexivity | assumption]|]).
    unfold riderDeliveryCounts in Hl.
    apply map_eq_app in Hl.
    destruct Hl as (lb & l2 & Hsplit & Hlb & Hl2).
    apply map_eq_cons in Hl2.
    destruct Hl2 as (sel & la & -> & Hsel & Hla).
    exists lb, la. subst first before after. simpl in *.
    split; [exact Hsplit|]. split.
    + rewrite Forall_map in Hb. exact Hb.
    + rewrite Forall_map in Ha. exact Ha.
Qed.

Lemma autoAssign_selects_first_least_loaded_witness :
  map (activeDeliveries loaded_orders) [21; 22; 23] = [2; 0; 1] /\
  findByPk loaded_orders 4 = Some (sample_order 4 ready None 80) /\
  exists os' result,
    autoAssignRider sample_riders loaded_orders 4 = Ok (os', result) /\
    ar_rider result = Some (mkUser 22 "Bilal" rider true 20) /\
    option_map rider_id (findByPk os' 4) = Some (Some 22).
Proof.
  split; [reflexivity|]. split; [reflexivity|].
  destruct (autoAssign_selects_first_least_loaded sample_riders loaded_orders 4
              (sample_order 4 ready None 80) eq_refl eq_refl eq_refl
              ltac:(discriminate))
    as (selected & os' & o' & result & Hres & _ & Hsel & _ & Hf' & Hr' & _).
  exists os', result. split; [exact Hres|].
  vm_compute in Hres. injection Hres as <- <-.
  split; [reflexivity | reflexivity].
Defined.

(** ** Availability and load *)

Lemma in_ids_In x ids : in_ids x ids = true <-> In x ids.
Proof.
  unfold in_ids. rewrite existsb_exists. split.
  - intros (y & Hy & He). apply Z.eqb_eq in He. now subst.
  - intros H. exists x. split; [assumption | apply Z.eqb_refl].
Qed.

Lemma in_filter_Boolean x l :
  In x (filter_Boolean l) <-> In (Some x) l /\ x <> 0.
Proof.
  induction l as [|[n|] l IH]; simpl.
  - tauto.
  - destruct (n =? 0) eqn:En; simpl; rewrite IH; split.
    + intros [H1 H2]. split; [now right | assumption].
    + intros [[H1|H1] H2]; [injection H1 as ->; lia | now split].
    + intros [->|[H1 H2]]; [split; [now left | lia] | split; [now right | assumption]].
    + intros [[H1|H1] H2]; [left; congruence | right; now split].
  - rewrite IH. split.
    + intros [H1 H2]. split; [now right | assumption].
    + intros [[H1|H1] H2]; [discriminate | now split].
Qed.

Lemma findAvailableRiders_In us os limit r :
  In r (findAvailableRiders us os limit) ->
  In r us /\
  In r (findByRole us rider 100) /\
  in_ids (user_id r)
    (filter_Boolean (busyRiders os (map user_id (findByRole us rider 100))))
  = false.
Proof.
  unfold findAvailableRiders.
  destruct (findByRole us rider 100) as [|u0 all] eqn:Hall; [intros []|].
  intros H. apply In_firstn, filter_In in H. destruct H as [Hin Hbusy].
  split; [|split; [exact Hin | now apply negb_true_iff in Hbusy]].
  rewrite <- Hall in Hin. unfold findByRole in Hin.
  apply In_firstn in Hin. unfold order_by_desc in Hin.
  rewrite in_stable_sort in Hin. now apply filter_In in Hin.
Qed.

Lemma activeDeliveries_available us os limit r :
  user_id r <> 0 ->
  In r (findAvailableRiders us os limit) ->
  activeDeliveries os (user_id r) = 0.
Proof.
  intros Hne Hin.
  destruct (findAvailableRiders_In _ _ _ _ Hin) as (_ & Hall & Hfree).
  unfold activeDeliveries.
  destruct (filter _ os) as [|o l] eqn:Hflt; [reflexivity|]. exfalso.
  assert (Ho : In o (filter
                       (fun o => match rider_id o with
                                 | Some r0 => r0 =? user_id r
                                 | None => false
                                 end && includes active_statuses (status o)) os))
    by (rewrite Hflt; now left).
  apply filter_In in Ho. destruct Ho as [Hos Hcond].
  apply andb_true_iff in Hcond. destruct Hcond as [Hrid Hact].
  destruct (rider_id o) as [r0|] eqn:Er; [|discriminate].
  apply Z.eqb_eq in Hrid. subst r0.
  assert (Hbusy : in_ids (user_id r)
            (filter_Boolean
               (busyRiders os (map user_id (findByRole us rider 100)))) = true).
  { apply in_ids_In, in_filter_Boolean. split; [|exact Hne].
    unfold busyRiders. apply nodup_In. rewrite <- Er. apply in_map.
    apply filter_In. split; [exact Hos|]. rewrite Er, Hact, andb_true_r.
    apply in_ids_In. now apply in_map. }
  congruence.
Qed.

(** C10.  Every rider returned by [findAvailableRiders] has no order in
    ready or out_for_delivery, so each count taken by [autoAssignRider] is
    0, the sort leaves the candidates in place, and the rider assigned is
    the first of the available list. *)
Theorem load_counts_are_all_zero us os :
  (forall u, In u us -> user_id u <> 0) ->
  (forall limit,
      Forall (fun r => activeDeliveries os (user_id r) = 0)
        (findAvailableRiders us os limit) /\
      sort_by_count (riderDeliveryCounts os (findAvailableRiders us os limit))
      = riderDeliveryCounts os (findAvailableRiders us os limit)) /\
  (forall pk o first rest,
      findByPk os pk = Some o ->
      status o = ready ->
      rider_id o = None ->
      findAvailableRiders us os 10 = first :: rest ->
      exists os' result,
        autoAssignRider us os pk = Ok (os', result) /\
        success result = true /\
        ar_rider result = Some first /\
        option_map rider_id (findByPk os' pk) = Some (Some (user_id first))).
Proof.
  intros Hids.
  assert (Hzero : forall limit,
      Forall (fun r => activeDeliveries os (user_id r) = 0)
        (findAvailableRiders us os limit)).
  { intros limit. apply Forall_forall. intros r Hr.
    apply (activeDeliveries_available us os limit); [|exact Hr].
    apply Hids. now apply (findAvailableRiders_In us os limit). }
  assert (Hsort : forall limit,
      sort_by_count (riderDeliveryCounts os (findAvailableRiders us os limit))
      = riderDeliveryCounts os (findAvailableRiders us os limit)).
  { intros limit. apply stable_sort_all_le. intros x y Hx Hy.
    unfold riderDeliveryCounts in Hx, Hy.
    apply in_map_iff in Hx. destruct Hx as (rx & <- & Hrx).
    apply in_map_iff in Hy. destruct Hy as (ry & <- & Hry).
    pose proof (Hzero limit) as Hz. rewrite Forall_forall in Hz.
    simpl. rewrite (Hz rx Hrx), (Hz ry Hry). reflexivity. }
  split; [intros limit; split; [apply Hzero | apply Hsort]|].
  intros pk o first rest Hf Hs Hr Hav.
  unfold autoAssignRider. rewrite Hf, Hs, Hr. simpl.
  rewrite Hsort, Hav. simpl.
  destruct (assignRider_Ok os pk o (user_id first) Hf Hs)
    as (os' & o' & Has & Hf' & Hr' & _).
  rewrite Has. simpl. eexists _, _. split; [reflexivity|].
  split; [reflexivity|]. split; [reflexivity|]. now rewrite Hf', <- Hr'.
Qed.

Lemma load_counts_are_all_zero_witness :
  (forall u, In u sample_riders -> user_id u <> 0) /\
  map (fun r => activeDeliveries loaded_orders (user_id r))
    (findAvailableRiders sample_riders loaded_orders 10) = [0] /\
  exists os' result,
    autoAssignRider sample_riders loaded_orders 4 = Ok (os', result) /\
    ar_rider result = hd_error (findAvailableRiders sample_riders loaded_orders 10).
Proof.
  assert (Hids : forall u, In u sample_riders -> user_id u <> 0).
  { intros u [<-|[<-|[<-|[]]]]; discriminate. }
  split; [exact Hids|]. split; [reflexivity|].
  destruct (load_counts_are_all_zero sample_riders loaded_orders Hids)
    as [_ Hsel].
  destruct (Hsel 4 (sample_order 4 ready None 80)
              (mkUser 22 "Bilal" rider true 20) [] eq_refl eq_refl eq_refl eq_refl)
    as (os' & result & Hres & _ & Hrider & _).
  exists os', result. split; [exact Hres | exact Hrider].
Defined.

(** ** Backlog drain *)

Section OrderByFacts.
Context {A : Type} (key : A -> Z).

Lemma insert_sorted_perm (le : A -> A -> bool) a l :
  Permutation (insert_sorted le a l) (a :: l).
Proof.
  induction l as [|y l IH]; simpl; [reflexivity|].
  destruct (le a y); [reflexivity|].
  rewrite IH. apply perm_swap.
Qed.

Lemma stable_sort_perm (le : A -> A -> bool) l :
  Permutation (stable_sort le l) l.
Proof.
  induction l as [|a l IH]; simpl; [reflexivity|].
  rewrite insert_sorted_perm. now constructor.
Qed.

Lemma order_by_asc_sorted l :
  StronglySorted (fun a b => key a <= key b) (order_by_asc key l).
Proof.
  unfold order_by_asc.
  induction l as [|a l IH]; simpl; [constructor|].
  revert IH. generalize (stable_sort (fun a b => key a <=? key b) l).
  intros s Hs. induction Hs as [|y s Hs IHs Hy]; simpl.
  - repeat constructor.
  - destruct (key a <=? key y) eqn:Hle.
    + constructor; [now constructor|].
      constructor; [lia|]. eapply Forall_impl; [|exact Hy]. simpl. intros; lia.
    + constructor; [exact IHs|].
      apply Forall_forall. intros x Hx.
      apply in_insert_sorted in Hx. destruct Hx as [->|Hx]; [lia|].
      rewrite Forall_forall in Hy. now apply Hy.
Qed.
End OrderByFacts.

Lemma assign_each_drained store_fault us pendingOrders : forall os,
  Drained store_fault us os pendingOrders
    (fst (assign_each store_fault us os pendingOrders))
    (snd (assign_each store_fault us os pendingOrders)).
Proof.
  induction pendingOrders as [|order rest IH]; intros os; simpl.
  - constructor.
  - unfold assign_one, try_autoAssignRider.
    destruct (store_fault (id order)) as [e|] eqn:Hfault.
    + specialize (IH os).
      destruct (assign_each store_fault us os rest) as [os2 entries]. simpl in *.
      apply Drained_threw; [now left | exact IH].
    + destruct (autoAssignRider us os (id order)) as [[os1 result]|e] eqn:Hauto.
      * specialize (IH os1).
        destruct (assign_each store_fault us os1 rest) as [os2 entries]. simpl in *.
        now apply (Drained_returned _ _ _ _ _ os1).
      * specialize (IH os).
        destruct (assign_each store_fault us os rest) as [os2 entries]. simpl in *.
        apply Drained_threw; [right; now split | exact IH].
Qed.

Lemma assign_each_ids store_fault us pendingOrders : forall os,
  map ae_order_id (snd (assign_each store_fault us os pendingOrders))
  = map id pendingOrders.
Proof.
  induction pendingOrders as [|order rest IH]; intros os; simpl; [reflexivity|].
  destruct (assign_one store_fault us os order) as [os1 entry] eqn:Hone.
  specialize (IH os1).
  destruct (assign_each store_fault us os1 rest) as [os2 entries]. simpl in *.
  f_equal; [|exact IH].
  unfold assign_one in Hone.
  destruct (try_autoAssignRider store_fault us os (id order)) as [[? ?]|?];
    now injection Hone as _ <-.
Qed.

(** C8.  The drain pulls the [maxAssignments] oldest of the unassigned
    ready orders, or all of them when there are fewer: the pulled orders
    head the list of all unassigned ready orders sorted by creation time,
    and their number is the smaller of [maxAssignments] and the number of
    such orders.  It attempts the assignment of each in turn and reports
    exactly one entry per pulled order, a failed attempt included, without
    stopping. *)
Theorem drain_backlog_fifo store_fault us os maxAssignments :
  (List.length (findAvailableForRider os maxAssignments) <= maxAssignments)%nat /\
  Forall (fun o => In o os /\ status o = ready /\ rider_id o = None)
    (findAvailableForRider os maxAssignments) /\
  (exists later,
      Permutation (findAvailableForRider os maxAssignments ++ later)
        (filter is_unassigned_ready os) /\
      StronglySorted (fun a b => created_at a <= created_at b)
        (findAvailableForRider os maxAssignments ++ later)) /\
  Drained store_fault us os (findAvailableForRider os maxAssignments)
    (fst (assignPendingReadyOrders store_fault us os maxAssignments))
    (snd (assignPendingReadyOrders store_fault us os maxAssignments)) /\
  map ae_order_id (snd (assignPendingReadyOrders store_fault us os maxAssignments))
  = map id (findAvailableForRider os maxAssignments) /\
  List.length (findAvailableForRider os maxAssignments)
  = Nat.min maxAssignments (List.length (filter is_unassigned_ready os)) /\
  (forall o, In o (filter is_unassigned_ready os)
             <-> In o os /\ status o = ready /\ rider_id o = None).
Proof.
  assert (Hchar : forall o, is_unassigned_ready o = true
                            <-> status o = ready /\ rider_id o = None).
  { intros o. unfold is_unassigned_ready. rewrite andb_true_iff.
    destruct (status_eqb_spec (status o) ready), (rider_id o);
      intuition congruence. }
  unfold assignPendingReadyOrders, findAvailableForRider.
  split; [apply firstn_le_length|].
  split.
  { apply Forall_forall. intros o Ho. apply In_firstn in Ho.
    unfold order_by_asc in Ho. rewrite in_stable_sort in Ho.
    apply filter_In in Ho. destruct Ho as [Hin Hcond]. split; [exact Hin|].
    now apply Hchar. }
  split.
  { exists (skipn maxAssignments
              (order_by_asc created_at (filter is_unassigned_ready os))).
    rewrite firstn_skipn. split.
    - apply stable_sort_perm.
    - apply order_by_asc_sorted. }
  split; [apply assign_each_drained|].
  split; [apply assign_each_ids|].
  split.
  { rewrite length_firstn. f_equal. unfold order_by_asc.
    apply Permutation_length, stable_sort_perm. }
  intros o. rewrite filter_In, Hchar. reflexivity.
Qed.

Lemma drain_backlog_fifo_witness :
  List.length (findAvailableForRider backlog_orders 1) = 1%nat /\
  map ae_order_id (snd (assignPendingReadyOrders no_fault sample_riders
                          backlog_orders 1))
  = [2] /\
  map created_at (filter is_unassigned_ready backlog_orders) = [90; 80].
Proof.
  destruct (drain_backlog_fifo no_fault sample_riders backlog_orders 1)
    as (_ & _ & _ & _ & Hids & Hlen & _).
  split; [rewrite Hlen; reflexivity|].
  split; [rewrite Hids; reflexivity | reflexivity].
Defined.

(** A rejected store access for the older order does not keep the drain
    from assigning the next one. *)
Example drain_continues_after_failure :
  let fault := fun pk => if pk =? 2 then Some (Error "connection lost")
                         else None in
  map (fun e => (ae_order_id e, ae_success e, ae_message e))
    (snd (assignPendingReadyOrders fault sample_riders backlog_orders 2))
  = [(2, false, "connection lost");
     (1, true, "Rider Chen has been automatically assigned to the order")].
Proof. reflexivity. Qed.

(** ** Placing an order *)


Lemma guarded_Ok {A} write_fault step (r : Result A) a :
  guarded write_fault step r = Ok a -> r = Ok a.
Proof. unfold guarded. now destruct (write_fault step). Qed.

Lemma Order_create_Ok write_fault tx customer restaurant address num sub fee
    total now tx' order :
  Order_create write_fault tx customer restaurant address num sub fee total now
  = Ok (tx', order) ->
  order = mkOrder (next_id (orders tx)) customer restaurant address None num
            pending sub (Some fee) total None None None None None now /\
  orders tx' = orders tx ++ [order] /\
  orderItems tx' = orderItems tx /\
  existsb (fun o => String.eqb (order_number o) num) (orders tx) = false.
Proof.
  unfold Order_create. intros H. apply guarded_Ok in H.
  destruct (sub <? 0); [discriminate|].
  destruct (fee <? 0); [discriminate|].
  destruct (total <? 0); [discriminate|].
  destruct (String.eqb num ""); [discriminate|].
  destruct (existsb _ (orders tx)); [discriminate|].
  injection H as <- <-. simpl. repeat split.
Qed.

Lemma createFromCart_Ok write_fault db items : forall tx orderId tx' created,
  createFromCart write_fault db tx orderId items = Ok (tx', created) ->
  orders tx' = orders tx /\
  orderItems tx' = orderItems tx ++ created /\
  map (fun i => (oi_order_id i, oi_menu_item_id i, oi_quantity i, oi_price i))
    created
  = map (fun i => (orderId, menu_item_id i, quantity i, price i)) items.
Proof.
  induction items as [|item rest IH]; intros tx orderId tx' created; simpl.
  - intros [= <- <-]. now rewrite List.app_nil_r.
  - destruct (MenuItem_findByPk db (menu_item_id item)) as [m|]; [|discriminate].
    destruct (OrderItem_create _ tx _) as [[tx1 orderItem]|e] eqn:Hc;
      [|discriminate].
    simpl.
    destruct (createFromCart write_fault db tx1 orderId rest)
      as [[tx2 more]|e] eqn:Hrest; [|discriminate].
    simpl. intros [= <- <-].
    destruct (IH _ _ _ _ Hrest) as (Ho & Hi & Hm).
    unfold OrderItem_create in Hc. apply guarded_Ok in Hc. simpl in Hc.
    destruct (quantity item <? 1); [discriminate|].
    destruct (price item <? 0); [discriminate|].
    injection Hc as <- <-. simpl in *.
    split; [exact Ho|]. split.
    + rewrite Hi, <- List.app_assoc. reflexivity.
    + now rewrite Hm.
Qed.

Lemma create_in_transaction_Ok write_fault db user address cart items dateStr
    now tx order created :
  create_in_transaction write_fault db user address cart items dateStr now
  = Ok (tx, order, created) ->
  order = mkOrder (next_id (orders db)) user (cart_restaurant_id cart) address
            None (generateOrderNumber (orders db) dateStr) pending
            (calculateSubtotal db (cart_pk cart)) (Some deliveryFee)
            (calculateSubtotal db (cart_pk cart) + deliveryFee)
            None None None None None now /\
  orders tx = orders db ++ [order] /\
  orderItems tx = orderItems db ++ created /\
  map (fun i => (oi_order_id i, oi_menu_item_id i, oi_quantity i, oi_price i))
    created
  = map (fun i => (id order, menu_item_id i, quantity i, price i)) items.
Proof.
  unfold create_in_transaction. intros H.
  destruct (Order_create _ _ _ _ _ _ _ _ _ _) as [[tx1 o]|e] eqn:Hc;
    [|discriminate].
  simpl in H.
  destruct (createFromCart _ _ _ _ _) as [[tx2 its]|e] eqn:Hi; [|discriminate].
  simpl in H.
  destruct (destroy_cart_items _ _ _) as [tx3|e] eqn:H3; [|discriminate].
  simpl in H.
  destruct (destroy_cart _ _ _) as [tx4|e] eqn:H4; [|discriminate].
  simpl in H. injection H as <- <- <-.
  unfold destroy_cart in H4. apply guarded_Ok in H4. injection H4 as <-.
  unfold destroy_cart_items in H3. apply guarded_Ok in H3. injection H3 as <-.
  simpl.
  destruct (createFromCart_Ok _ _ _ _ _ _ _ Hi) as (Ho2 & Hi2 & Hm).
  destruct (Order_create_Ok _ _ _ _ _ _ _ _ _ _ _ _ Hc) as (Heq & Ho1 & Hi1 & _).
  assert (Htot : (if calculateSubtotal db (cart_pk cart) + deliveryFee =? 0
                  then calculateSubtotal db (cart_pk cart) + deliveryFee
                  else calculateSubtotal db (cart_pk cart) + deliveryFee)
                 = calculateSubtotal db (cart_pk cart) + deliveryFee)
    by now destruct (_ =? 0).
  rewrite Htot in Heq.
  split; [exact Heq|]. split; [now rewrite Ho2|].
  split; [now rewrite Hi2, Hi1 | exact Hm].
Qed.

(** Every path of the route that does not answer 201 leaves the tables as
    they were. *)
Lemma post_order_refused_keeps_tables write_fault db user address dateStr now
    outcome db' tx :
  post_order write_fault db user address dateStr now = (outcome, db', tx) ->
  (forall response, outcome = Ok response -> or_http_status response <> 201) ->
  db' = db.
Proof.
  unfold post_order. intros H Hcode.
  repeat match type of H with
         | (match ?x with _ => _ end) = _ => destruct x
         | (if ?x then _ else _) = _ => destruct x
         end;
    injection H as <- <- <-; try reflexivity.
  now contradiction (Hcode _ eq_refl).
Qed.



(** C6.  A customer without a cart is answered 400 and nothing is written,
    but the transaction opened at the start of the route is neither rolled
    back nor committed: the early [return] leaves it open.  A failure of a
    write inside the transaction does reach the [catch] and is rolled
    back. *)
Theorem post_order_empty_cart_leaves_transaction_open :
  post_order no_fault sample_db 8 (Some 5) "20260108" 1000
  = (Ok (refusal 400 "Cart is empty. Add items to cart before placing order."),
     sample_db, TxOpen) /\
  post_order
    (fun step => match step with
                 | DestroyCart => Some (Error "deadlock")
                 | _ => None
                 end)
    sample_db 7 (Some 4) "20260108" 1000
  = (Ok (refusal 500 "Internal server error"), sample_db, TxRolledBack).
Proof. split; reflexivity. Qed.

(** The transaction is left open exactly by the refusals that precede the
    first write. *)
Lemma post_order_open_iff_early_return write_fault db user address dateStr now
    response db' tx :
  post_order write_fault db user address dateStr now = (Ok response, db', tx) ->
  (tx = TxOpen <->
   In (or_http_status response) [403; 404] \/
   (or_http_status response = 400 /\ or_message response <> "Validation error")).
Proof.
  unfold post_order. intros H.
  repeat match type of H with
         | (match ?x with _ => _ end) = _ => destruct x eqn:?
         | (if ?x then _ else _) = _ => destruct x eqn:?
         end;
    try discriminate H;
    injection H as <- <- <-; simpl;
    try (split; [intros _; first [right; split; [reflexivity | discriminate]
                                 | left; simpl; tauto]
                | reflexivity]).
  - split; [discriminate|]. intros [[H|[H|[]]]|[H _]]; discriminate.
  - unfold create_error_response. destruct (String.eqb _ _); simpl.
    + split; [discriminate|]. intros [[H|[H|[]]]|[_ H]]; [discriminate..|].
      now contradiction H.
    + split; [discriminate|]. intros [[H|[H|[]]]|[H _]]; discriminate.
Qed.

(** ** Order numbers *)

Lemma like_prefix_append p s : like_prefix p (p ++ s) = true.
Proof.
  induction p as [|c p IH]; simpl; [reflexivity|].
  now rewrite Ascii.eqb_refl, IH.
Qed.

Lemma append_assoc (a b c : string) : ((a ++ b) ++ c = a ++ (b ++ c))%string.
Proof. induction a as [|x a IH]; simpl; [reflexivity | now rewrite IH]. Qed.

Lemma split_on_dash_app s rest :
  no_dash s = true ->
  split_on "-" (s ++ String "-" rest) = s :: split_on "-" rest.
Proof.
  induction s as [|c s IH]; intros Hs.
  - reflexivity.
  - simpl in Hs. apply andb_true_iff in Hs. destruct Hs as [Hc Hs].
    apply negb_true_iff in Hc.
    change (split_on "-" (String c (s ++ String "-" rest))
            = String c s :: split_on "-" rest).
    cbn [split_on]. rewrite Hc, (IH Hs). reflexivity.
Qed.

Lemma split_on_dash_none s :
  no_dash s = true -> split_on "-" s = [s].
Proof.
  induction s as [|c s IH]; intros Hs; [reflexivity|].
  simpl in Hs. apply andb_true_iff in Hs. destruct Hs as [Hc Hs].
  apply negb_true_iff in Hc. cbn [split_on]. now rewrite Hc, (IH Hs).
Qed.

Lemma no_dash_digits d : no_dash (NilEmpty.string_of_uint d) = true.
Proof. induction d; simpl; auto. Qed.

Lemma leading_digits_digits d :
  leading_digits (NilEmpty.string_of_uint d) = d.
Proof. induction d; simpl; congruence. Qed.

(** Below 2^53 every integer is a double. *)
Lemma to_double_safe z :
  Z.abs z < 9007199254740992 -> to_double z = Finite z.
Proof.
  intros Hz. unfold to_double, double_of_nonneg.
  assert ((Z.abs z <? 9007199254740992) = true) as -> by lia.
  f_equal. lia.
Qed.

Lemma trimStart_digits d :
  trimStart (NilEmpty.string_of_uint d) = NilEmpty.string_of_uint d.
Proof. destruct d; reflexivity. Qed.

Lemma parseInt_digits d :
  d <> Decimal.Nil ->
  Z.of_uint d < 9007199254740992 ->
  parseInt (NilEmpty.string_of_uint d) = Finite (Z.of_uint d).
Proof.
  intros Hd Hsafe.
  assert (Hgen : forall s,
             leading_digits s = d ->
             match leading_digits s with
             | Decimal.Nil => NaN
             | d' => to_double (1 * Z.of_uint d')
             end = Finite (Z.of_uint d)).
  { intros s ->. pose proof (Z.of_uint d) as v.
    assert (to_double (1 * Z.of_uint d) = Finite (Z.of_uint d)) as Hto.
    { rewrite Z.mul_1_l. apply to_double_safe.
      unfold Z.of_uint in *. lia. }
    destruct d; [congruence|..]; exact Hto. }
  unfold parseInt. rewrite trimStart_digits.
  rewrite <- (Hgen (NilEmpty.string_of_uint d) (leading_digits_digits d)).
  destruct d as [|d'|d'|d'|d'|d'|d'|d'|d'|d'|d']; [congruence|..];
    try reflexivity.
  destruct d'; reflexivity.
Qed.

Lemma toString_digits n :
  0 <= n < 9007199254740992 ->
  exists d, d <> Decimal.Nil /\
            Number_toString (Finite n) = NilEmpty.string_of_uint d /\
            Z.of_uint d = n.
Proof.
  intros Hn. unfold Number_toString.
  assert ((Z.abs n <? 9007199254740992) = true) as -> by lia.
  destruct n as [|p|p]; [| |lia].
  - exists (Decimal.D0 Decimal.Nil). repeat split. discriminate.
  - exists (Pos.to_uint p).
    pose proof (DecimalPos.Unsigned.to_uint_nonnil p) as Hnil.
    split; [exact Hnil|]. split.
    + simpl. unfold NilZero.string_of_uint. now destruct (Pos.to_uint p).
    + unfold Z.of_uint. now rewrite DecimalPos.Unsigned.of_to.
Qed.

Lemma zeros_digits k d :
  d <> Decimal.Nil ->
  exists d', d' <> Decimal.Nil /\
             (repeat_char "0" k ++ NilEmpty.string_of_uint d)%string
             = NilEmpty.string_of_uint d' /\
             Z.of_uint d' = Z.of_uint d.
Proof.
  intros Hd. induction k as [|k (d' & Hd' & Hs & Hv)].
  - now exists d.
  - exists (Decimal.D0 d'). split; [discriminate|]. split.
    + simpl. now rewrite Hs.
    + rewrite <- Hv. reflexivity.
Qed.

Lemma sequence_digits n :
  0 <= n < 9007199254740992 ->
  exists d, d <> Decimal.Nil /\
            padStart 3 "0" (Number_toString (Finite n))
            = NilEmpty.string_of_uint d /\
            Z.of_uint d = n.
Proof.
  intros Hn. destruct (toString_digits n Hn) as (d & Hd & Hs & Hv).
  unfold padStart. rewrite Hs.
  destruct (zeros_digits (3 - String.length (NilEmpty.string_of_uint d)) d Hd)
    as (d' & Hd' & Hs' & Hv').
  exists d'. split; [exact Hd'|]. split; [exact Hs' | congruence].
Qed.

Lemma order_number_of_split dateStr n :
  order_number_of dateStr n
  = ("ORD" ++ String "-"
       (dateStr ++ String "-" (padStart 3 "0" (Number_toString (Finite n)))))%string.
Proof.
  unfold order_number_of, order_number_prefix. simpl.
  now rewrite append_assoc.
Qed.

(** An order that carries the number of sequence [n] is found by the
    day's pattern and its sequence is read as [n]. *)
Lemma lastSequence_of_number dateStr n o :
  no_dash dateStr = true ->
  0 <= n < 9007199254740992 ->
  order_number o = order_number_of dateStr n ->
  lastSequence o = Finite n /\ of_day dateStr o = true.
Proof.
  intros Hdate Hn Hnum. split.
  - unfold lastSequence. rewrite Hnum, order_number_of_split.
    rewrite (split_on_dash_app "ORD") by reflexivity.
    rewrite (split_on_dash_app dateStr) by exact Hdate.
    destruct (sequence_digits n Hn) as (d & Hd & Hs & Hv).
    rewrite Hs, (split_on_dash_none _ (no_dash_digits d)).
    cbn [nth_error]. rewrite (parseInt_digits d Hd) by lia. now rewrite Hv.
  - unfold of_day. rewrite Hnum. apply like_prefix_append.
Qed.

Lemma order_by_desc_head {A} (key : A -> Z) l :
  match hd_error (order_by_desc key l) with
  | None => l = []
  | Some y => In y l /\ forall x, In x l -> key x <= key y
  end.
Proof.
  unfold order_by_desc. induction l as [|a l IH]; simpl; [reflexivity|].
  destruct (stable_sort _ l) as [|y ys]; simpl in *.
  - subst l. split; [now left|]. intros x [->|[]]. lia.
  - destruct IH as [Hin Hmax]. destruct (key y <=? key a) eqn:Hle; simpl.
    + split; [now left|]. intros x [->|Hx]; [lia|]. specialize (Hmax x Hx). lia.
    + split; [now right|]. intros x [->|Hx]; [lia | now apply Hmax].
Qed.

(** The sequence is written with exactly three digits up to 999 only:
    [padStart] pads and never cuts. *)
Lemma three_digits_upto_999 n :
  0 <= n <= 999 ->
  String.length (padStart 3 "0" (Number_toString (Finite n))) = 3%nat.
Proof.
  intros Hn.
  assert (Hall : forallb
            (fun k => Nat.eqb
               (String.length
                  (padStart 3 "0" (Number_toString (Finite (Z.of_nat k))))) 3)
            (seq 0 1000) = true) by (vm_compute; reflexivity).
  rewrite forallb_forall in Hall.
  specialize (Hall (Z.to_nat n)). rewrite Z2Nat.id in Hall by lia.
  apply Nat.eqb_eq, Hall, in_seq. lia.
Qed.

Example generateOrderNumber_after_999 :
  generateOrderNumber [numbered_order 999 "ORD-20260108-999" 10] "20260108"
  = "ORD-20260108-1000".
Proof. reflexivity. Qed.

(** From 2^53 on the sum [lastSequence + 1] is rounded: the number of the
    latest order comes back. *)
Example generateOrderNumber_stalls_at_2_53 :
  generateOrderNumber
    [numbered_order 1 "ORD-20260108-9007199254740992" 10] "20260108"
  = "ORD-20260108-9007199254740992".
Proof. vm_compute. reflexivity. Qed.

(** The pattern of the day also matches a number written in lower
    case. *)
Example of_day_ignores_case :
  of_day "20260108" (numbered_order 1 "ord-20260108-007" 10) = true.
Proof. reflexivity. Qed.

(** C9.  Three customers place an order within the same second of
    2026-01-08, one request after the other.  The first two are answered
    201, with the numbers ORD-20260108-001 and ORD-20260108-002.  For the
    third, the query for the latest order of the day returns the first
    order again, the two rows having the same [created_at], so
    [generateOrderNumber] returns ORD-20260108-002 a second time: the
    number is not unique, the insertion violates the unique index of
    [order_number], and the request is answered 500 with nothing
    written. *)
Theorem generateOrderNumber_repeats_within_a_second :
  exists first second db1 db2,
    post_order no_fault rush_db 7 (Some 4) "20260108" 1000
    = (Ok first, db1, TxCommitted) /\
    post_order no_fault db1 8 (Some 5) "20260108" 1000
    = (Ok second, db2, TxCommitted) /\
    (or_http_status first, option_map order_number (or_order first))
    = (201, Some "ORD-20260108-001") /\
    (or_http_status second, option_map order_number (or_order second))
    = (201, Some "ORD-20260108-002") /\
    map order_number (orders db2) = ["ORD-20260108-001"; "ORD-20260108-002"] /\
    map created_at (orders db2) = [1000; 1000] /\
    generateOrderNumber (orders db2) "20260108" = "ORD-20260108-002" /\
    post_order no_fault db2 9 (Some 6) "20260108" 1000
    = (Ok (refusal 500 "Internal server error"), db2, TxRolledBack).
Proof.
  eexists _, _, _, _.
  split; [vm_compute; reflexivity|].
  split; [vm_compute; reflexivity|].
  repeat split; vm_compute; reflexivity.
Qed.

(** * Further properties *)

(** ** Writes touch one row *)

Lemma save_length os o' : List.length (save os o') = List.length os.
Proof.
  induction os as [|x xs IH]; simpl; [reflexivity|].
  destruct (id x =? id o'); simpl; [reflexivity | now rewrite IH].
Qed.

Lemma updateStatus_frame os pk st additionalData now os' o' :
  updateStatus os pk st additionalData now = Ok (os', o') ->
  findByPk os' pk = Some o' /\
  forall pk', pk' <> pk -> findByPk os' pk' = findByPk os pk'.
Proof.
  unfold updateStatus. intros H.
  destruct (findByPk os pk) as [o|] eqn:Hf; [|discriminate].
  injection H as <- <-.
  destruct (findByPk_Some _ _ _ Hf) as [_ Hid].
  split; [apply (findByPk_save _ _ _ _ Hf); now rewrite update_id|].
  intros pk' Hne. apply findByPk_save_other. rewrite update_id. lia.
Qed.

(** X1.  A successful [Order.updateStatus] rewrites the row of that id and
    no other: the table keeps its size, every other id reads as before, and
    the row keeps its customer, restaurant, number, amounts, rider and
    creation time; for a status other than delivered and cancelled it also
    keeps [delivered_at], [cancelled_at] and [rider_earning]. *)
Theorem updateStatus_touches_one_row os pk st additionalData now os' o' :
  updateStatus os pk st additionalData now = Ok (os', o') ->
  exists o,
    findByPk os pk = Some o /\
    findByPk os' pk = Some o' /\
    List.length os' = List.length os /\
    (forall pk', pk' <> pk -> findByPk os' pk' = findByPk os pk') /\
    (id o', customer_id o', restaurant_id o', address_id o', order_number o',
     subtotal o', delivery_fee o', total_amount o', rider_id o', created_at o')
    = (id o, customer_id o, restaurant_id o, address_id o, order_number o,
       subtotal o, delivery_fee o, total_amount o, rider_id o, created_at o) /\
    (st <> delivered -> st <> cancelled ->
     (delivered_at o', cancelled_at o', rider_earning o')
     = (delivered_at o, cancelled_at o, rider_earning o)).
Proof.
  unfold updateStatus. intros H.
  destruct (findByPk os pk) as [o|] eqn:Hf; [|discriminate].
  injection H as <- <-. exists o.
  destruct (findByPk_Some _ _ _ Hf) as [_ Hid].
  split; [reflexivity|].
  split; [apply (findByPk_save _ _ _ _ Hf); now rewrite update_id|].
  split; [apply save_length|].
  split.
  { intros pk' Hne. apply findByPk_save_other. rewrite update_id. lia. }
  split; [destruct st; reflexivity|].
  intros Hd Hc. destruct st; try reflexivity; contradiction.
Qed.

Lemma updateStatus_touches_one_row_witness :
  exists os' o',
    updateStatus loaded_orders 4 out_for_delivery no_additionalData 99
    = Ok (os', o') /\
    findByPk os' 3 = findByPk loaded_orders 3 /\
    rider_earning o' = None /\
    List.length os' = 4%nat.
Proof.
  destruct (updateStatus loaded_orders 4 out_for_delivery no_additionalData 99)
    as [[os' o']|e] eqn:Hup; [|discriminate Hup].
  destruct (updateStatus_touches_one_row _ _ _ _ _ _ _ Hup)
    as (o & Hf & _ & Hlen & Hother & _ & Hkeep).
  exists os', o'. split; [reflexivity|].
  split; [apply Hother; discriminate|].
  split; [|exact Hlen].
  assert (Hk := Hkeep ltac:(discriminate) ltac:(discriminate)).
  injection Hk as _ _ ->. vm_compute in Hf. now injection Hf as <-.
Defined.

(** ** What an assignment changes *)

Lemma findByRole_In us r limit u :
  In u (findByRole us r limit) ->
  In u us /\ user_role u = r /\ user_is_active u = true.
Proof.
  unfold findByRole. intros H. apply In_firstn in H.
  unfold order_by_desc in H. rewrite in_stable_sort in H.
  apply filter_In in H. destruct H as [Hin Hc].
  apply andb_true_iff in Hc. destruct Hc as [Hr Ha].
  split; [exact Hin|]. split; [|exact Ha].
  destruct (user_role u), r; simpl in Hr; congruence.
Qed.

(** The shape of every result of [autoAssignRider]. *)
Lemma autoAssignRider_inv us os pk os' result :
  autoAssignRider us os pk = Ok (os', result) ->
  exists o,
    findByPk os pk = Some o /\
    ((os' = os /\ alreadyAssigned result <> Some false) \/
     (exists u,
         status o = ready /\ truthy_id (rider_id o) = false /\
         In u (findAvailableRiders us os 10) /\
         success result = true /\
         ar_rider result = Some u /\ alreadyAssigned result = Some false /\
         os' = save os (update o (mkUpdateData None (Some (Some (user_id u)))
                                    None None None None None)))).
Proof.
  unfold autoAssignRider. intros H.
  destruct (findByPk os pk) as [o|] eqn:Hf; [|discriminate].
  exists o. split; [reflexivity|].
  destruct (status_eqb_spec (status o) ready) as [Hs|Hs]; simpl in H.
  - destruct (truthy_id (rider_id o)) eqn:Ht.
    + injection H as <- <-. left. split; [reflexivity | discriminate].
    + destruct (findAvailableRiders us os 10) as [|u0 avail] eqn:Hav.
      * injection H as <- <-. left. split; [reflexivity | discriminate].
      * destruct (sort_by_count _) as [|first rest] eqn:Hsort; [discriminate|].
        assert (Hin : In (rc_rider first) (u0 :: avail)).
        { assert (Hfirst : In first (first :: rest)) by now left.
          rewrite <- Hsort in Hfirst. unfold sort_by_count in Hfirst.
          rewrite in_stable_sort in Hfirst. unfold riderDeliveryCounts in Hfirst.
          apply in_map_iff in Hfirst. now destruct Hfirst as (u & <- & Hu). }
        unfold assignRider in H. rewrite Hf, Hs in H. simpl in H.
        injection H as <- <-. right. exists (rc_rider first).
        repeat split; try reflexivity; assumption.
  - injection H as <- <-. left. split; [reflexivity | discriminate].
Qed.

(** X2.  Apart from [updated_at], which every update stamps and which
    the rows here do not carry, [autoAssignRider] changes at most the
    [rider_id] of the order it is called on, and that only from unset to
    the id of an active user with role rider: the order keeps its id,
    status, customer, restaurant, address, number, subtotal, delivery
    fee, total, estimated delivery time, [delivered_at], [cancelled_at],
    cancellation reason, rider earning and creation time
    ([payment_status], not carried here either, is named by no update).
    The table keeps its size and every other id reads as before. *)
Theorem autoAssignRider_frame us os pk os' result :
  autoAssignRider us os pk = Ok (os', result) ->
  exists o o',
    findByPk os pk = Some o /\
    findByPk os' pk = Some o' /\
    List.length os' = List.length os /\
    (forall pk', pk' <> pk -> findByPk os' pk' = findByPk os pk') /\
    (id o', status o', customer_id o', restaurant_id o', address_id o',
     order_number o', subtotal o', delivery_fee o', total_amount o',
     estimated_delivery_time o', delivered_at o', cancelled_at o',
     cancellation_reason o', rider_earning o', created_at o')
    = (id o, status o, customer_id o, restaurant_id o, address_id o,
       order_number o, subtotal o, delivery_fee o, total_amount o,
       estimated_delivery_time o, delivered_at o, cancelled_at o,
       cancellation_reason o, rider_earning o, created_at o) /\
    (rider_id o' = rider_id o \/
     (status o = ready /\ truthy_id (rider_id o) = false /\
      exists u, In u us /\ user_role u = rider /\ user_is_active u = true /\
                rider_id o' = Some (user_id u))).
Proof.
  intros H. destruct (autoAssignRider_inv _ _ _ _ _ H) as (o & Hf & Hcase).
  destruct (findByPk_Some _ _ _ Hf) as [_ Hid].
  destruct Hcase as [[-> _]|(u & Hs & Ht & Hin & _ & _ & _ & ->)].
  - exists o, o. repeat split; auto.
  - eexists o, _. split; [exact Hf|].
    split; [apply (findByPk_save _ _ _ _ Hf); now rewrite update_id|].
    split; [apply save_length|].
    split.
    { intros pk' Hne. apply findByPk_save_other. rewrite update_id. lia. }
    split; [reflexivity|]. right. split; [exact Hs|]. split; [exact Ht|].
    exists u. destruct (findAvailableRiders_In _ _ _ _ Hin) as (_ & Hrole & _).
    destruct (findByRole_In _ _ _ _ Hrole) as (Hus & Hr & Ha).
    repeat split; assumption.
Qed.

Lemma autoAssignRider_frame_witness :
  exists os' result o',
    autoAssignRider sample_riders loaded_orders 4 = Ok (os', result) /\
    findByPk os' 4 = Some o' /\
    status o' = ready /\
    findByPk os' 1 = findByPk loaded_orders 1.
Proof.
  destruct (autoAssignRider sample_riders loaded_orders 4)
    as [[os' result]|e] eqn:Hauto; [|discriminate Hauto].
  destruct (autoAssignRider_frame _ _ _ _ _ Hauto)
    as (o & o' & Hf & Hf' & _ & Hother & Hsame & _).
  exists os', result, o'. split; [reflexivity|]. split; [exact Hf'|].
  split; [|apply Hother; discriminate].
  injection Hsame as _ -> _. vm_compute in Hf. now injection Hf as <-.
Defined.

Lemma activeDeliveries_pos os o r :
  In o os -> rider_id o = Some r ->
  includes active_statuses (status o) = true ->
  0 < activeDeliveries os r.
Proof.
  intros Hin Hr Hs. unfold activeDeliveries.
  destruct (filter _ os) as [|x l] eqn:Hflt; [|simpl; lia].
  exfalso.
  assert (Ho : In o (filter
                       (fun o => match rider_id o with
                                 | Some r0 => r0 =? r
                                 | None => false
                                 end && includes active_statuses (status o)) os)).
  { apply filter_In. split; [exact Hin|]. now rewrite Hr, Z.eqb_refl, Hs. }
  rewrite Hflt in Ho. destruct Ho.
Qed.

(** X3.  After a fresh assignment the chosen rider is no longer available,
    so the next fresh assignment, on whatever order, goes to another
    rider. *)
Theorem assigned_rider_becomes_unavailable us os pk os' result u :
  autoAssignRider us os pk = Ok (os', result) ->
  alreadyAssigned result = Some false ->
  ar_rider result = Some u ->
  user_id u <> 0 ->
  (forall limit v, In v (findAvailableRiders us os' limit) ->
                   user_id v <> user_id u) /\
  (forall pk2 os2 result2 u2,
      autoAssignRider us os' pk2 = Ok (os2, result2) ->
      alreadyAssigned result2 = Some false ->
      ar_rider result2 = Some u2 ->
      user_id u2 <> user_id u).
Proof.
  intros H Hfresh Hu Hne.
  destruct (autoAssignRider_inv _ _ _ _ _ H) as (o & Hf & Hcase).
  destruct Hcase as [[_ Hno]|(u' & Hs & _ & _ & _ & Hu' & _ & Hos')];
    [contradiction|].
  assert (u' = u) by congruence. subst u'.
  destruct (findByPk_Some _ _ _ Hf) as [_ Hid].
  assert (Hf' : findByPk os' pk
                = Some (update o (mkUpdateData None (Some (Some (user_id u)))
                                    None None None None None))).
  { rewrite Hos'. apply (findByPk_save _ _ _ _ Hf). now rewrite update_id. }
  destruct (findByPk_Some _ _ _ Hf') as [Hin' _].
  assert (Hbusy : forall limit v, In v (findAvailableRiders us os' limit) ->
                                  user_id v <> user_id u).
  { intros limit v Hv Heq.
    pose proof (activeDeliveries_available us os' limit v
                  ltac:(congruence) Hv) as Hzero.
    pose proof (activeDeliveries_pos os' _ (user_id u) Hin' eq_refl) as Hpos.
    simpl in Hpos. rewrite Hs in Hpos. specialize (Hpos eq_refl).
    rewrite Heq in Hzero. lia. }
  split; [exact Hbusy|].
  intros pk2 os2 result2 u2 H2 Hfresh2 Hu2.
  destruct (autoAssignRider_inv _ _ _ _ _ H2) as (o2 & _ & Hcase2).
  destruct Hcase2 as [[_ Hno]|(u2' & _ & _ & Hin2 & _ & Hu2' & _)];
    [contradiction|].
  assert (u2' = u2) by congruence. subst u2'.
  now apply (Hbusy 10%nat).
Qed.

Lemma assigned_rider_becomes_unavailable_witness :
  exists os' result u,
    autoAssignRider sample_riders backlog_orders 2 = Ok (os', result) /\
    ar_rider result = Some u /\
    forall v, In v (findAvailableRiders sample_riders os' 10) ->
              user_id v <> user_id u.
Proof.
  destruct (autoAssignRider sample_riders backlog_orders 2)
    as [[os' result]|e] eqn:Hauto; [|discriminate Hauto].
  exists os', result, (mkUser 23 "Chen" rider true 30).
  assert (Hr : ar_rider result = Some (mkUser 23 "Chen" rider true 30))
    by (vm_compute in Hauto; now injection Hauto as _ <-).
  assert (Ha : alreadyAssigned result = Some false)
    by (vm_compute in Hauto; now injection Hauto as _ <-).
  split; [reflexivity|]. split; [exact Hr|].
  destruct (assigned_rider_becomes_unavailable _ _ _ _ _ _ Hauto Ha Hr
              ltac:(discriminate)) as [Hbusy _].
  exact (Hbusy 10%nat).
Defined.

(** ** The status route: refusals, acceptance, completeness *)

Lemma status_of_string_name st : status_of_string (status_name st) = Some st.
Proof. now destruct st. Qed.

Lemma autoAssignRider_statuses us os pk os' result :
  autoAssignRider us os pk = Ok (os', result) ->
  forall pk', option_map status (findByPk os' pk')
              = option_map status (findByPk os pk').
Proof.
  intros H pk'. destruct (autoAssignRider_inv _ _ _ _ _ H) as (o & Hf & Hcase).
  destruct (findByPk_Some _ _ _ Hf) as [_ Hid].
  destruct Hcase as [[-> _]|(u & Hs & Ht & Hin & _ & _ & _ & ->)];
    [reflexivity|].
  destruct (Z.eq_dec pk' pk) as [->|Hne].
  - rewrite Hf.
    rewrite (findByPk_save _ _ _ _ Hf) by now rewrite update_id.
    reflexivity.
  - rewrite findByPk_save_other; [reflexivity|]. rewrite update_id. lia.
Qed.

Lemma assign_each_statuses store_fault us pendingOrders : forall os pk',
  option_map status
    (findByPk (fst (assign_each store_fault us os pendingOrders)) pk')
  = option_map status (findByPk os pk').
Proof.
  induction pendingOrders as [|order rest IH]; intros os pk'; [reflexivity|].
  simpl. destruct (assign_one store_fault us os order) as [os1 entry] eqn:Hone.
  specialize (IH os1 pk').
  destruct (assign_each store_fault us os1 rest) as [os2 entries].
  simpl in *. rewrite IH.
  unfold assign_one, try_autoAssignRider in Hone.
  destruct (store_fault (id order)); [now injection Hone as <- _|].
  destruct (autoAssignRider us os (id order)) as [[os1' r]|e] eqn:Hauto.
  - injection Hone as <- _. now apply (autoAssignRider_statuses _ _ _ _ _ Hauto).
  - now injection Hone as <- _.
Qed.

Lemma after_update_statuses store_fault us os userRole pk target updatedOrder pk' :
  option_map status
    (findByPk (fst (after_update store_fault us os userRole pk target
                      updatedOrder)) pk')
  = option_map status (findByPk os pk').
Proof.
  unfold after_update.
  destruct (status_eqb target ready && negb (truthy_id (rider_id updatedOrder)))%bool.
  - unfold try_autoAssignRider.
    destruct (store_fault pk) as [e|].
    + destruct (status_eqb target delivered && role_eqb userRole rider)%bool;
        simpl; [apply assign_each_statuses | reflexivity].
    + destruct (autoAssignRider us os pk) as [[os1 r]|e] eqn:Hauto.
      * pose proof (autoAssignRider_statuses _ _ _ _ _ Hauto pk') as Hst.
        destruct (success r);
          destruct (status_eqb target delivered && role_eqb userRole rider)%bool;
          simpl; unfold assignPendingReadyOrders;
          rewrite ?assign_each_statuses; exact Hst.
      * destruct (status_eqb target delivered && role_eqb userRole rider)%bool;
          simpl; [apply assign_each_statuses | reflexivity].
  - destruct (status_eqb target delivered && role_eqb userRole rider)%bool;
      simpl; [apply assign_each_statuses | reflexivity].
Qed.

Lemma role_checks_early rs userId userRole order target early :
  role_checks rs userId userRole order target = Some early ->
  http_status early = 403 \/ http_status early = 400.
Proof.
  unfold role_checks, owner_checks, rider_checks, transition_refused.
  intros H.
  repeat match type of H with
         | (match ?x with _ => _ end) = _ => destruct x
         | (if ?x then _ else _) = _ => destruct x
         end;
    try discriminate; injection H as <-; simpl; tauto.
Qed.

Lemma status_error_response_code error :
  http_status (status_error_response error) <> 200.
Proof.
  unfold status_error_response. now destruct (_ || _)%bool.
Qed.

(** The shape of every accepted request. *)
Lemma put_status_accepted store_fault us rs os userId userRole pk body now
    response os' :
  put_status store_fault us rs os userId userRole pk body now = (response, os') ->
  http_status response = 200 ->
  exists name target order os1 updatedOrder,
    body_status body = Some name /\
    status_of_string name = Some target /\
    findByPk os pk = Some order /\
    role_checks rs userId userRole order target = None /\
    userRole <> customer /\
    updateStatus os pk target
      (mkAdditionalData (Some target)
         (match body_estimated_delivery_time body with
          | Some t => if t =? 0 then None else Some t
          | None => None
          end) None) now = Ok (os1, updatedOrder) /\
    os' = fst (after_update store_fault us os1 userRole pk target updatedOrder).
Proof.
  unfold put_status. intros H Hcode.
  assert (Hrole : userRole <> customer).
  { intros ->. injection H as <- _. discriminate. }
  assert (H' : match body_status body with
    | None => (mkResponse 400 false "Status is required", os)
    | Some name =>
    if String.eqb name "" then (mkResponse 400 false "Status is required", os)
    else
    match status_of_string name with
    | None =>
        (mkResponse 400 false
           ("Invalid status. Must be one of: " ++ join_names validStatuses)%string,
         os)
    | Some target =>
    match findByPk os pk with
    | None => (mkResponse 404 false "Order not found", os)
    | Some order =>
    match role_checks rs userId userRole order target with
    | Some early => (early, os)
    | None =>
        match updateStatus os pk target
                (mkAdditionalData (Some target)
                   (match body_estimated_delivery_time body with
                    | Some t => if t =? 0 then None else Some t
                    | None => None
                    end) None) now with
        | Throw error => (status_error_response error, os)
        | Ok (os1, updatedOrder) =>
            let '(os2, assignedRider) :=
              after_update store_fault us os1 userRole pk target updatedOrder in
            (mkResponse 200 true
               ("Order status updated from " ++ status_name (status order)
                  ++ " to " ++ status_name target
                  ++ match assignedRider with
                     | Some r =>
                         ". Rider " ++ user_name r ++ " automatically assigned."
                     | None => ""
                     end)%string,
             os2)
        end
    end end end end = (response, os')).
  { destruct userRole; [contradiction | exact H | exact H]. }
  clear H.
  destruct (body_status body) as [name|] eqn:Hbody;
    [|injection H' as <- _; discriminate].
  destruct (String.eqb name ""); [injection H' as <- _; discriminate|].
  destruct (status_of_string name) as [target|] eqn:Hname;
    [|injection H' as <- _; discriminate].
  destruct (findByPk os pk) as [order|] eqn:Hfind;
    [|injection H' as <- _; discriminate].
  destruct (role_checks rs userId userRole order target) as [early|] eqn:Hchk.
  { injection H' as <- _.
    destruct (role_checks_early _ _ _ _ _ _ Hchk) as [Hc|Hc]; rewrite Hc in Hcode;
      discriminate. }
  destruct (updateStatus _ _ _ _ _) as [[os1 updatedOrder]|error] eqn:Hup.
  - destruct (after_update _ _ _ _ _ _ _) as [os2 assignedRider] eqn:Hafter.
    injection H' as _ <-.
    exists name, target, order, os1, updatedOrder.
    repeat split; try reflexivity; try assumption.
    now rewrite Hafter.
  - injection H' as <- _. now apply status_error_response_code in Hcode.
Qed.

Lemma put_status_stored store_fault us rs os userId userRole pk body now
    response os' :
  put_status store_fault us rs os userId userRole pk body now = (response, os') ->
  http_status response = 200 ->
  exists name target,
    body_status body = Some name /\
    status_of_string name = Some target /\
    option_map status (findByPk os' pk) = Some target /\
    forall pk', pk' <> pk ->
                option_map status (findByPk os' pk')
                = option_map status (findByPk os pk').
Proof.
  intros H Hcode.
  destruct (put_status_accepted _ _ _ _ _ _ _ _ _ _ _ H Hcode)
    as (name & target & order & os1 & updatedOrder & Hb & Hn & Hf & _ & _
        & Hup & ->).
  exists name, target. split; [exact Hb|]. split; [exact Hn|].
  destruct (updateStatus_frame _ _ _ _ _ _ _ Hup) as (Hf1 & Hother).
  assert (Hst : status updatedOrder = target).
  { unfold updateStatus in Hup. rewrite Hf in Hup.
    injection Hup as _ <-. now destruct target. }
  split.
  - rewrite after_update_statuses, Hf1. simpl. now rewrite Hst.
  - intros pk' Hne. rewrite after_update_statuses. now rewrite (Hother pk' Hne).
Qed.

(** X4.  A request that is not answered 200 leaves the order table as it
    was; one that is answered 200 sets the status of the addressed order to
    the requested one and changes the status of no other order, whatever
    dispatch follows. *)
Theorem put_status_changes_one_status store_fault us rs os userId userRole pk
    body now response os' :
  put_status store_fault us rs os userId userRole pk body now = (response, os') ->
  (http_status response <> 200 -> os' = os) /\
  (http_status response = 200 ->
   exists name target,
     body_status body = Some name /\
     status_of_string name = Some target /\
     option_map status (findByPk os' pk) = Some target /\
     forall pk', pk' <> pk ->
                 option_map status (findByPk os' pk')
                 = option_map status (findByPk os pk')).
Proof.
  intros H. split.
  - intros Hcode. unfold put_status in H.
    repeat match type of H with
           | (match ?x with _ => _ end) = _ => destruct x
           | (if ?x then _ else _) = _ => destruct x
           | (let '(_, _) := ?x in _) = _ => destruct x
           end;
      injection H as <- <-; try reflexivity; now contradiction Hcode.
  - intros Hcode. exact (put_status_stored _ _ _ _ _ _ _ _ _ _ _ H Hcode).
Qed.

Lemma put_status_changes_one_status_witness :
  exists response os',
    put_status no_fault sample_riders sample_restaurants loaded_orders
      21 rider 2 (mkStatusBody (Some "out_for_delivery") None) 99
    = (response, os') /\
    http_status response = 200 /\
    option_map status (findByPk os' 2) = Some out_for_delivery /\
    option_map status (findByPk os' 4) = Some ready.
Proof.
  destruct (put_status no_fault sample_riders sample_restaurants loaded_orders
              21 rider 2 (mkStatusBody (Some "out_for_delivery") None) 99)
    as [response os'] eqn:Hput.
  destruct (put_status_changes_one_status _ _ _ _ _ _ _ _ _ _ _ Hput)
    as [_ H200].
  assert (Hcode : http_status response = 200)
    by (vm_compute in Hput; now injection Hput as <- _).
  destruct (H200 Hcode) as (name & target & Hb & Hn & Hpk & Hother).
  exists response, os'. split; [reflexivity|]. split; [exact Hcode|].
  injection Hb as <-. vm_compute in Hn. injection Hn as <-.
  split; [exact Hpk|]. now rewrite (Hother 4 ltac:(discriminate)).
Defined.

Lemma status_name_not_empty st : String.eqb (status_name st) "" = false.
Proof. now destruct st. Qed.

(** X5.  Every transition of the role-gated table, requested by the actor
    entitled to it (the owner of the order's restaurant, the rider the
    order is assigned to), is accepted and stored. *)
Theorem put_status_accepts_legal store_fault us rs os userId userRole pk order
    target estimate now :
  findByPk os pk = Some order ->
  legal_transition userRole (status order) target = true ->
  match userRole with
  | restaurant_owner =>
      exists restaurant,
        Restaurant_findByPk rs (restaurant_id order) = Some restaurant /\
        owner_id restaurant = userId
  | rider => rider_id order = Some userId
  | customer => False
  end ->
  exists response os',
    put_status store_fault us rs os userId userRole pk
      (mkStatusBody (Some (status_name target)) estimate) now = (response, os') /\
    http_status response = 200 /\
    option_map status (findByPk os' pk) = Some target.
Proof.
  intros Hf Hlegal Hauth.
  destruct (put_status store_fault us rs os userId userRole pk
              (mkStatusBody (Some (status_name target)) estimate) now)
    as [response os'] eqn:Hput.
  exists response, os'. split; [reflexivity|].
  assert (Hcode : http_status response = 200).
  { unfold put_status in Hput. simpl in Hput.
    rewrite status_name_not_empty, status_of_string_name, Hf in Hput.
    assert (Hchk : role_checks rs userId userRole order target = None).
    { destruct userRole; simpl; [contradiction| |].
      - destruct Hauth as (restaurant & Hr & Ho).
        unfold owner_checks, transition_refused. rewrite Hr.
        assert ((owner_id restaurant =? userId) = true) as -> by lia.
        destruct (status order), target; simpl in *; congruence.
      - unfold rider_checks, transition_refused. rewrite Hauth, Z.eqb_refl.
        destruct (status order), target; simpl in *; congruence. }
    rewrite Hchk in Hput. unfold updateStatus in Hput. rewrite Hf in Hput.
    destruct (after_update _ _ _ _ _ _ _) as [os2 assigned].
    destruct userRole; [contradiction|..]; now injection Hput as <- _. }
  split; [exact Hcode|].
  destruct (put_status_stored _ _ _ _ _ _ _ _ _ _ _ Hput Hcode)
    as (name & target' & Hb & Hn & Hst & _).
  simpl in Hb. injection Hb as <-. rewrite status_of_string_name in Hn.
  now injection Hn as <-.
Qed.

Lemma put_status_accepts_legal_witness :
  exists response os',
    put_status no_fault sample_riders sample_restaurants
      [sample_order 1 confirmed None 50] 9 restaurant_owner 1
      (mkStatusBody (Some "preparing") None) 99 = (response, os') /\
    http_status response = 200 /\
    option_map status (findByPk os' 1) = Some preparing.
Proof.
  apply (put_status_accepts_legal no_fault sample_riders sample_restaurants
           [sample_order 1 confirmed None 50] 9 restaurant_owner 1
           (sample_order 1 confirmed None 50) preparing None 99);
    [reflexivity | reflexivity |].
  exists (mkRestaurant 3 "Spice Route" 9 true true). split; reflexivity.
Defined.

(** X6.  An owner of another restaurant, and a rider the order is not
    assigned to, are answered 403 whatever status they ask for, and nothing
    is written. *)
Theorem put_status_forbidden store_fault us rs os userId userRole pk order
    name target estimate now :
  findByPk os pk = Some order ->
  status_of_string name = Some target ->
  match userRole with
  | restaurant_owner =>
      forall restaurant,
        Restaurant_findByPk rs (restaurant_id order) = Some restaurant ->
        owner_id restaurant <> userId
  | rider => rider_id order <> Some userId
  | customer => True
  end ->
  exists response,
    put_status store_fault us rs os userId userRole pk
      (mkStatusBody (Some name) estimate) now = (response, os) /\
    http_status response = 403.
Proof.
  intros Hf Hn Hauth. unfold put_status. simpl.
  destruct userRole; [eexists; split; reflexivity|..].
  - assert (Hne : String.eqb name "" = false).
    { destruct name; [discriminate Hn | reflexivity]. }
    rewrite Hne, Hn, Hf. simpl. unfold owner_checks.
    destruct (Restaurant_findByPk rs (restaurant_id order)) as [restaurant|] eqn:Hr.
    + specialize (Hauth restaurant eq_refl).
      assert ((owner_id restaurant =? userId) = false) as -> by lia.
      eexists; split; reflexivity.
    + eexists; split; reflexivity.
  - assert (Hne : String.eqb name "" = false).
    { destruct name; [discriminate Hn | reflexivity]. }
    rewrite Hne, Hn, Hf. simpl. unfold rider_checks.
    destruct (rider_id order) as [r|].
    + assert ((r =? userId) = false) as ->
        by (apply Z.eqb_neq; congruence).
      eexists; split; reflexivity.
    + eexists; split; reflexivity.
Qed.

Lemma put_status_forbidden_witness :
  exists response,
    put_status no_fault sample_riders sample_restaurants loaded_orders
      22 rider 2 (mkStatusBody (Some "out_for_delivery") None) 99
    = (response, loaded_orders) /\
    http_status response = 403.
Proof.
  apply (put_status_forbidden no_fault sample_riders sample_restaurants
           loaded_orders 22 rider 2 (sample_order 2 ready (Some 21) 60)
           "out_for_delivery" out_for_delivery None 99);
    [reflexivity | reflexivity | discriminate].
Defined.

(** ** The rider's own status route *)

(** X7.  For a rider, PUT /api/rider/orders/:id/status and
    PUT /api/orders/:id/status leave the same order table on every
    request, and one answers 200 exactly when the other does. *)
Theorem rider_route_agrees store_fault us rs os riderId pk body now :
  snd (rider_put_status store_fault us os riderId rider pk body now)
  = snd (put_status store_fault us rs os riderId rider pk body now) /\
  (http_status (fst (rider_put_status store_fault us os riderId rider pk body now))
   = 200 <->
   http_status (fst (put_status store_fault us rs os riderId rider pk body now))
   = 200).
Proof.
  unfold rider_put_status, put_status.
  destruct (body_status body) as [name|]; [|now split].
  destruct (String.eqb name ""); [now split|].
  destruct (status_of_string name) as [target|]; [|now split].
  destruct (findByPk os pk) as [order|] eqn:Hf.
  - simpl role_checks. unfold rider_checks.
    destruct (includes rider_allowedStatuses target) eqn:Hall; simpl negb; cbv iota.
    + destruct (rider_id order) as [r|]; [|now split].
      destruct (r =? riderId); simpl negb; cbv iota; [|now split].
      destruct (transition_refused rider_validTransitions (status order) target)
        as [early|] eqn:Href.
      * split; [reflexivity|]. simpl. tauto.
      * destruct (updateStatus _ _ _ _ _) as [[os1 updatedOrder]|error];
          [|now split].
        unfold after_update.
        assert (Hready : status_eqb target ready = false)
          by (destruct target; simpl in Hall |- *; congruence).
        rewrite Hready. simpl andb. cbv iota.
        replace (role_eqb rider rider) with true by reflexivity.
        rewrite andb_true_r.
        destruct (status_eqb target delivered); simpl; now split.
    + destruct (rider_id order) as [r|]; [|split; [reflexivity|simpl; split; discriminate]].
      destruct (r =? riderId); simpl; split; try reflexivity; split; discriminate.
  - destruct (includes rider_allowedStatuses target); simpl; split;
      try reflexivity; split; discriminate.
Qed.

(** ** The cancellation route *)

Lemma cannot_cancel_message st :
  str_includes ("Cannot cancel order with status: " ++ status_name st)%string
    "Cannot cancel" = true.
Proof. now destruct st. Qed.

Lemma not_cancellable_iff st :
  includes nonCancellableStatuses st
  = negb (legal_transition customer st cancelled).
Proof. now destruct st. Qed.

(** X8.  A customer's cancellation is answered 200 exactly when the order
    exists, is the customer's own and is neither delivered nor cancelled;
    the order then is cancelled, stamped with the current time and the
    reason, and has no rider earning.  An own order that is delivered or
    cancelled is answered 400, and every refusal leaves the table as it
    was. *)
Theorem put_cancel_spec os userId pk reason now response os' :
  put_cancel os userId customer pk reason now = (response, os') ->
  (http_status response = 200 <->
   exists o, findByPk os pk = Some o /\ customer_id o = userId /\
             legal_transition customer (status o) cancelled = true) /\
  (http_status response = 200 ->
   exists o', findByPk os' pk = Some o' /\
              status o' = cancelled /\ cancelled_at o' = Some now /\
              cancellation_reason o' = reason /\ rider_earning o' = None) /\
  (http_status response <> 200 -> os' = os) /\
  (forall o, findByPk os pk = Some o -> customer_id o = userId ->
             legal_transition customer (status o) cancelled = false ->
             http_status response = 400).
Proof.
  unfold put_cancel. intros H.
  destruct (findByPk os pk) as [o|] eqn:Hf.
  - destruct (customer_id o =? userId) eqn:Hown; simpl in H.
    + destruct (includes nonCancellableStatuses (status o)) eqn:Hnc.
      * unfold cancelOrder in H. rewrite Hf, Hnc in H.
        cbn [error_message Error] in H.
        rewrite cannot_cancel_message in H. injection H as <- <-.
        rewrite not_cancellable_iff in Hnc. apply negb_true_iff in Hnc.
        cbn [http_status]. split; [|split; [|split]].
        -- split; [discriminate|]. intros (o1 & [= <-] & _ & Hl). congruence.
        -- discriminate.
        -- reflexivity.
        -- reflexivity.
      * destruct (cancelOrder_side_effects os pk o reason now Hf Hnc)
          as (os1 & o1 & Hc & Hf1 & Hs1 & Hat & Hre & Hea).
        rewrite Hc in H. injection H as <- <-.
        rewrite not_cancellable_iff in Hnc. apply negb_false_iff in Hnc.
        cbn [http_status]. split; [|split; [|split]].
        -- split; [|reflexivity]. intros _. exists o.
           split; [reflexivity|]. split; [lia | exact Hnc].
        -- intros _. exists o1. repeat split; assumption.
        -- intros Hne. now contradiction Hne.
        -- intros o2 [= <-] _ Hl. congruence.
    + injection H as <- <-. cbn [http_status]. split; [|split; [|split]].
      * split; [discriminate|]. intros (o1 & [= <-] & Ho & _). lia.
      * discriminate.
      * reflexivity.
      * intros o2 [= <-] Ho. lia.
  - injection H as <- <-. cbn [http_status]. split; [|split; [|split]].
    + split; [discriminate|]. intros (o1 & [=] & _).
    + discriminate.
    + reflexivity.
    + intros o2 [=].
Qed.

Lemma put_cancel_spec_witness :
  exists response os' o',
    put_cancel loaded_orders 7 customer 4 (Some "changed my mind") 99
    = (response, os') /\
    http_status response = 200 /\
    findByPk os' 4 = Some o' /\
    status o' = cancelled /\
    cancelled_at o' = Some 99.
Proof.
  destruct (put_cancel loaded_orders 7 customer 4 (Some "changed my mind") 99)
    as [response os'] eqn:Hput.
  destruct (put_cancel_spec _ _ _ _ _ _ _ Hput) as (Hiff & H200 & _).
  assert (Hcode : http_status response = 200).
  { apply Hiff. exists (sample_order 4 ready None 80). repeat split. }
  destruct (H200 Hcode) as (o' & Hf & Hs & Hat & _).
  exists response, os', o'. repeat split; assumption.
Defined.

(** ** The backlog drain without riders *)

Lemma findByPk_NoDup os o :
  NoDup (map id os) -> In o os -> findByPk os (id o) = Some o.
Proof.
  unfold findByPk. induction os as [|x xs IH]; simpl; intros Hnd Hin; [destruct Hin|].
  inversion Hnd as [|? ? Hnotin Hnd']; subst.
  destruct Hin as [->|Hin].
  - now rewrite Z.eqb_refl.
  - destruct (id x =? id o) eqn:He.
    + exfalso. apply Hnotin. apply Z.eqb_eq in He. rewrite He. now apply in_map.
    + now apply IH.
Qed.

Lemma assign_each_without_riders store_fault us os :
  NoDup (map id os) ->
  findAvailableRiders us os 10 = [] ->
  forall pendingOrders,
    Forall (fun o => In o os /\ status o = ready /\ rider_id o = None)
      pendingOrders ->
    fst (assign_each store_fault us os pendingOrders) = os /\
    Forall (fun e => ae_success e = false /\ ae_rider e = None)
      (snd (assign_each store_fault us os pendingOrders)).
Proof.
  intros Hnd Hnone pendingOrders Hall.
  induction Hall as [|order rest (Hin & Hs & Hr) _ IH]; [now split|].
  simpl.
  assert (Hone : exists entry,
             assign_one store_fault us os order = (os, entry) /\
             ae_success entry = false /\ ae_rider entry = None).
  { unfold assign_one, try_autoAssignRider.
    destruct (store_fault (id order)); [eexists; repeat split|].
    unfold autoAssignRider.
    rewrite (findByPk_NoDup os order Hnd Hin), Hs, Hr, Hnone. simpl.
    eexists; repeat split. }
  destruct Hone as (entry & -> & He1 & He2).
  destruct (assign_each store_fault us os rest) as [os2 entries].
  simpl in *. destruct IH as [-> Hent]. split; [reflexivity|].
  constructor; [now split | exact Hent].
Qed.

(** X9.  When no rider is available, the drain reports every pulled order
    as not assigned, one entry each and in order, and leaves the order
    table as it was. *)
Theorem drain_without_riders store_fault us os maxAssignments :
  NoDup (map id os) ->
  findAvailableRiders us os 10 = [] ->
  fst (assignPendingReadyOrders store_fault us os maxAssignments) = os /\
  Forall (fun e => ae_success e = false /\ ae_rider e = None)
    (snd (assignPendingReadyOrders store_fault us os maxAssignments)) /\
  map ae_order_id (snd (assignPendingReadyOrders store_fault us os maxAssignments))
  = map id (findAvailableForRider os maxAssignments).
Proof.
  intros Hnd Hnone. unfold assignPendingReadyOrders.
  assert (Hall : Forall (fun o => In o os /\ status o = ready /\ rider_id o = None)
                   (findAvailableForRider os maxAssignments)).
  { apply Forall_forall. intros o Ho. unfold findAvailableForRider in Ho.
    apply In_firstn in Ho. unfold order_by_asc in Ho.
    rewrite in_stable_sort in Ho. apply filter_In in Ho.
    destruct Ho as [Hin Hc]. split; [exact Hin|].
    unfold is_unassigned_ready in Hc. apply andb_true_iff in Hc.
    destruct Hc as [Hs Hr]. split.
    - now destruct (status_eqb_spec (status o) ready).
    - now destruct (rider_id o). }
  destruct (assign_each_without_riders store_fault us os Hnd Hnone _ Hall)
    as [Hos Hent].
  split; [exact Hos|]. split; [exact Hent | apply assign_each_ids].
Qed.

Lemma drain_without_riders_witness :
  NoDup (map id backlog_orders) /\
  findAvailableRiders [] backlog_orders 10 = [] /\
  fst (assignPendingReadyOrders no_fault [] backlog_orders 2) = backlog_orders /\
  map ae_order_id (snd (assignPendingReadyOrders no_fault [] backlog_orders 2))
  = [2; 1].
Proof.
  assert (Hnd : NoDup (map id backlog_orders)).
  { simpl. repeat constructor; simpl; intuition discriminate. }
  split; [exact Hnd|]. split; [reflexivity|].
  destruct (drain_without_riders no_fault [] backlog_orders 2 Hnd eq_refl)
    as (Hos & _ & Hids).
  split; [exact Hos|]. rewrite Hids. reflexivity.
Defined.

(** ** The fanout for a snapshot without its restaurant *)

(** X10.  When the snapshot carries no restaurant, a fanout for pending,
    delivered or cancelled fails with a TypeError before anything is
    stored, so that not even the customer is notified; for the other
    statuses the customer is notified as usual. *)
Theorem fanout_without_restaurant persist_fault order st :
  snap_restaurant order = None ->
  match st with
  | pending | delivered | cancelled =>
      exists m, notifyOrderStatusChange persist_fault order st
                = Throw (TypeError m)
  | _ =>
      exists ns results,
        notifications_for order st = Ok ns /\
        hd_error (recipients ns) = Some (snap_customer_id order, customer) /\
        notifyOrderStatusChange persist_fault order st = Ok results /\
        List.length results = List.length ns
  end.
Proof.
  intros Hr. unfold notifyOrderStatusChange, notifications_for,
    restaurant_owner_of. rewrite Hr.
  destruct st; try (eexists; reflexivity);
    eexists _, _; (split; [reflexivity|]); (split; [reflexivity|]);
    (split; [reflexivity|]); apply length_map.
Qed.

Lemma fanout_without_restaurant_witness :
  exists m,
    notifyOrderStatusChange no_fault
      (mkOrderSnapshot 1 "ORD-20260108-001" 7 3 (Some 21) (Some "Dev") None)
      delivered = Throw (TypeError m).
Proof.
  exact (fanout_without_restaurant no_fault
           (mkOrderSnapshot 1 "ORD-20260108-001" 7 3 (Some 21) (Some "Dev") None)
           delivered eq_refl).
Defined.

(** ** What a placed order leaves behind *)



Lemma createFromCart_tables write_fault db items : forall tx orderId tx' created,
  createFromCart write_fault db tx orderId items = Ok (tx', created) ->
  (carts tx', cartItems tx', addresses tx', restaurants tx', menuItems tx')
  = (carts tx, cartItems tx, addresses tx, restaurants tx, menuItems tx) /\
  Forall (fun oi => exists m,
              MenuItem_findByPk db (oi_menu_item_id oi) = Some m /\
              oi_item_name oi = menu_item_name m) created.
Proof.
  induction items as [|item rest IH]; intros tx orderId tx' created; simpl.
  - intros [= <- <-]. split; [reflexivity | constructor].
  - destruct (MenuItem_findByPk db (menu_item_id item)) as [m|] eqn:Hm;
      [|discriminate].
    destruct (OrderItem_create _ tx _) as [[tx1 orderItem]|e] eqn:Hc;
      [|discriminate].
    simpl.
    destruct (createFromCart write_fault db tx1 orderId rest)
      as [[tx2 more]|e] eqn:Hrest; [|discriminate].
    simpl. intros [= <- <-].
    destruct (IH _ _ _ _ Hrest) as (Htab & Hnames).
    unfold OrderItem_create in Hc. apply guarded_Ok in Hc. simpl in Hc.
    destruct (quantity item <? 1); [discriminate|].
    destruct (price item <? 0); [discriminate|].
    injection Hc as <- <-. simpl in *.
    split; [exact Htab|]. constructor; [|exact Hnames].
    exists m. now split.
Qed.

Lemma filter_none {A} (f : A -> bool) l :
  (forall x, In x l -> f x = false) -> filter f l = [].
Proof.
  induction l as [|a l IH]; intros H; [reflexivity|].
  simpl. rewrite (H a) by now left. apply IH. intros x Hx. apply H. now right.
Qed.

Lemma create_in_transaction_tables write_fault db user address cart items
    dateStr now tx order created :
  create_in_transaction write_fault db user address cart items dateStr now
  = Ok (tx, order, created) ->
  carts tx = filter (fun c => negb (cart_pk c =? cart_pk cart)) (carts db) /\
  cartItems tx
  = filter (fun i => negb (cart_id i =? cart_pk cart)) (cartItems db) /\
  (addresses tx, restaurants tx, menuItems tx)
  = (addresses db, restaurants db, menuItems db) /\
  Forall (fun oi => exists m,
              MenuItem_findByPk db (oi_menu_item_id oi) = Some m /\
              oi_item_name oi = menu_item_name m) created.
Proof.
  unfold create_in_transaction. intros Hc.
  destruct (Order_create _ _ _ _ _ _ _ _ _ _) as [[tx1 o]|e] eqn:Hoc;
    [|discriminate].
  simpl in Hc.
  destruct (createFromCart _ _ _ _ _) as [[tx2 its]|e] eqn:Hi; [|discriminate].
  simpl in Hc.
  destruct (destroy_cart_items _ _ _) as [tx3|e] eqn:H3; [|discriminate].
  simpl in Hc.
  destruct (destroy_cart _ _ _) as [tx4|e] eqn:H4; [|discriminate].
  simpl in Hc. injection Hc as <- <- <-.
  unfold destroy_cart in H4. apply guarded_Ok in H4. injection H4 as <-.
  unfold destroy_cart_items in H3. apply guarded_Ok in H3. injection H3 as <-.
  destruct (createFromCart_tables _ _ _ _ _ _ _ Hi) as (Htab & Hnames).
  unfold Order_create in Hoc. apply guarded_Ok in Hoc.
  repeat match type of Hoc with
         | (if ?x then _ else _) = _ => destruct x; [discriminate|]
         end.
  injection Hoc as <- <-. simpl in Htab.
  injection Htab as Hc1 Hc2 Ha Hr Hm.
  cbn [carts cartItems addresses restaurants menuItems].
  rewrite Hc1, Hc2, Ha, Hr, Hm.
  split; [reflexivity|]. split; [reflexivity|]. split; [reflexivity | exact Hnames].
Qed.

(** X12.  A successful request commits the transaction and leaves the cart
    it was placed from deleted together with all its items, so that a
    customer whose only cart that was has none afterwards; the other tables
    are untouched except for the new order and its items, each of which
    carries the name the menu item had when the order was placed. *)
Theorem post_order_clears_cart write_fault db user address dateStr now
    response db' tx :
  post_order write_fault db user address dateStr now = (Ok response, db', tx) ->
  or_http_status response = 201 ->
  exists cart,
    Cart_findByUser db user = Some cart /\
    tx = TxCommitted /\
    carts db' = filter (fun c => negb (cart_pk c =? cart_pk cart)) (carts db) /\
    cartItems db'
    = filter (fun i => negb (cart_id i =? cart_pk cart)) (cartItems db) /\
    CartItem_findByCart db' (cart_pk cart) = [] /\
    ((forall c, In c (carts db) -> cart_user_id c = user ->
                cart_pk c = cart_pk cart) ->
     Cart_findByUser db' user = None) /\
    orderItems db' = orderItems db ++ or_items response /\
    Forall (fun oi => exists m,
                MenuItem_findByPk db (oi_menu_item_id oi) = Some m /\
                oi_item_name oi = menu_item_name m) (or_items response) /\
    (addresses db', restaurants db', menuItems db')
    = (addresses db, restaurants db, menuItems db).
Proof.
  unfold post_order. intros H Hcode.
  destruct address as [address_id|];
    [|injection H as <- _ _; discriminate].
  destruct (address_id =? 0); [injection H as <- _ _; discriminate|].
  destruct (Cart_findByUser db user) as [cart|];
    [|injection H as <- _ _; discriminate].
  destruct (CartItem_findByCart db (cart_pk cart)) as [|i0 items];
    [injection H as <- _ _; discriminate|].
  destruct (Address_findById db address_id) as [addr|];
    [|injection H as <- _ _; discriminate].
  destruct (negb (address_user_id addr =? user));
    [injection H as <- _ _; discriminate|].
  destruct (Restaurant_findByPk _ _) as [restaurant|];
    [|injection H as <- _ _; discriminate].
  destruct (negb (is_active restaurant) || negb (is_accepting_orders restaurant))%bool;
    [injection H as <- _ _; discriminate|].
  destruct (create_in_transaction _ _ _ _ _ _ _ _)
    as [[[tx' order] created]|e] eqn:Hc.
  2:{ injection H as <- _ _. unfold create_error_response in Hcode.
      destruct (String.eqb _ _); discriminate. }
  destruct (write_fault Commit); [discriminate H|].
  injection H as <- <- <-. exists cart. split; [reflexivity|].
  split; [reflexivity|]. cbn [or_items].
  destruct (create_in_transaction_tables _ _ _ _ _ _ _ _ _ _ _ Hc)
    as (Hcarts & Hitems & Hrest & Hnames).
  destruct (create_in_transaction_Ok _ _ _ _ _ _ _ _ _ _ _ Hc)
    as (_ & _ & Hois & _).
  split; [exact Hcarts|]. split; [exact Hitems|].
  split.
  { unfold CartItem_findByCart. rewrite Hitems, filter_none; [reflexivity|].
    intros x Hx. apply filter_In in Hx. destruct Hx as [_ Hx].
    now apply negb_true_iff in Hx. }
  split.
  { intros Honly. unfold Cart_findByUser. rewrite Hcarts.
    rewrite filter_none; [reflexivity|].
    intros c Hcin. apply filter_In in Hcin. destruct Hcin as [Hcin Hne].
    apply negb_true_iff in Hne.
    destruct (cart_user_id c =? user) eqn:Hu; [|reflexivity].
    specialize (Honly c Hcin ltac:(lia)). lia. }
  split; [exact Hois|]. split; [exact Hnames | exact Hrest].
Qed.

Lemma post_order_clears_cart_witness :
  exists response db',
    post_order no_fault sample_db 7 (Some 4) "20260108" 1000
    = (Ok response, db', TxCommitted) /\
    Cart_findByUser db' 7 = None /\
    cartItems db' = [] /\
    map oi_item_name (or_items response) = ["A"; "B"].
Proof.
  destruct (post_order no_fault sample_db 7 (Some 4) "20260108" 1000)
    as [[outcome db'] tx] eqn:Hpost.
  assert (Hv := Hpost). vm_compute in Hv. injection Hv as <- <- <-.
  destruct (post_order_clears_cart _ _ _ _ _ _ _ _ _ Hpost eq_refl)
    as (cart & Hcart & _ & _ & Hitems & _ & Hnone & _).
  eexists _, _. split; [reflexivity|].
  vm_compute in Hcart. injection Hcart as <-.
  split.
  - apply Hnone. intros c [<-|[]] _. reflexivity.
  - split; [rewrite Hitems; reflexivity | reflexivity].
Defined.

(** ** Reading an order number back *)

Lemma all_digits_no_dash s : all_digits s = true -> no_dash s = true.
Proof.
  induction s as [|c s IH]; [reflexivity|].
  cbn [all_digits no_dash]. intros H. apply andb_true_iff in H.
  destruct H as [Hc Hs]. rewrite (IH Hs), andb_true_r.
  unfold is_digit in Hc. apply andb_true_iff in Hc.
  destruct (Ascii.eqb_spec c "-") as [->|_]; [|reflexivity].
  vm_compute in Hc. destruct Hc; discriminate.
Qed.

(** X13.  As long as the sequence stays below 2^53, where the code's
    arithmetic on doubles is exact, the number [generateOrderNumber]
    returns for a day written in digits reads back: stored on an order,
    it is matched by the day's pattern and its third field parses to one
    more than the sequence of the day's latest order (to 1 on a day
    without orders), also beyond three digits. *)
Theorem generateOrderNumber_reads_back os dateStr n o :
  all_digits dateStr = true ->
  (lastOrder os dateStr = None /\ n = 0) \/
  (exists l, lastOrder os dateStr = Some l /\
             lastSequence l = Finite n /\ 0 <= n) ->
  n + 1 < 9007199254740992 ->
  order_number o = generateOrderNumber os dateStr ->
  of_day dateStr o = true /\ lastSequence o = Finite (n + 1).
Proof.
  intros Hdate Hlast Hsafe Hnum. apply all_digits_no_dash in Hdate.
  assert (Hn : 0 <= n) by (destruct Hlast as [[_ ->]|(l & _ & _ & H)]; lia).
  assert (Hgen : generateOrderNumber os dateStr = order_number_of dateStr (n + 1)).
  { unfold generateOrderNumber, order_number_of.
    destruct Hlast as [[-> ->]|(l & -> & -> & _)]; [reflexivity|].
    cbn [Number_add]. rewrite to_double_safe by lia. reflexivity. }
  rewrite Hgen in Hnum.
  destruct (lastSequence_of_number dateStr (n + 1) o Hdate ltac:(lia) Hnum).
  now split.
Qed.

Lemma generateOrderNumber_reads_back_witness :
  exists o,
    order_number o
    = generateOrderNumber [numbered_order 1 "ORD-20260108-999" 10] "20260108" /\
    order_number o = "ORD-20260108-1000" /\
    of_day "20260108" o = true /\
    lastSequence o = Finite 1000.
Proof.
  exists (numbered_order 2 "ORD-20260108-1000" 20).
  split; [reflexivity|]. split; [reflexivity|].
  apply (generateOrderNumber_reads_back
           [numbered_order 1 "ORD-20260108-999" 10] "20260108" 999).
  - reflexivity.
  - right. exists (numbered_order 1 "ORD-20260108-999" 10).
    split; [reflexivity|]. split; [reflexivity | lia].
  - lia.
  - reflexivity.
Defined.

(** ** Listings *)

Section SortedFacts.
Context {A : Type} (le : A -> A -> bool).
Hypothesis le_total : forall a b, le a b = false -> le b a = true.
Hypothesis le_trans : forall a b c, le a b = true -> le b c = true -> le a c = true.

Lemma stable_sort_sorted l :
  StronglySorted (fun a b => le a b = true) (stable_sort le l).
Proof.
  induction l as [|a l IH]; simpl; [constructor|].
  revert IH. generalize (stable_sort le l).
  intros s Hs. induction Hs as [|y s Hs IHs Hy]; simpl.
  - repeat constructor.
  - destruct (le a y) eqn:Hle.
    + constructor; [now constructor|].
      constructor; [exact Hle|].
      eapply Forall_impl; [|exact Hy]. simpl. intros z Hz. now apply (le_trans a y z).
    + constructor; [exact IHs|].
      apply Forall_forall. intros x Hx.
      apply in_insert_sorted in Hx. destruct Hx as [->|Hx].
      * now apply le_total.
      * rewrite Forall_forall in Hy. now apply Hy.
Qed.
End SortedFacts.

Lemma StronglySorted_app_inv {A} (R : A -> A -> Prop) l1 l2 :
  StronglySorted R (l1 ++ l2) -> StronglySorted R l1 /\ StronglySorted R l2.
Proof.
  induction l1 as [|a l1 IH]; simpl; intros H; [split; [constructor | exact H]|].
  inversion H as [|? ? Hs Hall]; subst.
  destruct (IH Hs) as [H1 H2]. split; [|exact H2].
  constructor; [exact H1|]. apply Forall_app in Hall. tauto.
Qed.

Lemma page_sorted {A} (R : A -> A -> Prop) options rows :
  StronglySorted R rows -> StronglySorted R (page options rows).
Proof.
  intros H. unfold page.
  rewrite <- (firstn_skipn (or_keep (fo_offset options) 0%nat) rows) in H.
  apply StronglySorted_app_inv in H. destruct H as [_ H].
  rewrite <- (firstn_skipn (or_keep (fo_limit options) 50%nat)
                (skipn (or_keep (fo_offset options) 0%nat) rows)) in H.
  now apply StronglySorted_app_inv in H.
Qed.

Lemma page_In {A} options (rows : list A) x : In x (page options rows) -> In x rows.
Proof.
  unfold page. intros H. apply In_firstn in H.
  rewrite <- (firstn_skipn (or_keep (fo_offset options) 0%nat) rows).
  apply in_or_app. now right.
Qed.

Lemma page_all {A} options (rows : list A) :
  fo_offset options = None ->
  (List.length rows <= or_keep (fo_limit options) 50)%nat ->
  page options rows = rows.
Proof.
  intros Hoff Hlen. unfold page. rewrite Hoff. simpl.
  now apply firstn_all2.
Qed.

Lemma StronglySorted_weaken {A} (R R' : A -> A -> Prop) l :
  (forall a b, R a b -> R' a b) ->
  StronglySorted R l -> StronglySorted R' l.
Proof.
  intros Himp H. induction H as [|a l Hs IH Hall]; constructor; [exact IH|].
  eapply Forall_impl; [|exact Hall]. intros b. apply Himp.
Qed.

Lemma order_by_desc_sorted {A} (key : A -> Z) l :
  StronglySorted (fun a b => key b <= key a) (order_by_desc key l).
Proof.
  unfold order_by_desc.
  apply (StronglySorted_weaken (fun a b => (key b <=? key a) = true)).
  - intros a b H. lia.
  - apply stable_sort_sorted.
    + intros a b H. lia.
    + intros a b c H1 H2. lia.
Qed.

(** X14.  [Order.findByCustomer] and [Order.findByRestaurant] return only
    orders of that customer (restaurant), of the requested status when one
    is given, at most [limit] of them (50 by default), newest first; without
    an offset and within the limit they return every such order. *)
Theorem findBy_listing os key options :
  let matching (col : Order -> Z) :=
    filter (fun o => (col o =? key) && status_matches options o) os in
  let listed (col : Order -> Z) (result : list Order) :=
    Forall (fun o => In o os /\ col o = key /\
                     forall st, fo_status options = Some st -> status o = st)
      result /\
    (List.length result <= or_keep (fo_limit options) 50)%nat /\
    StronglySorted (fun a b => created_at b <= created_at a) result /\
    (fo_offset options = None ->
     (List.length (matching col) <= or_keep (fo_limit options) 50)%nat ->
     Permutation result (matching col)) in
  listed customer_id (findByCustomer os key options) /\
  listed restaurant_id (findByRestaurant os key options).
Proof.
  intros matching listed.
  assert (Hgen : forall col,
             listed col (page options (order_by_desc created_at (matching col)))).
  { intros col. unfold listed. split; [|split; [|split]].
    - apply Forall_forall. intros o Ho. apply page_In in Ho.
      unfold order_by_desc in Ho. rewrite in_stable_sort in Ho.
      apply filter_In in Ho. destruct Ho as [Hin Hc].
      apply andb_true_iff in Hc. destruct Hc as [Hk Hs].
      split; [exact Hin|]. split; [lia|].
      intros st Hst. unfold status_matches in Hs. rewrite Hst in Hs.
      now destruct (status_eqb_spec (status o) st).
    - unfold page. apply firstn_le_length.
    - apply page_sorted, order_by_desc_sorted.
    - intros Hoff Hlen. rewrite page_all; [apply stable_sort_perm | exact Hoff |].
      unfold order_by_desc.
      now rewrite (Permutation_length (stable_sort_perm _ (matching col))). }
  split; [apply (Hgen customer_id) | apply (Hgen restaurant_id)].
Qed.

Lemma rider_listing_le_total a b :
  rider_listing_le a b = false -> rider_listing_le b a = true.
Proof.
  unfold rider_listing_le. intros H.
  apply orb_false_iff in H. destruct H as [H1 H2].
  apply andb_false_iff in H2.
  destruct (Z.ltb_spec (rider_rank b) (rider_rank a)); [reflexivity|].
  destruct (Z.eqb_spec (rider_rank b) (rider_rank a)) as [He|He]; [|lia].
  simpl. destruct H2 as [H2|H2]; [lia|].
  apply orb_false_iff in H2. destruct H2 as [H2 H3].
  apply andb_false_iff in H3.
  destruct (Z.ltb_spec (created_at a) (created_at b)); [reflexivity|].
  destruct (Z.eqb_spec (created_at b) (created_at a)) as [Hc|Hc]; [|lia].
  simpl. destruct H3 as [H3|H3]; lia.
Qed.

Lemma rider_listing_le_iff a b :
  rider_listing_le a b = true <->
  rider_rank a < rider_rank b \/
  (rider_rank a = rider_rank b /\
   (created_at b < created_at a \/
    (created_at a = created_at b /\ id b <= id a))).
Proof.
  unfold rider_listing_le.
  rewrite orb_true_iff, andb_true_iff, orb_true_iff, andb_true_iff.
  rewrite !Z.ltb_lt, !Z.eqb_eq, Z.leb_le. tauto.
Qed.

Lemma rider_listing_le_trans a b c :
  rider_listing_le a b = true -> rider_listing_le b c = true ->
  rider_listing_le a c = true.
Proof. rewrite !rider_listing_le_iff. lia. Qed.

(** X15.  [Order.findByRider] returns only orders of that rider, at most
    [limit] of them, the active ones (ready, out for delivery) before the
    delivered ones before all others, and within each group the newest
    first, the higher id first among orders created at the same time. *)
Theorem findByRider_listing os riderId options :
  Forall (fun o => In o os /\ rider_id o = Some riderId /\
                   forall st, fo_status options = Some st -> status o = st)
    (findByRider os riderId options) /\
  (List.length (findByRider os riderId options)
   <= or_keep (fo_limit options) 50)%nat /\
  StronglySorted
    (fun a b =>
       rider_rank a <= rider_rank b /\
       (rider_rank a = rider_rank b -> created_at b <= created_at a) /\
       (rider_rank a = rider_rank b -> created_at a = created_at b ->
        id b <= id a))
    (findByRider os riderId options) /\
  (forall o, rider_rank o = 0 <-> status o = ready \/ status o = out_for_delivery) /\
  (forall o, rider_rank o = 1 <-> status o = delivered).
Proof.
  unfold findByRider. split; [|split; [|split; [|split]]].
  - apply Forall_forall. intros o Ho. apply page_In in Ho.
    rewrite in_stable_sort in Ho. apply filter_In in Ho.
    destruct Ho as [Hin Hc]. apply andb_true_iff in Hc. destruct Hc as [Hk Hs].
    split; [exact Hin|]. split.
    + destruct (rider_id o) as [r|]; [|discriminate].
      apply Z.eqb_eq in Hk. now subst.
    + intros st Hst. unfold status_matches in Hs. rewrite Hst in Hs.
      now destruct (status_eqb_spec (status o) st).
  - unfold page. apply firstn_le_length.
  - apply page_sorted.
    apply (StronglySorted_weaken (fun a b => rider_listing_le a b = true)).
    + intros a b H. apply rider_listing_le_iff in H. lia.
    + apply stable_sort_sorted;
        [apply rider_listing_le_total | apply rider_listing_le_trans].
  - intros o. unfold rider_rank. destruct (status o); simpl; split;
      intros H; try lia; try tauto; destruct H; discriminate.
  - intros o. unfold rider_rank. destruct (status o); simpl; split;
      intros H; try lia; try reflexivity; discriminate.
Qed.

(** ** Tracking *)

(** X16.  The timeline of the tracking response always reports the
    creation time for pending; a step is reported only if the one before it
    is; every reported step from confirmed to out_for_delivery carries the
    same instant, the row's [updated_at]; and a cancelled order is reported
    as confirmed at that instant, with no later step. *)
Theorem status_timeline_shape order updated_at :
  tl_pending (status_timeline order updated_at) = Some (created_at order) /\
  (tl_delivered (status_timeline order updated_at) <> None ->
   tl_out_for_delivery (status_timeline order updated_at) <> None) /\
  (tl_out_for_delivery (status_timeline order updated_at) <> None ->
   tl_ready (status_timeline order updated_at) <> None) /\
  (tl_ready (status_timeline order updated_at) <> None ->
   tl_preparing (status_timeline order updated_at) <> None) /\
  (tl_preparing (status_timeline order updated_at) <> None ->
   tl_confirmed (status_timeline order updated_at) <> None) /\
  (forall stamp,
      In stamp [tl_confirmed (status_timeline order updated_at);
                tl_preparing (status_timeline order updated_at);
                tl_ready (status_timeline order updated_at);
                tl_out_for_delivery (status_timeline order updated_at)] ->
      stamp = None \/ stamp = Some updated_at) /\
  (status order = cancelled ->
   tl_confirmed (status_timeline order updated_at) = Some updated_at /\
   tl_preparing (status_timeline order updated_at) = None).
Proof.
  unfold status_timeline.
  destruct (status order); simpl; repeat split;
    try discriminate; try congruence; try tauto;
    intros stamp H; repeat (destruct H as [<-|H]; [tauto|]); destruct H.
Qed.

(** X17.  The tracking route answers any rider, assigned to the order or
    not, with the timeline of any existing order of an existing
    restaurant, whereas the access check of the order view lets a rider
    through only for an order assigned to that rider. *)
Theorem track_open_to_riders rs os userId pk order restaurant updated_at :
  findByPk os pk = Some order ->
  Restaurant_findByPk rs (restaurant_id order) = Some restaurant ->
  get_track rs os userId rider pk updated_at
  = (mkResponse 200 true "Order tracking retrieved successfully",
     Some (status_timeline order updated_at)) /\
  (view_access rs userId rider order = Ok None <-> rider_id order = Some userId) /\
  (rider_id order <> Some userId ->
   exists refusal, view_access rs userId rider order = Ok (Some refusal) /\
                   http_status refusal = 403).
Proof.
  intros Hf Hr. unfold get_track, track_access, view_access.
  rewrite Hf. simpl. rewrite Hr. split; [reflexivity|].
  destruct (rider_id order) as [r|]; simpl.
  - destruct (Z.eqb_spec r userId) as [->|Hne]; simpl.
    + split; [tauto|]. intros H. now contradiction H.
    + split.
      * split; [discriminate|]. intros [= ->]. contradiction.
      * intros _. eexists. split; reflexivity.
  - split.
    + split; discriminate.
    + intros _. eexists. split; reflexivity.
Qed.

Lemma track_open_to_riders_witness :
  get_track sample_restaurants loaded_orders 22 rider 1 95
  = (mkResponse 200 true "Order tracking retrieved successfully",
     Some (status_timeline (sample_order 1 out_for_delivery (Some 21) 50) 95)) /\
  exists refusal,
    view_access sample_restaurants 22 rider
      (sample_order 1 out_for_delivery (Some 21) 50) = Ok (Some refusal) /\
    http_status refusal = 403.
Proof.
  destruct (track_open_to_riders sample_restaurants loaded_orders 22 1
              (sample_order 1 out_for_delivery (Some 21) 50)
              (mkRestaurant 3 "Spice Route" 9 true true) 95 eq_refl eq_refl)
    as (Htrack & _ & Hview).
  split; [exact Htrack|]. apply Hview. discriminate.
Defined.

(** ** Carts *)

Lemma sum_lines_app l1 l2 : sum_lines (l1 ++ l2) = sum_lines l1 + sum_lines l2.
Proof.
  unfold sum_lines. induction l1 as [|a l1 IH]; simpl; [reflexivity|].
  rewrite IH. lia.
Qed.

Lemma subtotal_save items e e' c :
  NoDup (map cart_item_pk items) ->
  In e items ->
  cart_item_pk e' = cart_item_pk e ->
  cart_id e' = cart_id e ->
  sum_lines (filter (fun i => cart_id i =? c) (save_cart_item items e'))
  = sum_lines (filter (fun i => cart_id i =? c) items)
    + (if cart_id e =? c
       then quantity e' * price e' - quantity e * price e else 0).
Proof.
  intros Hnd Hin Hpk Hcart.
  induction items as [|x xs IH]; [destruct Hin|].
  simpl in Hnd. inversion Hnd as [|? ? Hnotin Hnd']; subst.
  destruct Hin as [->|Hin].
  - simpl. rewrite Hpk, Z.eqb_refl. simpl. rewrite Hcart.
    destruct (cart_id e =? c); unfold sum_lines; simpl; lia.
  - assert (Hne : (cart_item_pk x =? cart_item_pk e') = false).
    { apply Z.eqb_neq. intros Heq. apply Hnotin. rewrite Heq, Hpk.
      now apply in_map. }
    simpl. rewrite Hne. simpl.
    destruct (cart_id x =? c); unfold sum_lines in *; simpl;
      rewrite (IH Hnd' Hin); lia.
Qed.

Lemma findByCartAndMenuItem_Some db c m e :
  findByCartAndMenuItem db c m = Some e ->
  In e (cartItems db) /\ cart_id e = c /\ menu_item_id e = m.
Proof.
  unfold findByCartAndMenuItem. intros H. apply find_some in H.
  destruct H as [Hin Hc]. apply andb_true_iff in Hc. split; [exact Hin | lia].
Qed.

(** X18.  Adding to a cart raises the cart's subtotal by the added quantity
    times the price of the resulting line, and no other cart's subtotal
    changes.  When the menu item is already in the cart, the line keeps the
    price it had: the price passed with the addition is not used. *)
Theorem addOrUpdateItem_subtotal db cartId menuItemId qty prc now db' item :
  NoDup (map cart_item_pk (cartItems db)) ->
  addOrUpdateItem db cartId menuItemId qty prc now = Ok (db', item) ->
  calculateSubtotal db' cartId = calculateSubtotal db cartId + qty * price item /\
  (forall other, other <> cartId ->
                 calculateSubtotal db' other = calculateSubtotal db other) /\
  price item = match findByCartAndMenuItem db cartId menuItemId with
               | Some existing => price existing
               | None => prc
               end /\
  1 <= quantity item /\
  (cart_id item, menu_item_id item) = (cartId, menuItemId).
Proof.
  intros Hnd. unfold addOrUpdateItem, calculateSubtotal.
  destruct (findByCartAndMenuItem db cartId menuItemId) as [e|] eqn:Hfind.
  - destruct (findByCartAndMenuItem_Some _ _ _ _ Hfind) as (Hin & Hc & Hm).
    unfold validate_cart_item. cbn [quantity price set_quantity].
    destruct (quantity e + qty <? 1) eqn:Hq; [discriminate|].
    destruct (price e <? 0); [discriminate|].
    simpl. intros [= <- <-]. cbn [cartItems with_cartItems].
    split; [|split; [|split; [|split]]].
    + rewrite (subtotal_save _ e) by (try assumption; reflexivity).
      rewrite Hc, Z.eqb_refl. simpl. lia.
    + intros other Hne.
      rewrite (subtotal_save _ e) by (try assumption; reflexivity).
      rewrite Hc. assert ((cartId =? other) = false) as -> by lia. lia.
    + reflexivity.
    + simpl. lia.
    + simpl. congruence.
  - unfold validate_cart_item. cbn [quantity price].
    destruct (qty <? 1) eqn:Hq; [discriminate|].
    destruct (prc <? 0); [discriminate|].
    simpl. intros [= <- <-]. cbn [cartItems with_cartItems].
    split; [|split; [|split; [|split]]].
    + rewrite filter_app, sum_lines_app. simpl. rewrite Z.eqb_refl.
      unfold sum_lines. simpl. lia.
    + intros other Hne. rewrite filter_app, sum_lines_app. simpl.
      assert ((cartId =? other) = false) as -> by lia.
      unfold sum_lines. simpl. lia.
    + reflexivity.
    + simpl. lia.
    + reflexivity.
Qed.

Lemma addOrUpdateItem_subtotal_witness :
  NoDup (map cart_item_pk (cartItems sample_db)) /\
  exists db' item,
    addOrUpdateItem sample_db 1 11 3 1200 500 = Ok (db', item) /\
    price item = 1000 /\
    quantity item = 5 /\
    calculateSubtotal db' 1 = 2500 + 3 * 1000.
Proof.
  assert (Hnd : NoDup (map cart_item_pk (cartItems sample_db))).
  { simpl. repeat constructor; simpl; intuition discriminate. }
  split; [exact Hnd|].
  destruct (addOrUpdateItem sample_db 1 11 3 1200 500)
    as [[db' item]|e] eqn:Hadd; [|discriminate Hadd].
  destruct (addOrUpdateItem_subtotal _ _ _ _ _ _ _ _ Hnd Hadd)
    as (Hsub & _ & Hprice & _).
  exists db', item. split; [reflexivity|].
  assert (Hp : price item = 1000) by (rewrite Hprice; reflexivity).
  split; [exact Hp|].
  split; [vm_compute in Hadd; now injection Hadd as _ <-|].
  rewrite Hsub, Hp. reflexivity.
Defined.

Lemma Cart_findByUser_spec db user :
  match Cart_findByUser db user with
  | Some c => In c (carts db) /\ cart_user_id c = user
  | None => filter (fun c => cart_user_id c =? user) (carts db) = []
  end.
Proof.
  unfold Cart_findByUser.
  pose proof (order_by_desc_head cart_created_at
                (filter (fun c => cart_user_id c =? user) (carts db))) as H.
  destruct (hd_error _) as [c|]; [|exact H].
  destruct H as [Hin _]. apply filter_In in Hin. split; [tauto | lia].
Qed.

(** X19.  [Cart.findOrCreateForUser] returns a cart of that user for that
    restaurant or fails: it fails exactly when the user's cart is for
    another restaurant; it creates a cart only when the user has none, and
    the cart it returns is the one a following lookup finds. *)
Theorem findOrCreateForUser_single_restaurant db user restaurant now :
  match findOrCreateForUser db user restaurant now with
  | Ok (db', cart) =>
      cart_user_id cart = user /\
      cart_restaurant_id cart = restaurant /\
      Cart_findByUser db' user = Some cart /\
      (Cart_findByUser db user <> None -> db' = db) /\
      (Cart_findByUser db user = None -> carts db' = carts db ++ [cart])
  | Throw _ =>
      exists existing,
        Cart_findByUser db user = Some existing /\
        cart_restaurant_id existing <> restaurant
  end.
Proof.
  unfold findOrCreateForUser.
  pose proof (Cart_findByUser_spec db user) as Hspec.
  destruct (Cart_findByUser db user) as [c|] eqn:Hfind.
  - destruct Hspec as [Hin Hu].
    destruct (Z.eqb_spec (cart_restaurant_id c) restaurant) as [Hr|Hr]; simpl.
    + repeat split; try assumption; try reflexivity. discriminate.
    + exists c. now split.
  - split; [reflexivity|]. split; [reflexivity|]. split; [|split].
    + unfold Cart_findByUser, with_carts. cbn [carts].
      rewrite filter_app, Hspec. simpl. now rewrite Z.eqb_refl.
    + intros H. now contradiction H.
    + reflexivity.
Qed.

Lemma CartItem_findByPk_Some db pk i :
  CartItem_findByPk db pk = Some i -> In i (cartItems db) /\ cart_item_pk i = pk.
Proof.
  unfold CartItem_findByPk. intros H. apply find_some in H.
  split; [tauto | lia].
Qed.

Lemma Cart_findByPk_Some db pk c :
  Cart_findByPk db pk = Some c -> In c (carts db) /\ cart_pk c = pk.
Proof.
  unfold Cart_findByPk. intros H. apply find_some in H.
  split; [tauto | lia].
Qed.

Lemma find_filter_none {A} (f g : A -> bool) l :
  (forall x, f x = true -> g x = false) -> find f (filter g l) = None.
Proof.
  intros H. induction l as [|a l IH]; simpl; [reflexivity|].
  destruct (g a) eqn:Hg; [|exact IH].
  simpl. destruct (f a) eqn:Hf; [|exact IH].
  rewrite (H a Hf) in Hg. discriminate.
Qed.

Lemma find_none_filter {A} (f g : A -> bool) l :
  find f l = None -> find f (filter g l) = None.
Proof.
  induction l as [|a l IH]; simpl; [reflexivity|].
  destruct (f a) eqn:Hf; [discriminate|]. intros H.
  destruct (g a); simpl; [rewrite Hf|]; now apply IH.
Qed.

(** X20.  DELETE /api/cart/items/:id, when answered 200, has removed the
    item of the caller's own cart, and the cart itself is gone afterwards
    exactly when it has no item left; any other answer leaves the tables as
    they were. *)
Theorem delete_cart_item_spec db userId pk response db' :
  delete_cart_item db userId pk = (response, db') ->
  (http_status response <> 200 -> db' = db) /\
  (http_status response = 200 ->
   exists item cart,
     CartItem_findByPk db pk = Some item /\
     Cart_findByPk db (cart_id item) = Some cart /\
     cart_user_id cart = userId /\
     CartItem_findByPk db' pk = None /\
     (CartItem_findByCart db' (cart_pk cart) = [] <->
      Cart_findByPk db' (cart_pk cart) = None) /\
     orders db' = orders db).
Proof.
  unfold delete_cart_item. intros H.
  destruct (CartItem_findByPk db pk) as [item|] eqn:Hitem;
    [|injection H as <- <-; split; [reflexivity | discriminate]].
  destruct (Cart_findByPk db (cart_id item)) as [cart|] eqn:Hcart;
    [|injection H as <- <-; split; [reflexivity | discriminate]].
  destruct (Z.eqb_spec (cart_user_id cart) userId) as [Hu|Hu]; simpl in H;
    [|injection H as <- <-; split; [reflexivity | discriminate]].
  unfold removeItem in H. rewrite Hitem in H.
  destruct (Cart_findByPk_Some _ _ _ Hcart) as [_ Hpk].
  assert (Hgone : find (fun i => cart_item_pk i =? pk)
                    (filter (fun i => negb (cart_item_pk i =? pk)) (cartItems db))
                  = None).
  { apply find_filter_none. intros x Hx. now rewrite Hx. }
  destruct (CartItem_findByCart _ (cart_pk cart)) as [|i0 rest] eqn:Hrem;
    injection H as <- <-; (split; [intros Hne; now contradiction Hne|]);
    intros _; exists item, cart;
    (split; [first [reflexivity | exact Hitem]|]);
    (split; [first [reflexivity | exact Hcart]|]); (split; [exact Hu|]).
  - split; [|split; [|reflexivity]].
    + unfold CartItem_findByPk, deleteCart, clearCart. simpl.
      now apply find_none_filter.
    + split; intros _.
      * unfold Cart_findByPk, deleteCart. simpl.
        apply find_filter_none. intros x Hx. now rewrite Hx.
      * unfold CartItem_findByCart, deleteCart, clearCart. simpl.
        rewrite filter_none; [reflexivity|].
        intros x Hx. apply filter_In in Hx. destruct Hx as [_ Hx].
        now apply negb_true_iff in Hx.
  - split; [exact Hgone|]. split; [|reflexivity].
    split; [intros Hnil; rewrite Hnil in Hrem; discriminate|].
    unfold Cart_findByPk. simpl. fold (Cart_findByPk db (cart_pk cart)).
    rewrite Hpk, Hcart. discriminate.
Qed.

Lemma delete_cart_item_spec_witness :
  exists response db' item,
    delete_cart_item sample_db 7 2 = (response, db') /\
    http_status response = 200 /\
    CartItem_findByPk sample_db 2 = Some item /\
    CartItem_findByPk db' 2 = None /\
    Cart_findByPk db' 1 <> None.
Proof.
  destruct (delete_cart_item sample_db 7 2) as [response db'] eqn:Hdel.
  destruct (delete_cart_item_spec _ _ _ _ _ Hdel) as [_ H200].
  assert (Hcode : http_status response = 200)
    by (vm_compute in Hdel; now injection Hdel as <- _).
  destruct (H200 Hcode) as (item & cart & Hi & Hc & _ & Hgone & _).
  exists response, db', item. split; [reflexivity|]. split; [exact Hcode|].
  split; [exact Hi|]. split; [exact Hgone|].
  vm_compute in Hdel. injection Hdel as _ <-. discriminate.
Defined.

Lemma CartItem_findByPk_save db pk e e' :
  CartItem_findByPk db pk = Some e -> cart_item_pk e' = pk ->
  CartItem_findByPk (with_cartItems db (save_cart_item (cartItems db) e')) pk
  = Some e'.
Proof.
  unfold CartItem_findByPk. cbn [cartItems with_cartItems].
  induction (cartItems db) as [|x xs IH]; simpl; intros Hf Hid.
  - discriminate.
  - destruct (cart_item_pk x =? pk) eqn:Ex.
    + assert ((cart_item_pk x =? cart_item_pk e') = true) as -> by lia.
      simpl. now assert ((cart_item_pk e' =? pk) = true) as -> by lia.
    + assert ((cart_item_pk x =? cart_item_pk e') = false) as -> by lia.
      simpl. rewrite Ex. now apply IH.
Qed.

(** X21.  PUT /api/cart/items/:id, when answered 200, has set the quantity
    of an item of the caller's own cart to a positive one and moved the
    cart's subtotal by the change of quantity times the line's price, which
    stays as it was; any other answer, that for a quantity of zero or less
    among them, leaves the tables as they were. *)
Theorem put_cart_item_spec db userId pk qty response db' :
  NoDup (map cart_item_pk (cartItems db)) ->
  put_cart_item db userId pk qty = (response, db') ->
  (http_status response <> 200 -> db' = db) /\
  (http_status response = 200 ->
   exists q item cart,
     qty = Some q /\ 0 < q /\
     CartItem_findByPk db pk = Some item /\
     Cart_findByPk db (cart_id item) = Some cart /\
     cart_user_id cart = userId /\
     CartItem_findByPk db' pk = Some (set_quantity item q) /\
     calculateSubtotal db' (cart_id item)
     = calculateSubtotal db (cart_id item) + (q - quantity item) * price item).
Proof.
  intros Hnd. unfold put_cart_item. intros H.
  destruct qty as [q|];
    [|injection H as <- <-; split; [reflexivity | discriminate]].
  destruct (Z.leb_spec q 0) as [Hq|Hq];
    [injection H as <- <-; split; [reflexivity | discriminate]|].
  destruct (CartItem_findByPk db pk) as [item|] eqn:Hitem;
    [|injection H as <- <-; split; [reflexivity | discriminate]].
  destruct (Cart_findByPk db (cart_id item)) as [cart|] eqn:Hcart;
    [|injection H as <- <-; split; [reflexivity | discriminate]].
  destruct (Z.eqb_spec (cart_user_id cart) userId) as [Hu|Hu]; simpl in H;
    [|injection H as <- <-; split; [reflexivity | discriminate]].
  unfold updateQuantity in H. rewrite Hitem in H.
  assert ((q <=? 0) = false) as Hq' by lia. rewrite Hq' in H.
  unfold validate_cart_item in H. cbn [quantity price set_quantity] in H.
  assert ((q <? 1) = false) as Hq1 by lia. rewrite Hq1 in H.
  destruct (CartItem_findByPk_Some _ _ _ Hitem) as [Hin Hpk].
  destruct (price item <? 0) eqn:Hp; simpl in H.
  - injection H as <- <-. split; [reflexivity | discriminate].
  - injection H as <- <-. split; [intros Hne; now contradiction Hne|].
    intros _. exists q, item, cart.
    split; [reflexivity|]. split; [lia|].
    split; [first [reflexivity | exact Hitem]|].
    split; [first [reflexivity | exact Hcart]|]. split; [exact Hu|]. split.
    + apply (CartItem_findByPk_save db pk item); [exact Hitem | exact Hpk].
    + unfold calculateSubtotal. simpl.
      rewrite (subtotal_save _ item) by (try assumption; reflexivity).
      rewrite Z.eqb_refl. simpl. lia.
Qed.

Lemma put_cart_item_spec_witness :
  NoDup (map cart_item_pk (cartItems sample_db)) /\
  exists response db',
    put_cart_item sample_db 7 1 (Some 5) = (response, db') /\
    http_status response = 200 /\
    calculateSubtotal db' 1 = 2500 + (5 - 2) * 1000.
Proof.
  assert (Hnd : NoDup (map cart_item_pk (cartItems sample_db))).
  { simpl. repeat constructor; simpl; intuition discriminate. }
  split; [exact Hnd|].
  destruct (put_cart_item sample_db 7 1 (Some 5)) as [response db'] eqn:Hput.
  destruct (put_cart_item_spec _ _ _ _ _ _ Hnd Hput) as [_ H200].
  assert (Hcode : http_status response = 200)
    by (vm_compute in Hput; now injection Hput as <- _).
  destruct (H200 Hcode) as (q & item & cart & Hq & _ & Hi & _ & _ & _ & Hsub).
  exists response, db'. split; [reflexivity|]. split; [exact Hcode|].
  injection Hq as <-. vm_compute in Hi. injection Hi as <-.
  exact Hsub.
Defined.

(** ** Rider statistics *)

Lemma totalEarnings_cons o l :
  totalEarnings (o :: l) = parseFloat_or_0 (rider_earning o) + totalEarnings l.
Proof.
  unfold totalEarnings. simpl.
  assert (Hgen : forall l acc,
             fold_left (fun sum o => sum + parseFloat_or_0 (rider_earning o)) l acc
             = acc + fold_left
                       (fun sum o => sum + parseFloat_or_0 (rider_earning o)) l 0).
  { clear. induction l as [|x l IH]; intros acc; simpl; [lia|].
    rewrite (IH (acc + parseFloat_or_0 (rider_earning x))),
      (IH (parseFloat_or_0 (rider_earning x))). lia. }
  apply Hgen.
Qed.

Lemma count_where_cons f o l :
  count_where f (o :: l) = (if f o then 1 else 0) + count_where f l.
Proof.
  unfold count_where. cbn [filter].
  destruct (f o); cbn [List.length]; lia.
Qed.

Lemma count_where_save f os o o' :
  NoDup (map id os) -> In o os -> id o' = id o ->
  count_where f (save os o')
  = count_where f os - (if f o then 1 else 0) + (if f o' then 1 else 0).
Proof.
  intros Hnd Hin Hid. induction os as [|x xs IH]; [destruct Hin|].
  simpl in Hnd. inversion Hnd as [|? ? Hnotin Hnd']; subst.
  destruct Hin as [->|Hin].
  - simpl. rewrite Hid, Z.eqb_refl. rewrite !count_where_cons. lia.
  - assert (Hne : (id x =? id o') = false).
    { apply Z.eqb_neq. intros Heq. apply Hnotin. rewrite Heq, Hid.
      now apply in_map. }
    simpl. rewrite Hne. rewrite !count_where_cons, (IH Hnd' Hin). lia.
Qed.

Lemma earnings_save os r o o' :
  NoDup (map id os) -> In o os -> id o' = id o ->
  totalEarnings (deliveredOrdersWithEarnings (save os o') r)
  = totalEarnings (deliveredOrdersWithEarnings os r)
    - (if of_rider r o && status_eqb (status o) delivered
       then parseFloat_or_0 (rider_earning o) else 0)
    + (if of_rider r o' && status_eqb (status o') delivered
       then parseFloat_or_0 (rider_earning o') else 0).
Proof.
  intros Hnd Hin Hid. unfold deliveredOrdersWithEarnings.
  induction os as [|x xs IH]; [destruct Hin|].
  simpl in Hnd. inversion Hnd as [|? ? Hnotin Hnd']; subst.
  destruct Hin as [->|Hin].
  - simpl. rewrite Hid, Z.eqb_refl. simpl.
    destruct (of_rider r o && status_eqb (status o) delivered);
      destruct (of_rider r o' && status_eqb (status o') delivered);
      rewrite ?totalEarnings_cons; lia.
  - assert (Hne : (id x =? id o') = false).
    { apply Z.eqb_neq. intros Heq. apply Hnotin. rewrite Heq, Hid.
      now apply in_map. }
    simpl. rewrite Hne. simpl.
    destruct (of_rider r x && status_eqb (status x) delivered);
      rewrite ?totalEarnings_cons, (IH Hnd' Hin); lia.
Qed.

Lemma count_where_disjoint (f g h : Order -> bool) l :
  (forall x, f x = true -> g x = false) ->
  (forall x, f x = true -> h x = true) ->
  (forall x, g x = true -> h x = true) ->
  count_where f l + count_where g l <= count_where h l.
Proof.
  intros Hfg Hfh Hgh. induction l as [|x l IH].
  - unfold count_where. simpl. lia.
  - rewrite !count_where_cons.
    specialize (Hfg x). specialize (Hfh x). specialize (Hgh x).
    destruct (f x), (g x), (h x); try lia;
      first [specialize (Hfg eq_refl) | specialize (Hfh eq_refl)
            | specialize (Hgh eq_refl)]; discriminate.
Qed.

(** X22.  [getRiderStats] fails with "Rider not found" exactly when the id
    is not that of a user with role rider; otherwise its counts are
    non-negative and the delivered and the active orders together are at
    most the rider's orders. *)
Theorem getRiderStats_counts us os riderId :
  match getRiderStats us os riderId with
  | Ok stats =>
      (exists u, User_findByPk us riderId = Some u /\ user_role u = rider) /\
      0 <= delivered_orders stats /\ 0 <= active_orders stats /\
      delivered_orders stats + active_orders stats <= total_orders stats
  | Throw e =>
      e = Error "Rider not found" /\
      forall u, User_findByPk us riderId = Some u -> user_role u <> rider
  end.
Proof.
  unfold getRiderStats.
  destruct (User_findByPk us riderId) as [u|]; [|split; [reflexivity | discriminate]].
  destruct (user_role u) eqn:Hrole; simpl;
    try (split; [reflexivity | intros u' [= <-]; congruence]).
  split; [now exists u|].
  split; [unfold count_where; lia|]. split; [unfold count_where; lia|].
  apply count_where_disjoint.
  - intros x Hx. apply andb_true_iff in Hx. destruct Hx as [-> Hd].
    destruct (status x); simpl in *; congruence.
  - intros x Hx. now apply andb_true_iff in Hx.
  - intros x Hx. now apply andb_true_iff in Hx.
Qed.

(** X23.  Delivering an order of a rider through [Order.updateStatus]
    raises that rider's total earnings by 80% of the delivery fee and the
    count of delivered orders by one; the count of all orders stays, the
    count of active orders drops by one if the order was active. *)
Theorem delivery_credits_rider us os pk o r fee additionalData now stats :
  NoDup (map id os) ->
  findByPk os pk = Some o ->
  rider_id o = Some r ->
  r <> 0 ->
  status o <> delivered ->
  delivery_fee o = Some fee ->
  ad_status additionalData = None \/ ad_status additionalData = Some delivered ->
  getRiderStats us os r = Ok stats ->
  exists os' o' stats',
    updateStatus os pk delivered additionalData now = Ok (os', o') /\
    getRiderStats us os' r = Ok stats' /\
    total_earnings stats' = total_earnings stats + earning_of_fee fee /\
    delivered_orders stats' = delivered_orders stats + 1 /\
    total_orders stats' = total_orders stats /\
    active_orders stats'
    = active_orders stats
      - (if includes active_statuses (status o) then 1 else 0).
Proof.
  intros Hnd Hf Hr Hr0 Hst Hfee Had Hstats.
  destruct (findByPk_Some _ _ _ Hf) as [Hin Hid].
  unfold updateStatus. rewrite Hf.
  set (o' := update o (updateStatus_data o delivered additionalData now)).
  assert (Ho' : rider_id o' = Some r /\ status o' = delivered /\
                rider_earning o' = Some (earning_of_fee fee) /\ id o' = id o).
  { unfold o'. simpl. rewrite Hr, Hfee. simpl.
    assert ((r =? 0) = false) as -> by lia. simpl.
    repeat split. destruct Had as [->| ->]; reflexivity. }
  destruct Ho' as (Hr' & Hst' & Hearn' & Hid').
  exists (save os o'), o'.
  unfold getRiderStats in *.
  destruct (User_findByPk us r) as [u|]; [|discriminate].
  destruct (negb (role_eqb (user_role u) rider)); [discriminate|].
  injection Hstats as <-. eexists. split; [reflexivity|].
  split; [reflexivity|]. cbn [total_earnings delivered_orders total_orders
                              active_orders].
  assert (Hof : of_rider r o = true) by (unfold of_rider; now rewrite Hr, Z.eqb_refl).
  assert (Hof' : of_rider r o' = true)
    by (unfold of_rider; now rewrite Hr', Z.eqb_refl).
  assert (Hnd' : status_eqb (status o) delivered = false)
    by (destruct (status_eqb_spec (status o) delivered); congruence).
  rewrite (earnings_save os r o o' Hnd Hin Hid').
  rewrite !(count_where_save _ os o o' Hnd Hin Hid').
  rewrite Hof, Hof', Hst', Hnd', Hearn'. simpl.
  destruct (includes active_statuses (status o)); repeat split; lia.
Qed.

Lemma delivery_credits_rider_witness :
  exists os' o' stats stats',
    getRiderStats sample_riders loaded_orders 21 = Ok stats /\
    updateStatus loaded_orders 1 delivered no_additionalData 99 = Ok (os', o') /\
    getRiderStats sample_riders os' 21 = Ok stats' /\
    total_earnings stats = 0 /\
    total_earnings stats' = 4000 /\
    active_orders stats' = 1.
Proof.
  assert (Hnd : NoDup (map id loaded_orders)).
  { simpl. repeat constructor; simpl; intuition discriminate. }
  destruct (getRiderStats sample_riders loaded_orders 21) as [stats|e] eqn:Hs;
    [|discriminate Hs].
  destruct (delivery_credits_rider sample_riders loaded_orders 1
              (sample_order 1 out_for_delivery (Some 21) 50) 21 5000
              no_additionalData 99 stats Hnd eq_refl eq_refl
              ltac:(discriminate) ltac:(discriminate) eq_refl
              (or_introl eq_refl) Hs)
    as (os' & o' & stats' & Hup & Hs' & Hearn & _ & _ & Hact).
  exists os', o', stats, stats'.
  split; [reflexivity|]. split; [exact Hup|]. split; [exact Hs'|].
  vm_compute in Hs. injection Hs as <-.
  split; [reflexivity|]. split; [rewrite Hearn; reflexivity|].
  rewrite Hact. reflexivity.
Defined.

(** ** Legal transitions from the listed statuses *)

(** X24.  A request answered 200 on an order whose current status is a key
    of the role's transition table (pending, confirmed, preparing for the
    owner; ready, out_for_delivery for the rider) is a transition of the
    role-gated table, and the order is stored with the new status. *)
Theorem put_status_legal_from_listed store_fault us rs os userId userRole pk
    body now response os' order :
  put_status store_fault us rs os userId userRole pk body now = (response, os') ->
  http_status response = 200 ->
  findByPk os pk = Some order ->
  match userRole with
  | restaurant_owner => owner_validTransitions (status order) <> None
  | rider => rider_validTransitions (status order) <> None
  | customer => False
  end ->
  exists target,
    option_map status (findByPk os' pk) = Some target /\
    legal_transition userRole (status order) target = true.
Proof.
  intros H Hcode Hf Hlisted.
  destruct (put_status_accepted _ _ _ _ _ _ _ _ _ _ _ H Hcode)
    as (name & target & order' & os1 & updatedOrder & Hb & Hn & Hf' & Hchk & _ & _).
  assert (order' = order) by congruence. subst order'.
  destruct (put_status_stored _ _ _ _ _ _ _ _ _ _ _ H Hcode)
    as (name' & target' & Hb' & Hn' & Hst & _).
  assert (target' = target) by congruence. subst target'.
  exists target. split; [exact Hst|].
  now apply (role_checks_legal rs userId).
Qed.

Lemma put_status_legal_from_listed_witness :
  exists response os' target,
    put_status no_fault sample_riders sample_restaurants loaded_orders
      21 rider 1 (mkStatusBody (Some "delivered") None) 99 = (response, os') /\
    option_map status (findByPk os' 1) = Some target /\
    legal_transition rider out_for_delivery target = true.
Proof.
  destruct (put_status no_fault sample_riders sample_restaurants loaded_orders
              21 rider 1 (mkStatusBody (Some "delivered") None) 99)
    as [response os'] eqn:Hput.
  destruct (put_status_legal_from_listed _ _ _ _ _ _ _ _ _ _ _
              (sample_order 1 out_for_delivery (Some 21) 50) Hput)
    as (target & Hst & Hlegal).
  - vm_compute in Hput. now injection Hput as <- _.
  - reflexivity.
  - discriminate.
  - exists response, os', target. split; [reflexivity|]. now split.
Defined.

(** ** Marking an order ready dispatches it *)

Lemma filter_save_same (f : Order -> bool) os o o' :
  findByPk os (id o') = Some o -> f o = false -> f o' = false ->
  filter f (save os o') = filter f os.
Proof.
  unfold findByPk. induction os as [|x xs IH]; simpl; intros Hf Ho Ho';
    [reflexivity|].
  destruct (id x =? id o') eqn:Hx.
  - injection Hf as ->. simpl. now rewrite Ho, Ho'.
  - simpl. destruct (f x); [f_equal|]; now apply IH.
Qed.

Lemma findAvailableRiders_save us os o o' limit :
  findByPk os (id o') = Some o ->
  rider_id o = None -> rider_id o' = None ->
  findAvailableRiders us (save os o') limit = findAvailableRiders us os limit.
Proof.
  intros Hf Hr Hr'. unfold findAvailableRiders, busyRiders.
  destruct (findByRole us rider 100) as [|u0 all]; [reflexivity|].
  rewrite (filter_save_same _ os o o' Hf); [reflexivity| |].
  - now rewrite Hr.
  - now rewrite Hr'.
Qed.

(** X25.  When the owner's request makes an unassigned order ready and no
    store access fails, the request is answered 200 and the order is
    stored ready; it then carries a rider taken from the riders available
    before the request if there was one, and no rider otherwise. *)
Theorem put_status_ready_dispatches us rs os userId pk order restaurant
    estimate now :
  findByPk os pk = Some order ->
  status order = preparing ->
  rider_id order = None ->
  Restaurant_findByPk rs (restaurant_id order) = Some restaurant ->
  owner_id restaurant = userId ->
  exists response os' o',
    put_status no_fault us rs os userId restaurant_owner pk
      (mkStatusBody (Some "ready") estimate) now = (response, os') /\
    http_status response = 200 /\
    findByPk os' pk = Some o' /\
    status o' = ready /\
    (findAvailableRiders us os 10 = [] -> rider_id o' = None) /\
    (findAvailableRiders us os 10 <> [] ->
     exists u, In u (findAvailableRiders us os 10) /\
               rider_id o' = Some (user_id u)).
Proof.
  intros Hf Hs Hr Hrest Hown.
  destruct (findByPk_Some _ _ _ Hf) as [_ Hid].
  set (ad := mkAdditionalData (Some ready)
               (match estimate with
                | Some t => if t =? 0 then None else Some t
                | None => None
                end) None).
  set (o1 := update order (updateStatus_data order ready ad now)).
  set (os1 := save os o1).
  assert (Hf1 : findByPk os1 pk = Some o1).
  { apply (findByPk_save _ _ _ _ Hf). unfold o1. now rewrite update_id. }
  assert (Ho1 : status o1 = ready /\ rider_id o1 = None /\ id o1 = pk).
  { unfold o1. simpl. rewrite Hr. now repeat split. }
  destruct Ho1 as (Hs1 & Hr1 & Hid1).
  assert (Hav : findAvailableRiders us os1 10 = findAvailableRiders us os 10).
  { apply (findAvailableRiders_save us os order o1); [|assumption..].
    now rewrite Hid1. }
  assert (Hput : put_status no_fault us rs os userId restaurant_owner pk
                   (mkStatusBody (Some "ready") estimate) now
                 = (mkResponse 200 true
                      ("Order status updated from " ++ status_name (status order)
                         ++ " to " ++ status_name ready
                         ++ match snd (after_update no_fault us os1
                                         restaurant_owner pk ready o1) with
                            | Some r =>
                                ". Rider " ++ user_name r
                                  ++ " automatically assigned."
                            | None => ""
                            end)%string,
                    fst (after_update no_fault us os1 restaurant_owner pk
                           ready o1))).
  { unfold put_status. cbn [body_status body_estimated_delivery_time].
    change (String.eqb "ready" "") with false. cbv iota.
    change (status_of_string "ready") with (Some ready). cbv iota.
    rewrite Hf. cbn [role_checks]. unfold owner_checks. rewrite Hrest.
    assert ((owner_id restaurant =? userId) = true) as -> by lia.
    unfold transition_refused. rewrite Hs. simpl negb. cbv iota.
    simpl includes. cbv iota. simpl owner_validTransitions. cbv iota.
    simpl includes. simpl negb. cbv iota.
    unfold updateStatus. rewrite Hf. fold ad. fold o1. fold os1.
    destruct (after_update no_fault us os1 restaurant_owner pk ready o1)
      as [os2 assigned]. reflexivity. }
  rewrite Hput.
  unfold after_update. rewrite Hr1. simpl andb. cbv iota.
  unfold try_autoAssignRider, no_fault.
  unfold autoAssignRider. rewrite Hf1, Hs1, Hr1. simpl negb. cbv iota.
  simpl truthy_id. cbv iota. rewrite Hav.
  destruct (findAvailableRiders us os 10) as [|u0 avail] eqn:Havail.
  - eexists _, _, o1. split; [reflexivity|]. split; [reflexivity|].
    cbn [success fst]. split; [exact Hf1|]. split; [exact Hs1|].
    split; [intros _; exact Hr1 | intros Hne; now contradiction Hne].
  - destruct (sort_by_count (riderDeliveryCounts os1 (u0 :: avail)))
      as [|first rest] eqn:Hsort.
    { apply stable_sort_nil_inv in Hsort. discriminate. }
    assert (Hin : In (rc_rider first) (u0 :: avail)).
    { assert (Hfirst : In first (first :: rest)) by now left.
      rewrite <- Hsort in Hfirst. unfold sort_by_count in Hfirst.
      rewrite in_stable_sort in Hfirst. unfold riderDeliveryCounts in Hfirst.
      apply in_map_iff in Hfirst. now destruct Hfirst as (u & <- & Hu). }
    destruct (assignRider_Ok os1 pk o1 (user_id (rc_rider first)) Hf1 Hs1)
      as (os2 & o2 & Has & Hf2 & Hr2 & Hs2).
    rewrite Has. cbn [bind success fst snd].
    eexists _, _, o2. split; [reflexivity|]. split; [reflexivity|].
    split; [exact Hf2|]. split; [exact Hs2|].
    split; [discriminate|]. intros _. exists (rc_rider first). now split.
Qed.

Lemma put_status_ready_dispatches_witness :
  exists response os' o',
    put_status no_fault sample_riders sample_restaurants
      [sample_order 1 preparing None 50] 9 restaurant_owner 1
      (mkStatusBody (Some "ready") None) 99 = (response, os') /\
    findByPk os' 1 = Some o' /\
    status o' = ready /\
    rider_id o' = Some 23.
Proof.
  destruct (put_status_ready_dispatches sample_riders sample_restaurants
              [sample_order 1 preparing None 50] 9 1
              (sample_order 1 preparing None 50)
              (mkRestaurant 3 "Spice Route" 9 true true) None 99
              eq_refl eq_refl eq_refl eq_refl eq_refl)
    as (response & os' & o' & Hput & _ & Hf & Hs & _ & _).
  exists response, os', o'. split; [exact Hput|]. split; [exact Hf|].
  split; [exact Hs|].
  vm_compute in Hput. injection Hput as _ <-.
  vm_compute in Hf. now injection Hf as <-.
Defined.

(** ** One order per rider in a drain *)

Lemma filter_save_grows (f : Order -> bool) os o o' :
  findByPk os (id o') = Some o -> f o = false ->
  (List.length (filter f os) <= List.length (filter f (save os o')))%nat.
Proof.
  unfold findByPk. induction os as [|x xs IH]; intros Hf Ho; [discriminate|].
  cbn [find] in Hf. cbn [save].
  destruct (id x =? id o') eqn:Hx.
  - injection Hf as ->. cbn [filter]. rewrite Ho.
    destruct (f o'); cbn [List.length]; lia.
  - cbn [filter]. specialize (IH Hf Ho).
    destruct (f x); cbn [List.length]; lia.
Qed.

Lemma activeDeliveries_assign os pk o u r :
  r <> 0 ->
  findByPk os pk = Some o ->
  truthy_id (rider_id o) = false ->
  activeDeliveries os r
  <= activeDeliveries
       (save os (update o (mkUpdateData None (Some (Some u))
                             None None None None None))) r.
Proof.
  intros Hr Hf Ht. unfold activeDeliveries.
  destruct (findByPk_Some _ _ _ Hf) as [_ Hid].
  apply Nat2Z.inj_le. apply (filter_save_grows _ os o).
  - now rewrite update_id, Hid.
  - destruct (rider_id o) as [r0|]; [|reflexivity].
    simpl in Ht. apply negb_false_iff in Ht.
    assert ((r0 =? r) = false) as -> by lia. reflexivity.
Qed.

Lemma activeDeliveries_nonneg os r : 0 <= activeDeliveries os r.
Proof. unfold activeDeliveries. lia. Qed.

Lemma assign_each_fresh store_fault us :
  (forall u, In u us -> user_id u <> 0) ->
  forall pendingOrders os,
    NoDup (flat_map (fun e => match ae_alreadyAssigned e, ae_rider e with
                              | Some false, Some u => [user_id u]
                              | _, _ => []
                              end)
             (snd (assign_each store_fault us os pendingOrders))) /\
    forall r,
      In r (flat_map (fun e => match ae_alreadyAssigned e, ae_rider e with
                               | Some false, Some u => [user_id u]
                               | _, _ => []
                               end)
              (snd (assign_each store_fault us os pendingOrders))) ->
      r <> 0 /\ activeDeliveries os r = 0.
Proof.
  intros Hids pendingOrders.
  induction pendingOrders as [|order rest IH]; intros os.
  - simpl. split; [constructor | intros r []].
  - cbn [assign_each].
    destruct (assign_one store_fault us os order) as [os1 entry] eqn:Hone.
    specialize (IH os1).
    destruct (assign_each store_fault us os1 rest) as [os2 entries].
    cbn [snd] in *. cbn [flat_map].
    destruct IH as [IHnd IHfree].
    unfold assign_one, try_autoAssignRider in Hone.
    destruct (store_fault (id order)) as [e|].
    { injection Hone as <- <-. simpl. now split. }
    destruct (autoAssignRider us os (id order)) as [[os' result]|e] eqn:Hauto.
    2:{ injection Hone as <- <-. simpl. now split. }
    injection Hone as <- <-. cbn [ae_alreadyAssigned ae_rider].
    destruct (autoAssignRider_inv _ _ _ _ _ Hauto) as (o & Hf & Hcase).
    destruct Hcase as [[-> Hno]|(u & Hs & Ht & Hin & _ & Hu & Hfresh & ->)].
    + destruct (alreadyAssigned result) as [[|]|]; simpl;
        [now split | now contradiction Hno | now split].
    + rewrite Hfresh, Hu. cbn [app].
      destruct (findAvailableRiders_In _ _ _ _ Hin) as (Hus & _).
      pose proof (Hids u Hus) as Hne.
      pose proof (activeDeliveries_available us os 10 u Hne Hin) as Hzero.
      destruct (findByPk_Some _ _ _ Hf) as [_ Hid].
      assert (Hpos : 0 < activeDeliveries
                         (save os (update o (mkUpdateData None
                                               (Some (Some (user_id u)))
                                               None None None None None)))
                         (user_id u)).
      { apply (activeDeliveries_pos _
                 (update o (mkUpdateData None (Some (Some (user_id u)))
                              None None None None None))).
        - apply (findByPk_Some _ (id order)).
          apply (findByPk_save _ _ _ _ Hf). now rewrite update_id.
        - reflexivity.
        - simpl. now rewrite Hs. }
      split.
      * constructor; [|exact IHnd]. intros Hmem.
        destruct (IHfree _ Hmem) as [_ Hz]. lia.
      * intros r [<-|Hr]; [now split|].
        destruct (IHfree r Hr) as [Hr0 Hz]. split; [exact Hr0|].
        pose proof (activeDeliveries_assign os (id order) o (user_id u) r
                      Hr0 Hf Ht).
        pose proof (activeDeliveries_nonneg os r). lia.
Qed.

(** X26.  In one drain no rider receives two orders, and every rider who
    receives one had no ready or out_for_delivery order before the drain. *)
Theorem drain_assigns_free_riders_once store_fault us os maxAssignments r1 :
  (forall u, In u us -> user_id u <> 0) ->
  NoDup (flat_map (fun e => match ae_alreadyAssigned e, ae_rider e with
                            | Some false, Some u => [user_id u]
                            | _, _ => []
                            end)
           (snd (assignPendingReadyOrders store_fault us os maxAssignments))) /\
  (In r1 (flat_map (fun e => match ae_alreadyAssigned e, ae_rider e with
                             | Some false, Some u => [user_id u]
                             | _, _ => []
                             end)
            (snd (assignPendingReadyOrders store_fault us os maxAssignments))) ->
   activeDeliveries os r1 = 0).
Proof.
  intros Hids. unfold assignPendingReadyOrders.
  destruct (assign_each_fresh store_fault us Hids
              (findAvailableForRider os maxAssignments) os) as [Hnd Hfree].
  split; [exact Hnd|]. intros Hin. now destruct (Hfree r1 Hin).
Qed.

Lemma drain_assigns_free_riders_once_witness :
  map ae_rider (snd (assignPendingReadyOrders no_fault sample_riders
                       backlog_orders 2))
  = [Some (mkUser 23 "Chen" rider true 30);
     Some (mkUser 22 "Bilal" rider true 20)] /\
  activeDeliveries backlog_orders 23 = 0.
Proof.
  split; [reflexivity|].
  apply (drain_assigns_free_riders_once no_fault sample_riders backlog_orders 2 23).
  - intros u [<-|[<-|[<-|[]]]]; discriminate.
  - vm_compute. now left.
Defined.
